(** * Progress roll-up, cascade update and notification deduplication

    A shallow embedding of the core of the project-management system
    (models/base.py, task.py, process.py, phase.py, project.py,
    notification.py and core/manager.py) together with the properties
    stated about it.

    Conventions of the embedding.
    - Python [float] values are idealised as exact rationals ([Q]);
      [round(x, 1)] is rounding to the nearest tenth, ties to even.
    - Status values are the strings of the source.
    - The entity managers are dictionaries keyed by strings; an object
      held by a manager is referred to by the key it is stored under,
      and mutating the object is writing the new value back under
      that key.
    - A Python exception is a [Raise] result; a raising body keeps the
      mutations it performed before the raise.
    - Clock readings ([datetime.now()]) are arguments. *)

From Stdlib Require Import QArith ZArith List String Ascii Lia Lqa Bool Qround.
From Stdlib Require Import DecimalString.
From stdpp Require Import gmap strings list fin_maps.

Open Scope string_scope.
Open Scope list_scope.
Open Scope nat_scope.

Set Warnings "-register-all".

(** ** Python values and exceptions *)

Inductive exn : Type :=
| AttributeError
| BusinessLogicError
| KeyError
| ValueError.

Inductive result (A : Type) : Type :=
| Ok (a : A)
| Raise (e : exn).
Arguments Ok {A} a.
Arguments Raise {A} e.

Definition rbind {A B} (r : result A) (k : A -> result B) : result B :=
  match r with
  | Ok a => k a
  | Raise e => Raise e
  end.

(** Truthiness of a string, and of an optional string ([None] is falsy). *)
Definition truthy (s : string) : bool :=
  match s with
  | EmptyString => false
  | String _ _ => true
  end.

Definition truthy_opt (o : option string) : bool :=
  match o with
  | Some s => truthy s
  | None => false
  end.

(** [str.strip()] on the ASCII white-space characters (tab, line feed,
    vertical tab, form feed, carriage return, the separators 28-31 and
    space). *)
Definition isspace (c : ascii) : bool :=
  let n := nat_of_ascii c in
  ((9 <=? n) && (n <=? 13)) || ((28 <=? n) && (n <=? 32)).

Fixpoint lstrip (s : string) : string :=
  match s with
  | EmptyString => EmptyString
  | String c r => if isspace c then lstrip r else s
  end.

Fixpoint rstrip (s : string) : string :=
  match s with
  | EmptyString => EmptyString
  | String c r =>
      match rstrip r with
      | EmptyString => if isspace c then EmptyString else String c EmptyString
      | r' => String c r'
      end
  end.

Definition strip (s : string) : string := rstrip (lstrip s).

(** ** Floats as rationals *)

Definition round_half_even (x : Q) : Z :=
  let f := Qfloor x in
  match Qcompare (x - inject_Z f) (1 # 2) with
  | Lt => f
  | Gt => (f + 1)%Z
  | Eq => if Z.even f then f else (f + 1)%Z
  end.

(** [round(x, 1)] *)
Definition round1 (x : Q) : Q := Qmake (round_half_even (x * 10)) 10.

Definition float_of_nat (n : nat) : Q := inject_Z (Z.of_nat n).

Definition Qsum (l : list Q) : Q := fold_right Qplus 0%Q l.

(** ** Dates and timestamps ([datetime.date], naive [datetime.datetime]) *)

Record date : Type := mkdate { year : Z; month : Z; day : Z }.

Record datetime : Type := mkdatetime {
  dt_date : date;
  hour : Z;
  minute : Z;
  second : Z;
  microsecond : Z
}.

Definition is_leap (y : Z) : bool :=
  ((y mod 4 =? 0) && (negb (y mod 100 =? 0) || (y mod 400 =? 0)))%Z.

Definition days_in_month (y m : Z) : Z :=
  match m with
  | 2 => if is_leap y then 29 else 28
  | 4 | 6 | 9 | 11 => 30
  | _ => 31
  end%Z.

Definition days_before_month (y m : Z) : Z :=
  (match m with
   | 1 => 0 | 2 => 31 | 3 => 59 | 4 => 90 | 5 => 120 | 6 => 151
   | 7 => 181 | 8 => 212 | 9 => 243 | 10 => 273 | 11 => 304 | _ => 334
   end + (if (2 <? m) && is_leap y then 1 else 0))%Z.

Definition days_before_year (y : Z) : Z :=
  (let p := y - 1 in p * 365 + p / 4 - p / 100 + p / 400)%Z.

Definition toordinal (d : date) : Z :=
  (days_before_year (year d) + days_before_month (year d) (month d) + day d)%Z.

(** [(a - b).days] *)
Definition days_between (a b : date) : Z := (toordinal a - toordinal b)%Z.

(** What the [date] constructor accepts. *)
Definition date_ok (d : date) : bool :=
  ((1 <=? year d) && (year d <=? 9999) &&
   (1 <=? month d) && (month d <=? 12) &&
   (1 <=? day d) && (day d <=? days_in_month (year d) (month d)))%Z.

Definition datetime_ok (t : datetime) : bool :=
  date_ok (dt_date t) &&
  ((0 <=? hour t) && (hour t <? 24) && (0 <=? minute t) && (minute t <? 60) &&
   (0 <=? second t) && (second t <? 60) &&
   (0 <=? microsecond t) && (microsecond t <? 1000000))%Z.

Definition date_ltb (a b : date) : bool :=
  ((year a <? year b) ||
   ((year a =? year b) &&
    ((month a <? month b) || ((month a =? month b) && (day a <? day b)))))%Z.

(** [min(l)] and [max(l)] of a non-empty list of dates; the first of
    equal elements is kept, as Python does. *)
Definition date_min (d : date) (l : list date) : date :=
  fold_left (fun m x => if date_ltb x m then x else m) l d.

Definition date_max (d : date) (l : list date) : date :=
  fold_left (fun m x => if date_ltb m x then x else m) l d.

(** *** ISO 8601 rendering and parsing *)

Definition digit (n : Z) : ascii := ascii_of_N (Z.to_N (48 + n)).

Definition digit_val (c : ascii) : option Z :=
  let n := Z.of_N (N_of_ascii c) in
  if ((48 <=? n) && (n <=? 57))%Z then Some (n - 48)%Z else None.

Fixpoint number (l : list ascii) (acc : Z) : option Z :=
  match l with
  | [] => Some acc
  | c :: r =>
      match digit_val c with
      | Some d => number r (10 * acc + d)%Z
      | None => None
      end
  end.

(** ["%02d"], ["%04d"] and ["%06d"] on fields within their range. *)
Definition pad2 (n : Z) : list ascii :=
  [digit (n / 10 mod 10); digit (n mod 10)]%Z.

Definition pad4 (n : Z) : list ascii :=
  [digit (n / 1000 mod 10); digit (n / 100 mod 10);
   digit (n / 10 mod 10); digit (n mod 10)]%Z.

Definition pad6 (n : Z) : list ascii :=
  [digit (n / 100000 mod 10); digit (n / 10000 mod 10); digit (n / 1000 mod 10);
   digit (n / 100 mod 10); digit (n / 10 mod 10); digit (n mod 10)]%Z.

Definition dash : ascii := "-"%char.
Definition colon : ascii := ":"%char.
Definition dot : ascii := "."%char.
Definition sepT : ascii := "T"%char.

Definition date_chars (d : date) : list ascii :=
  pad4 (year d) ++ dash :: pad2 (month d) ++ dash :: pad2 (day d).

Definition date_isoformat (d : date) : string :=
  string_of_list_ascii (date_chars d).

Definition time_chars (t : datetime) : list ascii :=
  pad2 (hour t) ++ colon :: pad2 (minute t) ++ colon :: pad2 (second t) ++
  (if (microsecond t =? 0)%Z then [] else dot :: pad6 (microsecond t)).

Definition datetime_isoformat (t : datetime) : string :=
  string_of_list_ascii (date_chars (dt_date t) ++ sepT :: time_chars t).

Definition parse_date (l : list ascii) : option date :=
  match l with
  | [y1; y2; y3; y4; s1; m1; m2; s2; d1; d2] =>
      if Ascii.eqb s1 dash && Ascii.eqb s2 dash then
        match number [y1; y2; y3; y4] 0%Z, number [m1; m2] 0%Z, number [d1; d2] 0%Z with
        | Some y, Some m, Some d =>
            let r := mkdate y m d in if date_ok r then Some r else None
        | _, _, _ => None
        end
      else None
  | _ => None
  end.

Definition parse_time (d : date) (l : list ascii) : option datetime :=
  match l with
  | h1 :: h2 :: s1 :: m1 :: m2 :: s2 :: c1 :: c2 :: frac =>
      if Ascii.eqb s1 colon && Ascii.eqb s2 colon then
        match number [h1; h2] 0%Z, number [m1; m2] 0%Z, number [c1; c2] 0%Z with
        | Some h, Some m, Some s =>
            let us :=
              match frac with
              | [] => Some 0%Z
              | p :: [f1; f2; f3; f4; f5; f6] =>
                  if Ascii.eqb p dot then number [f1; f2; f3; f4; f5; f6] 0%Z else None
              | _ => None
              end in
            match us with
            | Some u =>
                let r := mkdatetime d h m s u in
                if datetime_ok r then Some r else None
            | None => None
            end
        | _, _, _ => None
        end
      else None
  | _ => None
  end.

(** [date.fromisoformat] on the [YYYY-MM-DD] form; [None] stands for
    [ValueError]. *)
Definition date_fromisoformat (s : string) : option date :=
  parse_date (list_ascii_of_string s).

(** [datetime.fromisoformat] on the forms [isoformat()] produces for a
    naive timestamp. *)
Definition datetime_fromisoformat (s : string) : option datetime :=
  let l := list_ascii_of_string s in
  match parse_date (firstn 10 l), skipn 10 l with
  | Some d, sep :: rest => parse_time d rest
  | _, _ => None
  end.

(** ** Dictionaries produced by [to_dict] and read by [from_dict] *)

Inductive pyval : Type :=
| PNone
| PBool (b : bool)
| PInt (z : Z)
| PFloat (q : Q)
| PStr (s : string)
| PList (l : list pyval)
| PDict (d : list (string * pyval)).

Definition pydict : Type := list (string * pyval).

Definition py_truthy (v : pyval) : bool :=
  match v with
  | PNone => false
  | PBool b => b
  | PInt z => negb (z =? 0)%Z
  | PFloat q => negb (Qeq_bool q 0)
  | PStr s => truthy s
  | PList l => match l with [] => false | _ => true end
  | PDict d => match d with [] => false | _ => true end
  end.

(** A Python [dict] with string keys keeps its entries in insertion
    order: a list of pairs with distinct keys. *)
Fixpoint dict_get {V : Type} (k : string) (d : list (string * V)) : option V :=
  match d with
  | [] => None
  | (k', v) :: r => if String.eqb k k' then Some v else dict_get k r
  end.

(** [d[k] = v]: an existing key keeps its position. *)
Fixpoint dict_set {V : Type} (k : string) (v : V) (d : list (string * V))
  : list (string * V) :=
  match d with
  | [] => [(k, v)]
  | (k', v') :: r =>
      if String.eqb k k' then (k', v) :: r else (k', v') :: dict_set k v r
  end.

(** [del d[k]] *)
Fixpoint dict_del {V : Type} (k : string) (d : list (string * V)) : list (string * V) :=
  match d with
  | [] => []
  | (k', v') :: r => if String.eqb k k' then r else (k', v') :: dict_del k r
  end.

(** [d1.update(d2)] *)
Definition dict_update (d1 d2 : pydict) : pydict :=
  fold_left (fun d kv => dict_set (fst kv) (snd kv) d) d2 d1.

(** Typed readers.  [None] stands for an exception ([KeyError],
    [ValueError], [TypeError]) or for a value whose type is not the one
    the attribute is declared with. *)
Definition get_item_str (d : pydict) (k : string) : option string :=
  match dict_get k d with
  | Some (PStr s) => Some s
  | _ => None
  end.

Definition get_str (d : pydict) (k : string) (default : string) : option string :=
  match dict_get k d with
  | None => Some default
  | Some (PStr s) => Some s
  | Some _ => None
  end.

Definition get_opt_str (d : pydict) (k : string) : option (option string) :=
  match dict_get k d with
  | None | Some PNone => Some None
  | Some (PStr s) => Some (Some s)
  | Some _ => None
  end.

Definition get_int (d : pydict) (k : string) (default : Z) : option Z :=
  match dict_get k d with
  | None => Some default
  | Some (PInt z) => Some z
  | Some _ => None
  end.

Definition get_float (d : pydict) (k : string) (default : Q) : option Q :=
  match dict_get k d with
  | None => Some default
  | Some (PFloat q) => Some q
  | Some _ => None
  end.

Definition get_opt_float (d : pydict) (k : string) : option (option Q) :=
  match dict_get k d with
  | None | Some PNone => Some None
  | Some (PFloat q) => Some (Some q)
  | Some _ => None
  end.

Definition get_bool (d : pydict) (k : string) (default : bool) : option bool :=
  match dict_get k d with
  | None => Some default
  | Some (PBool b) => Some b
  | Some _ => None
  end.

Fixpoint as_str_list (l : list pyval) : option (list string) :=
  match l with
  | [] => Some []
  | PStr s :: r =>
      match as_str_list r with
      | Some r' => Some (s :: r')
      | None => None
      end
  | _ :: _ => None
  end.

(** [data.get(k, []).copy()] *)
Definition get_str_list (d : pydict) (k : string) : option (list string) :=
  match dict_get k d with
  | None => Some []
  | Some (PList l) => as_str_list l
  | Some _ => None
  end.

(** [datetime.fromisoformat(data[k])] *)
Definition get_item_datetime (d : pydict) (k : string) : option datetime :=
  match dict_get k d with
  | Some (PStr s) => datetime_fromisoformat s
  | _ => None
  end.

(** [date.fromisoformat(v) if v else None] *)
Definition date_if_truthy (v : pyval) : option (option date) :=
  if py_truthy v then
    match v with
    | PStr s =>
        match date_fromisoformat s with
        | Some x => Some (Some x)
        | None => None
        end
    | _ => None
    end
  else Some None.

(** [date.fromisoformat(data[k]) if data.get(k) else None] *)
Definition get_opt_date (d : pydict) (k : string) : option (option date) :=
  match dict_get k d with
  | None => Some None
  | Some v => date_if_truthy v
  end.

Definition opt_float_val (o : option Q) : pyval :=
  match o with
  | Some q => PFloat q
  | None => PNone
  end.

Definition opt_str_val (o : option string) : pyval :=
  match o with
  | Some s => PStr s
  | None => PNone
  end.

(** [x.isoformat() if x else None] (a [date] object is always truthy) *)
Definition opt_date_val (o : option date) : pyval :=
  match o with
  | Some x => PStr (date_isoformat x)
  | None => PNone
  end.

Definition str_list_val (l : list string) : pyval := PList (map PStr l).

(** ** models/base.py *)

Module BaseEntity.

Record t : Type := mk {
  id : string;
  name : string;
  description : string;
  created_at : datetime;
  updated_at : datetime
}.

(** [__init__]; [uuid] is the rendering of a fresh [uuid.uuid4()]. *)
Definition init (uuid : string) (now : datetime) (name description : string) : t :=
  mk uuid name description now now.

Definition update_timestamp (now : datetime) (e : t) : t :=
  mk (id e) (name e) (description e) (created_at e) now.

(** The part of [to_dict] before the subclass attributes are merged. *)
Definition base_dict (e : t) : pydict :=
  [("id", PStr (id e));
   ("name", PStr (name e));
   ("description", PStr (description e));
   ("created_at", PStr (datetime_isoformat (created_at e)));
   ("updated_at", PStr (datetime_isoformat (updated_at e)))].

(** The base part of [validate]. *)
Definition validate (e : t) : bool :=
  if negb (truthy (name e)) || negb (truthy (strip (name e))) then false
  else if negb (truthy (id e)) then false
  else true.

(** What every [from_dict] does for the base attributes: construct
    with [data['name']] and [data.get('description', '')], then
    restore [id], [created_at], [updated_at]. *)
Definition restore (data : pydict) : option t :=
  n ← get_item_str data "name";
  desc ← get_str data "description" "";
  i ← get_item_str data "id";
  c ← get_item_datetime data "created_at";
  u ← get_item_datetime data "updated_at";
  Some (mk i n desc c u).

End BaseEntity.

Module TaskStatus.
Definition NOT_STARTED : string := "未着手".
Definition IN_PROGRESS : string := "進行中".
Definition COMPLETED : string := "完了".
Definition CANNOT_HANDLE : string := "対応不能".

Definition get_all_values : list string :=
  [NOT_STARTED; IN_PROGRESS; COMPLETED; CANNOT_HANDLE].

Definition is_valid (value : string) : bool :=
  existsb (String.eqb value) get_all_values.
End TaskStatus.

Module ProjectStatus.
Definition NOT_STARTED : string := "未着手".
Definition IN_PROGRESS : string := "進行中".
Definition COMPLETED : string := "完了".
Definition SUSPENDED : string := "中止".
Definition ON_HOLD : string := "保留".

Definition get_all_values : list string :=
  [NOT_STARTED; IN_PROGRESS; COMPLETED; SUSPENDED; ON_HOLD].

Definition is_valid (value : string) : bool :=
  existsb (String.eqb value) get_all_values.
End ProjectStatus.

(** ** models/task.py *)

Module StatusChange.

Record t : Type := mk {
  id : string;
  old_status : string;
  new_status : string;
  changed_at : datetime;
  changed_by : string;
  comment : string
}.

(** [__init__]; [stamp] is the rendering of
    [datetime.now().timestamp()]. *)
Definition init (stamp : string) (now : datetime)
    (old_status new_status changed_by : string) : t :=
  mk stamp old_status new_status now changed_by "".

Definition with_comment (c : t) (s : string) : t :=
  mk (id c) (old_status c) (new_status c) (changed_at c) (changed_by c) s.

Definition to_dict (c : t) : pydict :=
  [("id", PStr (id c));
   ("old_status", PStr (old_status c));
   ("new_status", PStr (new_status c));
   ("changed_at", PStr (datetime_isoformat (changed_at c)));
   ("changed_by", PStr (changed_by c));
   ("comment", PStr (comment c))].

Definition from_dict (data : pydict) : option t :=
  o ← get_item_str data "old_status";
  n ← get_item_str data "new_status";
  b ← get_str data "changed_by" "system";
  i ← get_item_str data "id";
  a ← get_item_datetime data "changed_at";
  c ← get_str data "comment" "";
  Some (mk i o n a b c).

End StatusChange.

Module Task.

Record t : Type := mk {
  base : BaseEntity.t;
  status : string;
  status_history : list StatusChange.t;
  parent_process_id : option string;
  priority : Z;
  estimated_hours : option Q;
  actual_hours : option Q;
  notes : string;
  tags : list string
}.

Definition id (x : t) : string := BaseEntity.id (base x).

(** [__init__], including the initial history entry. *)
Definition init (uuid stamp : string) (now : datetime) (name description : string) : t :=
  mk (BaseEntity.init uuid now name description)
     TaskStatus.NOT_STARTED
     [StatusChange.init stamp now "" TaskStatus.NOT_STARTED "system"]
     None 3%Z None None "" [].

Definition set_status (stamp : string) (now : datetime) (x : t)
    (new_status changed_by comment : string) : t * bool :=
  if negb (TaskStatus.is_valid new_status) then (x, false)
  else if String.eqb new_status (status x) then (x, true)
  else
    let old_status := status x in
    let change := StatusChange.init stamp now old_status new_status changed_by in
    let change := if truthy comment then StatusChange.with_comment change comment
                  else change in
    (mk (BaseEntity.update_timestamp now (base x)) new_status
        (status_history x ++ [change])
        (parent_process_id x) (priority x) (estimated_hours x) (actual_hours x)
        (notes x) (tags x),
     true).

Definition is_completed (x : t) : bool := String.eqb (status x) TaskStatus.COMPLETED.

Definition is_cannot_handle (x : t) : bool :=
  String.eqb (status x) TaskStatus.CANNOT_HANDLE.

Definition is_actionable (x : t) : bool := negb (is_cannot_handle x).

Definition get_completion_percentage (x : t) : Q :=
  if is_completed x then 100%Q
  else if is_cannot_handle x then 0%Q
  else 0%Q.

Definition _to_dict_additional (x : t) : pydict :=
  [("status", PStr (status x));
   ("status_history", PList (map (fun c => PDict (StatusChange.to_dict c)) (status_history x)));
   ("parent_process_id", opt_str_val (parent_process_id x));
   ("priority", PInt (priority x));
   ("estimated_hours", opt_float_val (estimated_hours x));
   ("actual_hours", opt_float_val (actual_hours x));
   ("notes", PStr (notes x));
   ("tags", str_list_val (tags x))].

Definition to_dict (x : t) : pydict :=
  dict_update (BaseEntity.base_dict (base x)) (_to_dict_additional x).

Fixpoint restore_history (l : list pyval) : option (list StatusChange.t) :=
  match l with
  | [] => Some []
  | PDict d :: r =>
      match StatusChange.from_dict d, restore_history r with
      | Some c, Some r' => Some (c :: r')
      | _, _ => None
      end
  | _ :: _ => None
  end.

Definition from_dict (data : pydict) : option t :=
  b ← BaseEntity.restore data;
  st ← get_str data "status" TaskStatus.NOT_STARTED;
  pp ← get_opt_str data "parent_process_id";
  pr ← get_int data "priority" 3%Z;
  eh ← get_opt_float data "estimated_hours";
  ah ← get_opt_float data "actual_hours";
  nt ← get_str data "notes" "";
  tg ← get_str_list data "tags";
  h ← match dict_get "status_history" data with
      | None => Some []
      | Some (PList l) => restore_history l
      | Some _ => None
      end;
  Some (mk b st h pp pr eh ah nt tg).

Definition _validate_additional (x : t) : bool :=
  if negb (TaskStatus.is_valid (status x)) then false
  else if negb ((1 <=? priority x) && (priority x <=? 5))%Z then false
  else if match estimated_hours x with
          | Some h => negb (Qle_bool 0 h)
          | None => false
          end then false
  else if match actual_hours x with
          | Some h => negb (Qle_bool 0 h)
          | None => false
          end then false
  else true.

Definition validate (x : t) : bool :=
  BaseEntity.validate (base x) && _validate_additional x.

End Task.

(** [TaskManager.tasks] and [get_task] *)
Definition get_task (tasks : gmap string Task.t) (task_id : string) : option Task.t :=
  tasks !! task_id.

(** ** models/process.py *)

Module ProcessStatus.
Definition NOT_STARTED : string := "未着手".
Definition IN_PROGRESS : string := "進行中".
Definition COMPLETED : string := "完了".
End ProcessStatus.

(** [l.remove(x)]: the first occurrence goes. *)
Fixpoint remove_first (x : string) (l : list string) : list string :=
  match l with
  | [] => []
  | y :: r => if String.eqb x y then r else y :: remove_first x r
  end.

Definition mem (x : string) (l : list string) : bool := existsb (String.eqb x) l.

(** [x is not None and x < 0] *)
Definition negative_opt (o : option Q) : bool :=
  match o with
  | Some h => negb (Qle_bool 0 h)
  | None => false
  end.

(** [a and b and a > b] on optional dates *)
Definition dates_reversed (a b : option date) : bool :=
  match a, b with
  | Some x, Some y => date_ltb y x
  | _, _ => false
  end.

Module Process.

Record t : Type := mk {
  base : BaseEntity.t;
  assignee : string;
  parent_phase_id : option string;
  start_date : option date;
  end_date : option date;
  estimated_hours : option Q;
  actual_hours : option Q;
  progress : Q;
  is_progress_manual : bool;
  tasks : list string;
  notes : string;
  priority : Z
}.

Definition id (x : t) : string := BaseEntity.id (base x).

Definition init (uuid : string) (now : datetime) (name description assignee : string) : t :=
  mk (BaseEntity.init uuid now name description) assignee
     None None None None None 0%Q true [] "" 3%Z.

Definition update_timestamp (now : datetime) (x : t) : t :=
  mk (BaseEntity.update_timestamp now (base x)) (assignee x) (parent_phase_id x)
     (start_date x) (end_date x) (estimated_hours x) (actual_hours x)
     (progress x) (is_progress_manual x) (tasks x) (notes x) (priority x).

Definition set_assignee (now : datetime) (x : t) (a : string) : t * bool :=
  if truthy a && truthy (strip a) then
    (update_timestamp now
       (mk (base x) (strip a) (parent_phase_id x) (start_date x) (end_date x)
           (estimated_hours x) (actual_hours x) (progress x) (is_progress_manual x)
           (tasks x) (notes x) (priority x)),
     true)
  else (x, false).

Definition set_dates (now : datetime) (x : t) (s e : option date) : t * bool :=
  if dates_reversed s e then (x, false)
  else
    (update_timestamp now
       (mk (base x) (assignee x) (parent_phase_id x) s e
           (estimated_hours x) (actual_hours x) (progress x) (is_progress_manual x)
           (tasks x) (notes x) (priority x)),
     true).

Definition set_progress (now : datetime) (x : t) (p : Q) (is_manual : bool) : t * bool :=
  if Qle_bool 0 p && Qle_bool p 100 then
    (update_timestamp now
       (mk (base x) (assignee x) (parent_phase_id x) (start_date x) (end_date x)
           (estimated_hours x) (actual_hours x) p is_manual
           (tasks x) (notes x) (priority x)),
     true)
  else (x, false).

(** One turn of the loop of [calculate_progress_from_tasks]; the
    accumulator is [(actionable_tasks, completed_tasks)]. *)
Definition count_task (task_manager : gmap string Task.t)
    (acc : list Task.t * nat) (task_id : string) : list Task.t * nat :=
  match get_task task_manager task_id with
  | Some task =>
      if Task.is_actionable task then
        (fst acc ++ [task],
         if Task.is_completed task then S (snd acc) else snd acc)
      else acc
  | None => acc
  end.

Definition calculate_progress_from_tasks (x : t) (task_manager : gmap string Task.t) : Q :=
  match tasks x with
  | [] => 0%Q
  | _ =>
      let acc := fold_left (count_task task_manager) (tasks x) ([], 0) in
      match fst acc with
      | [] => 0%Q
      | _ =>
          round1 ((float_of_nat (snd acc) / float_of_nat (length (fst acc))) * 100)%Q
      end
  end.

Definition update_progress_from_tasks (now : datetime) (x : t)
    (task_manager : gmap string Task.t) : t * bool :=
  if negb (is_progress_manual x) then
    set_progress now x (calculate_progress_from_tasks x task_manager) false
  else (x, true).

Definition get_status (x : t) : string :=
  if Qeq_bool (progress x) 0 then ProcessStatus.NOT_STARTED
  else if Qeq_bool (progress x) 100 then ProcessStatus.COMPLETED
  else ProcessStatus.IN_PROGRESS.

Definition with_tasks (x : t) (l : list string) : t :=
  mk (base x) (assignee x) (parent_phase_id x) (start_date x) (end_date x)
     (estimated_hours x) (actual_hours x) (progress x) (is_progress_manual x)
     l (notes x) (priority x).

Definition add_task (now : datetime) (x : t) (task_id : string) : t * bool :=
  if negb (mem task_id (tasks x)) then
    (update_timestamp now (with_tasks x (tasks x ++ [task_id])), true)
  else (x, false).

Definition remove_task (now : datetime) (x : t) (task_id : string) : t * bool :=
  if mem task_id (tasks x) then
    (update_timestamp now (with_tasks x (remove_first task_id (tasks x))), true)
  else (x, false).

Definition set_estimated_hours (now : datetime) (x : t) (h : Q) : t * bool :=
  if Qle_bool 0 h then
    (update_timestamp now
       (mk (base x) (assignee x) (parent_phase_id x) (start_date x) (end_date x)
           (Some h) (actual_hours x) (progress x) (is_progress_manual x)
           (tasks x) (notes x) (priority x)),
     true)
  else (x, false).

Definition set_actual_hours (now : datetime) (x : t) (h : Q) : t * bool :=
  if Qle_bool 0 h then
    (update_timestamp now
       (mk (base x) (assignee x) (parent_phase_id x) (start_date x) (end_date x)
           (estimated_hours x) (Some h) (progress x) (is_progress_manual x)
           (tasks x) (notes x) (priority x)),
     true)
  else (x, false).

Definition _to_dict_additional (x : t) : pydict :=
  [("assignee", PStr (assignee x));
   ("parent_phase_id", opt_str_val (parent_phase_id x));
   ("start_date", opt_date_val (start_date x));
   ("end_date", opt_date_val (end_date x));
   ("estimated_hours", opt_float_val (estimated_hours x));
   ("actual_hours", opt_float_val (actual_hours x));
   ("progress", PFloat (progress x));
   ("is_progress_manual", PBool (is_progress_manual x));
   ("tasks", str_list_val (tasks x));
   ("notes", PStr (notes x));
   ("priority", PInt (priority x))].

Definition to_dict (x : t) : pydict :=
  dict_update (BaseEntity.base_dict (base x)) (_to_dict_additional x).

Definition from_dict (data : pydict) : option t :=
  b ← BaseEntity.restore data;
  a ← get_str data "assignee" "";
  pp ← get_opt_str data "parent_phase_id";
  sd ← get_opt_date data "start_date";
  ed ← get_opt_date data "end_date";
  eh ← get_opt_float data "estimated_hours";
  ah ← get_opt_float data "actual_hours";
  pg ← get_float data "progress" 0%Q;
  im ← get_bool data "is_progress_manual" true;
  ts ← get_str_list data "tasks";
  nt ← get_str data "notes" "";
  pr ← get_int data "priority" 3%Z;
  Some (mk b a pp sd ed eh ah pg im ts nt pr).

Definition _validate_additional (x : t) : bool :=
  if negb (truthy (assignee x)) || negb (truthy (strip (assignee x))) then false
  else if negb (Qle_bool 0 (progress x) && Qle_bool (progress x) 100) then false
  else if dates_reversed (start_date x) (end_date x) then false
  else if negative_opt (estimated_hours x) then false
  else if negative_opt (actual_hours x) then false
  else if negb ((1 <=? priority x) && (priority x <=? 5))%Z then false
  else true.

Definition validate (x : t) : bool :=
  BaseEntity.validate (base x) && _validate_additional x.


(** [is_overdue]; [today] is [date.today()]. *)
Definition is_overdue (today : date) (x : t) : bool :=
  match end_date x with
  | Some e => if negb (Qle_bool 100 (progress x)) then date_ltb e today else false
  | None => false
  end.

Definition get_remaining_days (today : date) (x : t) : option Z :=
  match end_date x with
  | Some e => Some (days_between e today)
  | None => None
  end.

(** One turn of the loop of [calculate_total_task_hours]; the
    accumulator is [(estimated_total, actual_total, estimated_count,
    actual_count)]. *)
Definition add_task_hours (task_manager : gmap string Task.t)
    (acc : Q * Q * nat * nat) (task_id : string) : Q * Q * nat * nat :=
  match get_task task_manager task_id with
  | Some task =>
      let '(et, at_, ec, ac) := acc in
      let '(et, ec) :=
        match Task.estimated_hours task with
        | Some h => ((et + h)%Q, S ec)
        | None => (et, ec)
        end in
      let '(at_, ac) :=
        match Task.actual_hours task with
        | Some h => ((at_ + h)%Q, S ac)
        | None => (at_, ac)
        end in
      (et, at_, ec, ac)
  | None => acc
  end.

(** The four entries of the returned dictionary, in the order
    [estimated_total], [actual_total], [estimated_count],
    [actual_count]. *)
Definition calculate_total_task_hours (x : t) (task_manager : gmap string Task.t)
  : option Q * option Q * nat * nat :=
  let '(et, at_, ec, ac) :=
    fold_left (add_task_hours task_manager) (tasks x) (0%Q, 0%Q, 0, 0) in
  (if 0 <? ec then Some et else None, if 0 <? ac then Some at_ else None, ec, ac).

(** [BaseEntity.clone] on a process. *)
Definition clone (uuid : string) (now1 now2 : datetime) (x : t) : option t :=
  let data := to_dict x in
  let data := dict_set "id" (PStr uuid) data in
  let data := dict_set "created_at" (PStr (datetime_isoformat now1)) data in
  let data := dict_set "updated_at" (PStr (datetime_isoformat now2)) data in
  from_dict data.

End Process.

Definition get_process (processes : gmap string Process.t) (process_id : string)
  : option Process.t := processes !! process_id.

(** [ProcessManager.create_process]: the new process and the manager
    that holds it. *)
Definition create_process (uuid : string) (now : datetime)
    (processes : gmap string Process.t) (name assignee description : string)
    (phase_id : option string) : Process.t * gmap string Process.t :=
  let process := Process.init uuid now name description assignee in
  let process :=
    if truthy_opt phase_id then
      Process.mk (Process.base process) (Process.assignee process) phase_id
                 (Process.start_date process) (Process.end_date process)
                 (Process.estimated_hours process) (Process.actual_hours process)
                 (Process.progress process) (Process.is_progress_manual process)
                 (Process.tasks process) (Process.notes process) (Process.priority process)
    else process in
  (process, <[Process.id process := process]> processes).

(** ** models/task.py: the other methods of [Task] and [TaskManager] *)

(** Truthiness of an optional float: [None] and [0.0] are falsy. *)
Definition truthy_float (o : option Q) : bool :=
  match o with
  | Some q => negb (Qeq_bool q 0)
  | None => false
  end.

(** [a / e if e and a and e > 0 else None] *)
Definition ratio (e a : option Q) : option Q :=
  match e, a with
  | Some eh, Some ah =>
      if truthy_float e && truthy_float a && negb (Qle_bool eh 0)
      then Some (ah / eh)%Q else None
  | _, _ => None
  end.

Module TaskSetters.

Definition update_timestamp (now : datetime) (x : Task.t) : Task.t :=
  Task.mk (BaseEntity.update_timestamp now (Task.base x)) (Task.status x)
          (Task.status_history x) (Task.parent_process_id x) (Task.priority x)
          (Task.estimated_hours x) (Task.actual_hours x) (Task.notes x) (Task.tags x).

Definition set_priority (now : datetime) (x : Task.t) (priority : Z) : Task.t * bool :=
  if ((1 <=? priority) && (priority <=? 5))%Z then
    (update_timestamp now
       (Task.mk (Task.base x) (Task.status x) (Task.status_history x)
                (Task.parent_process_id x) priority (Task.estimated_hours x)
                (Task.actual_hours x) (Task.notes x) (Task.tags x)),
     true)
  else (x, false).

Definition with_tags (x : Task.t) (l : list string) : Task.t :=
  Task.mk (Task.base x) (Task.status x) (Task.status_history x)
          (Task.parent_process_id x) (Task.priority x) (Task.estimated_hours x)
          (Task.actual_hours x) (Task.notes x) l.

Definition add_tag (now : datetime) (x : Task.t) (tag : string) : Task.t * bool :=
  let tag := strip tag in
  if truthy tag && negb (mem tag (Task.tags x)) then
    (update_timestamp now (with_tags x (Task.tags x ++ [tag])), true)
  else (x, false).

Definition remove_tag (now : datetime) (x : Task.t) (tag : string) : Task.t * bool :=
  if mem tag (Task.tags x) then
    (update_timestamp now (with_tags x (remove_first tag (Task.tags x))), true)
  else (x, false).

Definition set_estimated_hours (now : datetime) (x : Task.t) (hours : Q) : Task.t * bool :=
  if Qle_bool 0 hours then
    (update_timestamp now
       (Task.mk (Task.base x) (Task.status x) (Task.status_history x)
                (Task.parent_process_id x) (Task.priority x) (Some hours)
                (Task.actual_hours x) (Task.notes x) (Task.tags x)),
     true)
  else (x, false).

Definition set_actual_hours (now : datetime) (x : Task.t) (hours : Q) : Task.t * bool :=
  if Qle_bool 0 hours then
    (update_timestamp now
       (Task.mk (Task.base x) (Task.status x) (Task.status_history x)
                (Task.parent_process_id x) (Task.priority x) (Task.estimated_hours x)
                (Some hours) (Task.notes x) (Task.tags x)),
     true)
  else (x, false).

Definition get_efficiency_ratio (x : Task.t) : option Q :=
  ratio (Task.estimated_hours x) (Task.actual_hours x).

(** [BaseEntity.clone] on a task: [uuid] is the new id, [now1] and
    [now2] the two clock readings. *)
Definition clone (uuid : string) (now1 now2 : datetime) (x : Task.t) : option Task.t :=
  let data := Task.to_dict x in
  let data := dict_set "id" (PStr uuid) data in
  let data := dict_set "created_at" (PStr (datetime_isoformat now1)) data in
  let data := dict_set "updated_at" (PStr (datetime_isoformat now2)) data in
  Task.from_dict data.

End TaskSetters.

(** [TaskManager.create_task] *)
Definition create_task (uuid stamp : string) (now : datetime)
    (tasks : gmap string Task.t) (name description : string) (process_id : option string)
  : Task.t * gmap string Task.t :=
  let task := Task.init uuid stamp now name description in
  let task :=
    if truthy_opt process_id then
      Task.mk (Task.base task) (Task.status task) (Task.status_history task) process_id
              (Task.priority task) (Task.estimated_hours task) (Task.actual_hours task)
              (Task.notes task) (Task.tags task)
    else task in
  (task, <[Task.id task := task]> tasks).

(** ** models/phase.py *)

Module PhaseStatus.
Definition NOT_STARTED : string := "未着手".
Definition IN_PROGRESS : string := "進行中".
Definition COMPLETED : string := "完了".
End PhaseStatus.

Definition opt_to_list {A} (o : option A) : list A :=
  match o with
  | Some a => [a]
  | None => []
  end.

Module Phase.

Record t : Type := mk {
  base : BaseEntity.t;
  parent_project_id : option string;
  end_date : option date;
  progress : Q;
  processes : list string;
  notes : string;
  priority : Z;
  milestone : string;
  deliverables : list string
}.

Definition id (x : t) : string := BaseEntity.id (base x).

Definition init (uuid : string) (now : datetime) (name description : string) : t :=
  mk (BaseEntity.init uuid now name description) None None 0%Q [] "" 3%Z "" [].

Definition update_timestamp (now : datetime) (x : t) : t :=
  mk (BaseEntity.update_timestamp now (base x)) (parent_project_id x) (end_date x)
     (progress x) (processes x) (notes x) (priority x) (milestone x) (deliverables x).

Definition with_progress (x : t) (p : Q) : t :=
  mk (base x) (parent_project_id x) (end_date x) p (processes x) (notes x)
     (priority x) (milestone x) (deliverables x).

(** [process.estimated_hours if process.estimated_hours else 1.0]:
    [None] and [0.0] are both falsy. *)
Definition weight (process : Process.t) : Q :=
  match Process.estimated_hours process with
  | Some h => if Qeq_bool h 0 then 1%Q else h
  | None => 1%Q
  end.

(** One turn of the first loop of [calculate_progress_from_processes];
    the accumulator is [(total_estimated_hours, weighted_progress)]. *)
Definition add_process_weight (process_manager : gmap string Process.t)
    (acc : Q * Q) (process_id : string) : Q * Q :=
  match get_process process_manager process_id with
  | Some process =>
      (fst acc + weight process,
       snd acc + Process.progress process * weight process)%Q
  | None => acc
  end.

(** The resolvable children, in list order. *)
Definition resolved (process_manager : gmap string Process.t) (l : list string)
  : list Process.t :=
  omap (get_process process_manager) l.

Definition calculate_progress_from_processes (x : t)
    (process_manager : gmap string Process.t) : Q :=
  match processes x with
  | [] => 0%Q
  | _ =>
      let acc := fold_left (add_process_weight process_manager) (processes x) (0%Q, 0%Q) in
      if negb (Qle_bool (fst acc) 0) then round1 (snd acc / fst acc)
      else
        let process_count := length (resolved process_manager (processes x)) in
        if 0 <? process_count then
          round1 (fold_left Qplus
                    (map Process.progress (resolved process_manager (processes x))) 0%Q
                  / float_of_nat process_count)
        else 0%Q
  end.

Definition update_progress_from_processes (now : datetime) (x : t)
    (process_manager : gmap string Process.t) : t * bool :=
  let old_progress := progress x in
  let x' := with_progress x (calculate_progress_from_processes x process_manager) in
  if negb (Qeq_bool old_progress (progress x')) then (update_timestamp now x', true)
  else (x', false).

Definition get_status (x : t) : string :=
  if Qeq_bool (progress x) 0 then PhaseStatus.NOT_STARTED
  else if Qeq_bool (progress x) 100 then PhaseStatus.COMPLETED
  else PhaseStatus.IN_PROGRESS.

(** One turn of the loop of [get_date_range]; the accumulator is
    [(start_dates, end_dates)].  Calling [get_process] on a manager
    that is [None] raises [AttributeError]. *)
Definition collect_dates (process_manager : option (gmap string Process.t))
    (acc : result (list date * list date)) (process_id : string)
  : result (list date * list date) :=
  rbind acc (fun a =>
    match process_manager with
    | None => Raise AttributeError
    | Some m =>
        match get_process m process_id with
        | Some process =>
            Ok (fst a ++ opt_to_list (Process.start_date process),
                snd a ++ opt_to_list (Process.end_date process))
        | None => Ok a
        end
    end).

(** The dictionary [{'start_date': .., 'end_date': ..}] as a pair. *)
Definition get_date_range (x : t) (process_manager : option (gmap string Process.t))
  : result (option date * option date) :=
  rbind (fold_left (collect_dates process_manager) (processes x) (Ok ([], [])))
    (fun a =>
       Ok (match fst a with
           | [] => None
           | d :: r => Some (date_min d r)
           end,
           match snd a with
           | [] => end_date x
           | d :: r => Some (date_max d r)
           end)).

Definition _to_dict_additional (x : t) : pydict :=
  [("parent_project_id", opt_str_val (parent_project_id x));
   ("end_date", opt_date_val (end_date x));
   ("progress", PFloat (progress x));
   ("processes", str_list_val (processes x));
   ("notes", PStr (notes x));
   ("priority", PInt (priority x));
   ("milestone", PStr (milestone x));
   ("deliverables", str_list_val (deliverables x))].

Definition to_dict (x : t) : pydict :=
  dict_update (BaseEntity.base_dict (base x)) (_to_dict_additional x).

Definition from_dict (data : pydict) : option t :=
  b ← BaseEntity.restore data;
  pp ← get_opt_str data "parent_project_id";
  ed ← get_opt_date data "end_date";
  pg ← get_float data "progress" 0%Q;
  ps ← get_str_list data "processes";
  nt ← get_str data "notes" "";
  pr ← get_int data "priority" 3%Z;
  ms ← get_str data "milestone" "";
  dl ← get_str_list data "deliverables";
  Some (mk b pp ed pg ps nt pr ms dl).

Definition _validate_additional (x : t) : bool :=
  if negb (Qle_bool 0 (progress x) && Qle_bool (progress x) 100) then false
  else if negb ((1 <=? priority x) && (priority x <=? 5))%Z then false
  else true.

Definition validate (x : t) : bool :=
  BaseEntity.validate (base x) && _validate_additional x.


Definition set_end_date (now : datetime) (x : t) (e : option date) : t * bool :=
  (update_timestamp now
     (mk (base x) (parent_project_id x) e (progress x) (processes x) (notes x)
         (priority x) (milestone x) (deliverables x)),
   true).

Definition with_processes (x : t) (l : list string) : t :=
  mk (base x) (parent_project_id x) (end_date x) (progress x) l (notes x)
     (priority x) (milestone x) (deliverables x).

Definition add_process (now : datetime) (x : t) (process_id : string) : t * bool :=
  if negb (mem process_id (processes x)) then
    (update_timestamp now (with_processes x (processes x ++ [process_id])), true)
  else (x, false).

Definition remove_process (now : datetime) (x : t) (process_id : string) : t * bool :=
  if mem process_id (processes x) then
    (update_timestamp now (with_processes x (remove_first process_id (processes x))), true)
  else (x, false).

Definition with_deliverables (x : t) (l : list string) : t :=
  mk (base x) (parent_project_id x) (end_date x) (progress x) (processes x) (notes x)
     (priority x) (milestone x) l.

Definition add_deliverable (now : datetime) (x : t) (deliverable : string) : t * bool :=
  let deliverable := strip deliverable in
  if truthy deliverable && negb (mem deliverable (deliverables x)) then
    (update_timestamp now (with_deliverables x (deliverables x ++ [deliverable])), true)
  else (x, false).

Definition remove_deliverable (now : datetime) (x : t) (deliverable : string) : t * bool :=
  if mem deliverable (deliverables x) then
    (update_timestamp now
       (with_deliverables x (remove_first deliverable (deliverables x))), true)
  else (x, false).

(** One turn of the loop of [calculate_total_estimated_hours] (with
    [Process.estimated_hours]) and of [calculate_total_actual_hours]
    (with [Process.actual_hours]); the accumulator is
    [(total_hours, has_value)]. *)
Definition add_hours (field : Process.t -> option Q)
    (process_manager : gmap string Process.t) (acc : Q * bool) (process_id : string)
  : Q * bool :=
  match get_process process_manager process_id with
  | Some process =>
      match field process with
      | Some h => ((fst acc + h)%Q, true)
      | None => acc
      end
  | None => acc
  end.

Definition total_hours (field : Process.t -> option Q) (x : t)
    (process_manager : gmap string Process.t) : option Q :=
  let acc := fold_left (add_hours field process_manager) (processes x) (0%Q, false) in
  if snd acc then Some (fst acc) else None.

Definition calculate_total_estimated_hours (x : t) (process_manager : gmap string Process.t)
  : option Q := total_hours Process.estimated_hours x process_manager.

Definition calculate_total_actual_hours (x : t) (process_manager : gmap string Process.t)
  : option Q := total_hours Process.actual_hours x process_manager.

Definition is_overdue (today : date) (x : t) : bool :=
  match end_date x with
  | Some e => if negb (Qle_bool 100 (progress x)) then date_ltb e today else false
  | None => false
  end.

Definition get_remaining_days (today : date) (x : t) : option Z :=
  match end_date x with
  | Some e => Some (days_between e today)
  | None => None
  end.

End Phase.

Definition get_phase (phases : gmap string Phase.t) (phase_id : string)
  : option Phase.t := phases !! phase_id.

(** ** models/project.py *)

Module Project.

Record t : Type := mk {
  base : BaseEntity.t;
  status : string;
  is_status_manual : bool;
  start_date : option date;
  end_date : option date;
  progress : Q;
  phases : list string;
  notes : string;
  priority : Z;
  budget : option Q;
  actual_cost : option Q;
  manager : string;
  stakeholders : list string;
  tags : list string;
  risk_level : Z
}.

Definition id (x : t) : string := BaseEntity.id (base x).

Definition init (uuid : string) (now : datetime) (name description : string) : t :=
  mk (BaseEntity.init uuid now name description) ProjectStatus.NOT_STARTED false
     None None 0%Q [] "" 3%Z None None "" [] [] 2%Z.

Definition update_timestamp (now : datetime) (x : t) : t :=
  mk (BaseEntity.update_timestamp now (base x)) (status x) (is_status_manual x)
     (start_date x) (end_date x) (progress x) (phases x) (notes x) (priority x)
     (budget x) (actual_cost x) (manager x) (stakeholders x) (tags x) (risk_level x).

Definition with_progress (x : t) (p : Q) : t :=
  mk (base x) (status x) (is_status_manual x) (start_date x) (end_date x) p
     (phases x) (notes x) (priority x) (budget x) (actual_cost x) (manager x)
     (stakeholders x) (tags x) (risk_level x).

Definition set_status (now : datetime) (x : t) (new_status : string) (is_manual : bool)
  : t * bool :=
  if negb (ProjectStatus.is_valid new_status) then (x, false)
  else
    (update_timestamp now
       (mk (base x) new_status is_manual (start_date x) (end_date x) (progress x)
           (phases x) (notes x) (priority x) (budget x) (actual_cost x) (manager x)
           (stakeholders x) (tags x) (risk_level x)),
     true).

(** The resolvable phases, in list order. *)
Definition resolved (phase_manager : gmap string Phase.t) (l : list string)
  : list Phase.t :=
  omap (get_phase phase_manager) l.

Definition calculate_status_from_phases (x : t) (phase_manager : gmap string Phase.t)
  : string :=
  match phases x with
  | [] => ProjectStatus.NOT_STARTED
  | _ =>
      let phase_statuses :=
        fold_left (fun acc phase_id =>
                     match get_phase phase_manager phase_id with
                     | Some phase => acc ++ [Phase.get_status phase]
                     | None => acc
                     end) (phases x) [] in
      match phase_statuses with
      | [] => ProjectStatus.NOT_STARTED
      | _ =>
          if forallb (fun s => String.eqb s PhaseStatus.COMPLETED) phase_statuses
          then ProjectStatus.COMPLETED
          else if existsb (fun s => String.eqb s PhaseStatus.IN_PROGRESS) phase_statuses
          then ProjectStatus.IN_PROGRESS
          else if forallb (fun s => String.eqb s PhaseStatus.NOT_STARTED) phase_statuses
          then ProjectStatus.NOT_STARTED
          else ProjectStatus.IN_PROGRESS
      end
  end.

Definition update_status_from_phases (now : datetime) (x : t)
    (phase_manager : gmap string Phase.t) : t * bool :=
  if negb (is_status_manual x) then
    let calculated_status := calculate_status_from_phases x phase_manager in
    if negb (String.eqb calculated_status (status x)) then
      set_status now x calculated_status false
    else (x, true)
  else (x, true).

(** The duration of a phase inside [calculate_progress_from_phases]:
    [get_date_range] is called with [None] for the process manager. *)
Definition phase_duration (phase : Phase.t) : result Z :=
  rbind (Phase.get_date_range phase None) (fun date_range =>
    Ok (match Phase.end_date phase with
        | Some e =>
            match fst date_range with
            | Some s => (days_between e s + 1)%Z
            | None => 1%Z
            end
        | None => 1%Z
        end)).

(** One turn of the first loop; the accumulator is
    [(total_weight, weighted_progress)]. *)
Definition add_phase_weight (phase_manager : gmap string Phase.t)
    (acc : result (Q * Q)) (phase_id : string) : result (Q * Q) :=
  rbind acc (fun a =>
    match get_phase phase_manager phase_id with
    | Some phase =>
        rbind (phase_duration phase) (fun duration =>
          let weight := inject_Z (Z.max duration 1) in
          Ok (fst a + weight, snd a + Phase.progress phase * weight)%Q)
    | None => Ok a
    end).

Definition calculate_progress_from_phases (x : t) (phase_manager : gmap string Phase.t)
  : result Q :=
  match phases x with
  | [] => Ok 0%Q
  | _ =>
      rbind (fold_left (add_phase_weight phase_manager) (phases x) (Ok (0%Q, 0%Q)))
        (fun acc =>
           if negb (Qle_bool (fst acc) 0) then Ok (round1 (snd acc / fst acc))
           else
             let phase_count := length (resolved phase_manager (phases x)) in
             if 0 <? phase_count then
               Ok (round1 (fold_left Qplus
                             (map Phase.progress (resolved phase_manager (phases x))) 0%Q
                           / float_of_nat phase_count))
             else Ok 0%Q)
  end.

Definition update_progress_from_phases (now : datetime) (x : t)
    (phase_manager : gmap string Phase.t) : result (t * bool) :=
  let old_progress := progress x in
  rbind (calculate_progress_from_phases x phase_manager) (fun p =>
    let x' := with_progress x p in
    if negb (Qeq_bool old_progress (progress x')) then Ok (update_timestamp now x', true)
    else Ok (x', false)).

Definition _to_dict_additional (x : t) : pydict :=
  [("status", PStr (status x));
   ("is_status_manual", PBool (is_status_manual x));
   ("start_date", opt_date_val (start_date x));
   ("end_date", opt_date_val (end_date x));
   ("progress", PFloat (progress x));
   ("phases", str_list_val (phases x));
   ("notes", PStr (notes x));
   ("priority", PInt (priority x));
   ("budget", opt_float_val (budget x));
   ("actual_cost", opt_float_val (actual_cost x));
   ("manager", PStr (manager x));
   ("stakeholders", str_list_val (stakeholders x));
   ("tags", str_list_val (tags x));
   ("risk_level", PInt (risk_level x))].

Definition to_dict (x : t) : pydict :=
  dict_update (BaseEntity.base_dict (base x)) (_to_dict_additional x).

Definition from_dict (data : pydict) : option t :=
  b ← BaseEntity.restore data;
  st ← get_str data "status" ProjectStatus.NOT_STARTED;
  sm ← get_bool data "is_status_manual" false;
  sd ← get_opt_date data "start_date";
  ed ← get_opt_date data "end_date";
  pg ← get_float data "progress" 0%Q;
  ps ← get_str_list data "phases";
  nt ← get_str data "notes" "";
  pr ← get_int data "priority" 3%Z;
  bd ← get_opt_float data "budget";
  ac ← get_opt_float data "actual_cost";
  mg ← get_str data "manager" "";
  sh ← get_str_list data "stakeholders";
  tg ← get_str_list data "tags";
  rl ← get_int data "risk_level" 2%Z;
  Some (mk b st sm sd ed pg ps nt pr bd ac mg sh tg rl).

Definition _validate_additional (x : t) : bool :=
  if negb (ProjectStatus.is_valid (status x)) then false
  else if negb (Qle_bool 0 (progress x) && Qle_bool (progress x) 100) then false
  else if dates_reversed (start_date x) (end_date x) then false
  else if negative_opt (budget x) then false
  else if negative_opt (actual_cost x) then false
  else if negb ((1 <=? priority x) && (priority x <=? 5))%Z then false
  else if negb ((1 <=? risk_level x) && (risk_level x <=? 3))%Z then false
  else true.

Definition validate (x : t) : bool :=
  BaseEntity.validate (base x) && _validate_additional x.


Definition set_dates (now : datetime) (x : t) (s e : option date) : t * bool :=
  if dates_reversed s e then (x, false)
  else
    (update_timestamp now
       (mk (base x) (status x) (is_status_manual x) s e (progress x) (phases x) (notes x)
           (priority x) (budget x) (actual_cost x) (manager x) (stakeholders x) (tags x)
           (risk_level x)),
     true).

Definition with_phases (x : t) (l : list string) : t :=
  mk (base x) (status x) (is_status_manual x) (start_date x) (end_date x) (progress x)
     l (notes x) (priority x) (budget x) (actual_cost x) (manager x) (stakeholders x)
     (tags x) (risk_level x).

Definition add_phase (now : datetime) (x : t) (phase_id : string) : t * bool :=
  if negb (mem phase_id (phases x)) then
    (update_timestamp now (with_phases x (phases x ++ [phase_id])), true)
  else (x, false).

Definition remove_phase (now : datetime) (x : t) (phase_id : string) : t * bool :=
  if mem phase_id (phases x) then
    (update_timestamp now (with_phases x (remove_first phase_id (phases x))), true)
  else (x, false).

(** One turn of the loop of [get_date_range]: the phase's own
    [get_date_range] is called with [None] for the process manager. *)
Definition collect_phase_dates (phase_manager : gmap string Phase.t)
    (acc : result (list date * list date)) (phase_id : string)
  : result (list date * list date) :=
  rbind acc (fun a =>
    match get_phase phase_manager phase_id with
    | Some phase =>
        rbind (Phase.get_date_range phase None) (fun date_range =>
          Ok (fst a ++ opt_to_list (fst date_range),
              snd a ++ opt_to_list (snd date_range)))
    | None => Ok a
    end).

Definition get_date_range (x : t) (phase_manager : gmap string Phase.t)
  : result (option date * option date) :=
  rbind (fold_left (collect_phase_dates phase_manager) (phases x) (Ok ([], [])))
    (fun a =>
       let start_dates := fst a ++ opt_to_list (start_date x) in
       let end_dates := snd a ++ opt_to_list (end_date x) in
       Ok (match start_dates with
           | [] => start_date x
           | d :: r => Some (date_min d r)
           end,
           match end_dates with
           | [] => end_date x
           | d :: r => Some (date_max d r)
           end)).

Definition set_budget (now : datetime) (x : t) (b : Q) : t * bool :=
  if Qle_bool 0 b then
    (update_timestamp now
       (mk (base x) (status x) (is_status_manual x) (start_date x) (end_date x)
           (progress x) (phases x) (notes x) (priority x) (Some b) (actual_cost x)
           (manager x) (stakeholders x) (tags x) (risk_level x)),
     true)
  else (x, false).

Definition set_actual_cost (now : datetime) (x : t) (c : Q) : t * bool :=
  if Qle_bool 0 c then
    (update_timestamp now
       (mk (base x) (status x) (is_status_manual x) (start_date x) (end_date x)
           (progress x) (phases x) (notes x) (priority x) (budget x) (Some c)
           (manager x) (stakeholders x) (tags x) (risk_level x)),
     true)
  else (x, false).

Definition get_budget_ratio (x : t) : option Q := ratio (budget x) (actual_cost x).

Definition is_overdue (today : date) (x : t) : bool :=
  match end_date x with
  | Some e =>
      if negb (String.eqb (status x) ProjectStatus.COMPLETED) then date_ltb e today
      else false
  | None => false
  end.

Definition get_remaining_days (today : date) (x : t) : option Z :=
  match end_date x with
  | Some e => Some (days_between e today)
  | None => None
  end.

Definition get_duration_days (x : t) : option Z :=
  match start_date x, end_date x with
  | Some s, Some e => Some (days_between e s + 1)%Z
  | _, _ => None
  end.

End Project.

Definition get_project (projects : gmap string Project.t) (project_id : string)
  : option Project.t := projects !! project_id.

(** [datetime.fromisoformat(v) if v else None] *)
Definition datetime_if_truthy (v : pyval) : option (option datetime) :=
  if py_truthy v then
    match v with
    | PStr s =>
        match datetime_fromisoformat s with
        | Some x => Some (Some x)
        | None => None
        end
    | _ => None
    end
  else Some None.

(** [datetime.fromisoformat(data[k]) if data.get(k) else None] *)
Definition get_opt_datetime (d : pydict) (k : string) : option (option datetime) :=
  match dict_get k d with
  | None => Some None
  | Some v => datetime_if_truthy v
  end.

(** [x.isoformat() if x else None] *)
Definition opt_datetime_val (o : option datetime) : pyval :=
  match o with
  | Some x => PStr (datetime_isoformat x)
  | None => PNone
  end.

(** [data.get(k, {}).copy()] *)
Definition get_dict (d : pydict) (k : string) : option pydict :=
  match dict_get k d with
  | None => Some []
  | Some (PDict m) => Some m
  | Some _ => None
  end.

(** [a < b] on time stamps. *)
Definition datetime_ltb (a b : datetime) : bool :=
  date_ltb (dt_date a) (dt_date b)
  || (negb (date_ltb (dt_date b) (dt_date a))
      && ((hour a <? hour b)
          || ((hour a =? hour b)
              && ((minute a <? minute b)
                  || ((minute a =? minute b)
                      && ((second a <? second b)
                          || ((second a =? second b)
                              && (microsecond a <? microsecond b))))))))%Z.

(** ** models/notification.py *)

Module NotificationType.
Definition DEADLINE_APPROACHING : string := "期限接近".
Definition DEADLINE_OVERDUE : string := "期限超過".
Definition PROGRESS_DELAY : string := "進捗遅延".
Definition PROGRESS_INSUFFICIENT : string := "進捗不足".
End NotificationType.

Module NotificationPriority.
Definition HIGH : string := "高".
Definition MEDIUM : string := "中".
Definition LOW : string := "低".
End NotificationPriority.

Module Notification.

Record t : Type := mk {
  id : string;
  type : string;
  entity_id : string;
  entity_type : string;
  entity_name : string;
  message : string;
  priority : string;
  created_at : datetime;
  read_at : option datetime;
  acknowledged_at : option datetime;
  dismissed_at : option datetime;
  metadata : pydict
}.

Definition init (uuid : string) (now : datetime)
    (notification_type entity_id entity_type entity_name message priority : string) : t :=
  mk uuid notification_type entity_id entity_type entity_name message priority
     now None None None [].

Definition mark_as_read (now : datetime) (n : t) : t :=
  match read_at n with
  | None =>
      mk (id n) (type n) (entity_id n) (entity_type n) (entity_name n) (message n)
         (priority n) (created_at n) (Some now) (acknowledged_at n) (dismissed_at n)
         (metadata n)
  | Some _ => n
  end.

Definition acknowledge (now : datetime) (n : t) : t :=
  match acknowledged_at n with
  | None =>
      mark_as_read now
        (mk (id n) (type n) (entity_id n) (entity_type n) (entity_name n) (message n)
            (priority n) (created_at n) (read_at n) (Some now) (dismissed_at n)
            (metadata n))
  | Some _ => n
  end.

Definition dismiss (now : datetime) (n : t) : t :=
  match dismissed_at n with
  | None =>
      mark_as_read now
        (mk (id n) (type n) (entity_id n) (entity_type n) (entity_name n) (message n)
            (priority n) (created_at n) (read_at n) (acknowledged_at n) (Some now)
            (metadata n))
  | Some _ => n
  end.

Definition add_metadata (n : t) (key : string) (value : pyval) : t :=
  mk (id n) (type n) (entity_id n) (entity_type n) (entity_name n) (message n)
     (priority n) (created_at n) (read_at n) (acknowledged_at n) (dismissed_at n)
     (dict_set key value (metadata n)).

Definition is_read (n : t) : bool :=
  match read_at n with Some _ => true | None => false end.

Definition is_acknowledged (n : t) : bool :=
  match acknowledged_at n with Some _ => true | None => false end.

Definition is_dismissed (n : t) : bool :=
  match dismissed_at n with Some _ => true | None => false end.

Definition is_active (n : t) : bool :=
  negb (is_acknowledged n) && negb (is_dismissed n).


Definition to_dict (n : t) : pydict :=
  [("id", PStr (id n));
   ("type", PStr (type n));
   ("entity_id", PStr (entity_id n));
   ("entity_type", PStr (entity_type n));
   ("entity_name", PStr (entity_name n));
   ("message", PStr (message n));
   ("priority", PStr (priority n));
   ("created_at", PStr (datetime_isoformat (created_at n)));
   ("read_at", opt_datetime_val (read_at n));
   ("acknowledged_at", opt_datetime_val (acknowledged_at n));
   ("dismissed_at", opt_datetime_val (dismissed_at n));
   ("metadata", PDict (metadata n))].

Definition from_dict (data : pydict) : option t :=
  ty ← get_item_str data "type";
  ei ← get_item_str data "entity_id";
  et ← get_item_str data "entity_type";
  en ← get_item_str data "entity_name";
  ms ← get_item_str data "message";
  pr ← get_str data "priority" NotificationPriority.MEDIUM;
  i ← get_item_str data "id";
  c ← get_item_datetime data "created_at";
  r ← get_opt_datetime data "read_at";
  a ← get_opt_datetime data "acknowledged_at";
  d ← get_opt_datetime data "dismissed_at";
  md ← get_dict data "metadata";
  Some (mk i ty ei et en ms pr c r a d md).

End Notification.

Module NotificationSettings.

Record t : Type := mk {
  deadline_warning_days : Z;
  progress_delay_threshold : Q;
  insufficient_progress_days : Z;
  insufficient_progress_threshold : Q;
  check_interval_hours : Z;
  retention_days : Z;
  enabled_types : list (string * bool)
}.

Definition init : t :=
  mk 7%Z 50%Q 3%Z 30%Q 24%Z 90%Z
     [(NotificationType.DEADLINE_APPROACHING, true);
      (NotificationType.DEADLINE_OVERDUE, true);
      (NotificationType.PROGRESS_DELAY, true);
      (NotificationType.PROGRESS_INSUFFICIENT, true)].

End NotificationSettings.

Module NotificationGenerator.

(** What the rule checks read from an entity: [getattr] and [hasattr]
    answer [None] for an attribute the class does not have. *)
Record entity : Type := mk_entity {
  class_name : string;
  id : string;
  name : string;
  end_date : option date;
  status : option string;
  progress : option Q
}.

Definition of_process (x : Process.t) : entity :=
  mk_entity "Process" (Process.id x) (BaseEntity.name (Process.base x))
            (Process.end_date x) None (Some (Process.progress x)).

Definition of_phase (x : Phase.t) : entity :=
  mk_entity "Phase" (Phase.id x) (BaseEntity.name (Phase.base x))
            (Phase.end_date x) None (Some (Phase.progress x)).

Definition of_project (x : Project.t) : entity :=
  mk_entity "Project" (Project.id x) (BaseEntity.name (Project.base x))
            (Project.end_date x) (Some (Project.status x)) (Some (Project.progress x)).

(** [str(n)] *)
Definition str_of_int (n : Z) : string := NilZero.string_of_int (Z.to_int n).

(** [_check_deadline_approaching]; [today] is [date.today()], [uuid]
    and [now] what the [Notification] constructor draws. *)
Definition _check_deadline_approaching (uuid : string) (now : datetime) (today : date)
    (settings : NotificationSettings.t) (e : entity) : option Notification.t :=
  match end_date e with
  | None => None
  | Some end_date =>
      if match status e with
         | Some s => String.eqb s "完了"
         | None => false
         end then None
      else if match progress e with
              | Some p => Qle_bool 100 p
              | None => false
              end then None
      else
        let days_until_deadline := days_between end_date today in
        if ((0 <=? days_until_deadline)
            && (days_until_deadline <=? NotificationSettings.deadline_warning_days settings))%Z
        then
          let entity_type := class_name e in
          let mp :=
            if (days_until_deadline =? 0)%Z then
              ((entity_type ++ "「" ++ name e ++ "」の期限が本日です。")%string,
               NotificationPriority.HIGH)
            else if (days_until_deadline =? 1)%Z then
              ((entity_type ++ "「" ++ name e ++ "」の期限が明日です。")%string,
               NotificationPriority.HIGH)
            else
              ((entity_type ++ "「" ++ name e ++ "」の期限まで"
                ++ str_of_int days_until_deadline ++ "日です。")%string,
               NotificationPriority.MEDIUM) in
          let notification :=
            Notification.init uuid now NotificationType.DEADLINE_APPROACHING (id e)
              entity_type (name e) (fst mp) (snd mp) in
          let notification :=
            Notification.add_metadata notification "days_until_deadline"
              (PInt days_until_deadline) in
          let notification :=
            Notification.add_metadata notification "end_date"
              (PStr (date_isoformat end_date)) in
          Some notification
        else None
  end.


(** [_check_deadline_overdue] *)
Definition _check_deadline_overdue (uuid : string) (now : datetime) (today : date)
    (settings : NotificationSettings.t) (e : entity) : option Notification.t :=
  match end_date e with
  | None => None
  | Some end_date =>
      if match status e with
         | Some s => String.eqb s "完了"
         | None => false
         end then None
      else if match progress e with
              | Some p => Qle_bool 100 p
              | None => false
              end then None
      else
        let days_overdue := days_between today end_date in
        if (0 <? days_overdue)%Z then
          let entity_type := class_name e in
          let message :=
            if (days_overdue =? 1)%Z then
              (entity_type ++ "「" ++ name e ++ "」の期限が1日超過しています。")%string
            else
              (entity_type ++ "「" ++ name e ++ "」の期限が"
               ++ str_of_int days_overdue ++ "日超過しています。")%string in
          let notification :=
            Notification.init uuid now NotificationType.DEADLINE_OVERDUE (id e)
              entity_type (name e) message NotificationPriority.HIGH in
          let notification :=
            Notification.add_metadata notification "days_overdue" (PInt days_overdue) in
          let notification :=
            Notification.add_metadata notification "end_date"
              (PStr (date_isoformat end_date)) in
          Some notification
        else None
  end.

End NotificationGenerator.

Module NotificationManager.

(** [self.notifications], in insertion order. *)
Definition t : Type := list (string * Notification.t).

Definition empty : t := [].

Fixpoint find_existing_notification (m : t) (entity_id notification_type : string)
  : option Notification.t :=
  match m with
  | [] => None
  | (_, notification) :: r =>
      if String.eqb (Notification.entity_id notification) entity_id
         && String.eqb (Notification.type notification) notification_type
      then Some notification
      else find_existing_notification r entity_id notification_type
  end.

Definition add_notification (m : t) (notification : Notification.t) : t * bool :=
  let existing :=
    find_existing_notification m (Notification.entity_id notification)
      (Notification.type notification) in
  match existing with
  | Some e =>
      if Notification.is_active e then (m, false)
      else (dict_set (Notification.id notification) notification m, true)
  | None => (dict_set (Notification.id notification) notification m, true)
  end.

Definition get_notification (m : t) (notification_id : string) : option Notification.t :=
  dict_get notification_id m.

Definition mark_as_read (now : datetime) (m : t) (notification_id : string) : t * bool :=
  match get_notification m notification_id with
  | Some n => (dict_set notification_id (Notification.mark_as_read now n) m, true)
  | None => (m, false)
  end.

Definition acknowledge (now : datetime) (m : t) (notification_id : string) : t * bool :=
  match get_notification m notification_id with
  | Some n => (dict_set notification_id (Notification.acknowledge now n) m, true)
  | None => (m, false)
  end.

Definition dismiss (now : datetime) (m : t) (notification_id : string) : t * bool :=
  match get_notification m notification_id with
  | Some n => (dict_set notification_id (Notification.dismiss now n) m, true)
  | None => (m, false)
  end.

Definition delete_notification (m : t) (notification_id : string) : t * bool :=
  match dict_get notification_id m with
  | Some _ => (dict_del notification_id m, true)
  | None => (m, false)
  end.

Definition get_active_notifications (m : t) : list Notification.t :=
  List.filter Notification.is_active (map snd m).

(** The operations a caller can apply to a manager. *)
Inductive op : Type :=
| Add (notification : Notification.t)
| Acknowledge (now : datetime) (notification_id : string)
| Dismiss (now : datetime) (notification_id : string)
| MarkAsRead (now : datetime) (notification_id : string)
| Delete (notification_id : string).

Definition step (m : t) (o : op) : t :=
  match o with
  | Add n => fst (add_notification m n)
  | Acknowledge now i => fst (acknowledge now m i)
  | Dismiss now i => fst (dismiss now m i)
  | MarkAsRead now i => fst (mark_as_read now m i)
  | Delete i => fst (delete_notification m i)
  end.

Definition run (ops : list op) : t := fold_left step ops empty.

Inductive reachable : t -> Prop :=
| reachable_empty : reachable empty
| reachable_step m o : reachable m -> reachable (step m o).

(** The active notifications of an [(entity_id, type)] pair. *)
Definition active_for (m : t) (entity_id notification_type : string)
  : list Notification.t :=
  List.filter (fun n => Notification.is_active n
                        && String.eqb (Notification.entity_id n) entity_id
                        && String.eqb (Notification.type n) notification_type)
              (map snd m).

Definition at_most_one_active (m : t) : Prop :=
  forall entity_id notification_type,
    length (active_for m entity_id notification_type) <= 1.


Definition get_unread_notifications (m : t) : list Notification.t :=
  List.filter (fun n => negb (Notification.is_read n)) (map snd m).

Definition get_notifications_by_entity (m : t) (entity_id : string) : list Notification.t :=
  List.filter (fun n => String.eqb (Notification.entity_id n) entity_id) (map snd m).

(** One turn of the loop of [mark_all_as_read]; the accumulator is the
    part of the dictionary already visited and [count].  [clock i] is
    the reading of [datetime.now()] drawn for the notification marked
    after [i] others. *)
Definition mark_one (clock : nat -> datetime) (acc : t * nat) (kv : string * Notification.t)
  : t * nat :=
  if negb (Notification.is_read (snd kv)) then
    (fst acc ++ [(fst kv, Notification.mark_as_read (clock (snd acc)) (snd kv))],
     S (snd acc))
  else (fst acc ++ [kv], snd acc).

Definition mark_all_as_read (clock : nat -> datetime) (m : t) : t * nat :=
  fold_left (mark_one clock) m ([], 0).

(** [cleanup_old_notifications]; [cutoff] is
    [datetime.now() - timedelta(days=self.settings.retention_days)].
    The result is the dictionary, the new [last_cleanup] and the
    returned count. *)
Definition cleanup_old_notifications (cutoff now : datetime) (m : t)
  : t * datetime * nat :=
  let old_notifications :=
    map fst (List.filter (fun kv => datetime_ltb (Notification.created_at (snd kv)) cutoff)
                         m) in
  (fold_left (fun d notification_id => dict_del notification_id d) old_notifications m,
   now, length old_notifications).

End NotificationManager.

(** ** core/manager.py *)

Module ProjectManagementSystem.

(** The four entity managers.  The data store, the logger and the
    notification manager are written to by the operations below but
    never read back by them, and they hold no entity: they are not
    part of this state. *)
Record t : Type := mk {
  project_manager : gmap string Project.t;
  phase_manager : gmap string Phase.t;
  process_manager : gmap string Process.t;
  task_manager : gmap string Task.t
}.

Definition with_projects (s : t) (m : gmap string Project.t) : t :=
  mk m (phase_manager s) (process_manager s) (task_manager s).

Definition with_phases (s : t) (m : gmap string Phase.t) : t :=
  mk (project_manager s) m (process_manager s) (task_manager s).

Definition with_processes (s : t) (m : gmap string Process.t) : t :=
  mk (project_manager s) (phase_manager s) m (task_manager s).

Definition with_tasks (s : t) (m : gmap string Task.t) : t :=
  mk (project_manager s) (phase_manager s) (process_manager s) m.

Definition contains {V : Type} (m : gmap string V) (k : string) : bool :=
  match m !! k with
  | Some _ => true
  | None => false
  end.

(** [@handle_errors(recovery_strategy=RecoveryStrategy.NONE)]: an
    exception of the body is recorded and the call returns the
    fallback value [None]. *)
Definition handle_errors {A : Type} (r : t * result A) : t * option A :=
  match r with
  | (s, Ok a) => (s, Some a)
  | (s, Raise _) => (s, None)
  end.

(** [ProjectManager.update_project] on the object stored under [k]. *)
Definition store_project (now : datetime) (k : string) (project : Project.t) (s : t)
  : t * bool :=
  if Project.validate project && contains (project_manager s) (Project.id project) then
    let project' := Project.update_timestamp now project in
    (with_projects s
       (<[Project.id project' := project']> (<[k := project']> (project_manager s))),
     true)
  else (s, false).

Definition update_project_body (now : datetime) (k : string) (project : Project.t) (s : t)
  : t * result bool :=
  if negb (Project.validate project) then (s, Raise BusinessLogicError)
  else if negb (Project.is_status_manual project) then
    let p1 := fst (Project.update_status_from_phases now project (phase_manager s)) in
    let s1 := with_projects s (<[k := p1]> (project_manager s)) in
    match Project.update_progress_from_phases now p1 (phase_manager s1) with
    | Raise e => (s1, Raise e)
    | Ok (p2, _) =>
        let s2 := with_projects s1 (<[k := p2]> (project_manager s1)) in
        let r := store_project now k p2 s2 in
        (fst r, Ok (snd r))
    end
  else
    let r := store_project now k project s in
    (fst r, Ok (snd r)).

(** [update_project(project)] where [project] is the object stored
    under [k]. *)
Definition update_project (now : datetime) (k : string) (project : Project.t) (s : t)
  : t * option bool :=
  handle_errors (update_project_body now k project s).

Definition store_phase (now : datetime) (k : string) (phase : Phase.t) (s : t)
  : t * bool :=
  if Phase.validate phase && contains (phase_manager s) (Phase.id phase) then
    let phase' := Phase.update_timestamp now phase in
    (with_phases s
       (<[Phase.id phase' := phase']> (<[k := phase']> (phase_manager s))),
     true)
  else (s, false).

Definition update_phase_body (now : datetime) (k : string) (phase : Phase.t) (s : t)
  : t * result bool :=
  let ph1 := fst (Phase.update_progress_from_processes now phase (process_manager s)) in
  let s1 := with_phases s (<[k := ph1]> (phase_manager s)) in
  let r := store_phase now k ph1 s1 in
  if snd r then
    let s2 := fst r in
    let s3 :=
      match Phase.parent_project_id ph1 with
      | Some project_id =>
          if truthy project_id then
            match get_project (project_manager s2) project_id with
            | Some project => fst (update_project now project_id project s2)
            | None => s2
            end
          else s2
      | None => s2
      end in
    (s3, Ok true)
  else (fst r, Ok false).

Definition update_phase (now : datetime) (k : string) (phase : Phase.t) (s : t)
  : t * option bool :=
  handle_errors (update_phase_body now k phase s).

Definition store_process (now : datetime) (k : string) (process : Process.t) (s : t)
  : t * bool :=
  if Process.validate process && contains (process_manager s) (Process.id process) then
    let process' := Process.update_timestamp now process in
    (with_processes s
       (<[Process.id process' := process']> (<[k := process']> (process_manager s))),
     true)
  else (s, false).

Definition update_process_body (now : datetime) (k : string) (process : Process.t) (s : t)
  : t * result bool :=
  let p1 :=
    if negb (Process.is_progress_manual process) then
      fst (Process.update_progress_from_tasks now process (task_manager s))
    else process in
  let s1 := with_processes s (<[k := p1]> (process_manager s)) in
  let r := store_process now k p1 s1 in
  if snd r then
    let s2 := fst r in
    let s3 :=
      match Process.parent_phase_id p1 with
      | Some phase_id =>
          if truthy phase_id then
            match get_phase (phase_manager s2) phase_id with
            | Some phase => fst (update_phase now phase_id phase s2)
            | None => s2
            end
          else s2
      | None => s2
      end in
    (s3, Ok true)
  else (fst r, Ok false).

Definition update_process (now : datetime) (k : string) (process : Process.t) (s : t)
  : t * option bool :=
  handle_errors (update_process_body now k process s).

Definition _cascade_update_progress (now : datetime) (task : Task.t) (s : t) : t :=
  match Task.parent_process_id task with
  | Some process_id =>
      if truthy process_id then
        match get_process (process_manager s) process_id with
        | Some process => fst (update_process now process_id process s)
        | None => s
        end
      else s
  | None => s
  end.

(** [update_task_status(task_id, new_status, comment)]; [user] is
    [self.logger.current_user], [stamp] and [now] the clock readings
    of the call. *)
Definition update_task_status_body (stamp : string) (now : datetime) (user : string)
    (task_id new_status comment : string) (s : t) : t * result bool :=
  match get_task (task_manager s) task_id with
  | None => (s, Ok false)
  | Some task =>
      let r := Task.set_status stamp now task new_status user comment in
      let s1 := with_tasks s (<[task_id := fst r]> (task_manager s)) in
      if snd r then (_cascade_update_progress now (fst r) s1, Ok true)
      else (s1, Ok false)
  end.

Definition update_task_status (stamp : string) (now : datetime) (user : string)
    (task_id new_status comment : string) (s : t) : t * option bool :=
  handle_errors (update_task_status_body stamp now user task_id new_status comment s).

End ProjectManagementSystem.

(** [ProjectManager.create_project] *)
Definition create_project (uuid : string) (now : datetime)
    (projects : gmap string Project.t) (name description manager : string)
  : Project.t * gmap string Project.t :=
  let project := Project.init uuid now name description in
  let project :=
    if truthy manager then
      Project.mk (Project.base project) (Project.status project)
                 (Project.is_status_manual project) (Project.start_date project)
                 (Project.end_date project) (Project.progress project)
                 (Project.phases project) (Project.notes project)
                 (Project.priority project) (Project.budget project)
                 (Project.actual_cost project) manager (Project.stakeholders project)
                 (Project.tags project) (Project.risk_level project)
    else project in
  (project, <[Project.id project := project]> projects).

(** [PhaseManager.create_phase] *)
Definition create_phase (uuid : string) (now : datetime)
    (phases : gmap string Phase.t) (name description : string) (project_id : option string)
  : Phase.t * gmap string Phase.t :=
  let phase := Phase.init uuid now name description in
  let phase :=
    if truthy_opt project_id then
      Phase.mk (Phase.base phase) project_id (Phase.end_date phase) (Phase.progress phase)
               (Phase.processes phase) (Phase.notes phase) (Phase.priority phase)
               (Phase.milestone phase) (Phase.deliverables phase)
    else phase in
  (phase, <[Phase.id phase := phase]> phases).

(** [delete_project], [delete_phase], [delete_process] and
    [delete_task] of the four managers. *)
Definition delete_entity {V : Type} (m : gmap string V) (k : string) : gmap string V * bool :=
  if ProjectManagementSystem.contains m k then (delete k m, true) else (m, false).

(** ** core/manager.py: creation and deletion *)

Module Lifecycle.

Import ProjectManagementSystem.

Definition create_project (uuid : string) (now : datetime) (name description manager : string)
    (s : t) : t * option Project.t :=
  let r := create_project uuid now (project_manager s) name description manager in
  handle_errors (with_projects s (snd r), Ok (fst r)).

(** [create_phase(name, project_id, description)] *)
Definition create_phase (uuid : string) (now : datetime) (name project_id description : string)
    (s : t) : t * option Phase.t :=
  handle_errors
    match get_project (project_manager s) project_id with
    | None => (s, Raise BusinessLogicError)
    | Some project =>
        let r := create_phase uuid now (phase_manager s) name description (Some project_id) in
        let s1 := with_phases s (snd r) in
        let project' := fst (Project.add_phase now project (Phase.id (fst r))) in
        (with_projects s1 (<[project_id := project']> (project_manager s1)), Ok (fst r))
    end.

(** [create_process(name, assignee, phase_id, description)] *)
Definition create_process (uuid : string) (now : datetime)
    (name assignee phase_id description : string) (s : t) : t * option Process.t :=
  handle_errors
    match get_phase (phase_manager s) phase_id with
    | None => (s, Raise BusinessLogicError)
    | Some phase =>
        let r := create_process uuid now (process_manager s) name assignee description
                   (Some phase_id) in
        let s1 := with_processes s (snd r) in
        let phase' := fst (Phase.add_process now phase (Process.id (fst r))) in
        (with_phases s1 (<[phase_id := phase']> (phase_manager s1)), Ok (fst r))
    end.

(** [create_task(name, process_id, description)] *)
Definition create_task (uuid stamp : string) (now : datetime)
    (name process_id description : string) (s : t) : t * option Task.t :=
  handle_errors
    match get_process (process_manager s) process_id with
    | None => (s, Raise BusinessLogicError)
    | Some process =>
        let r := create_task uuid stamp now (task_manager s) name description
                   (Some process_id) in
        let s1 := with_tasks s (snd r) in
        let process' := fst (Process.add_task now process (Task.id (fst r))) in
        (with_processes s1 (<[process_id := process']> (process_manager s1)), Ok (fst r))
    end.

Definition delete_task (now : datetime) (task_id : string) (s : t) : t * option bool :=
  handle_errors
    match get_task (task_manager s) task_id with
    | None => (s, Ok false)
    | Some task =>
        let s1 :=
          match Task.parent_process_id task with
          | Some process_id =>
              if truthy process_id then
                match get_process (process_manager s) process_id with
                | Some process =>
                    with_processes s
                      (<[process_id := fst (Process.remove_task now process task_id)]>
                         (process_manager s))
                | None => s
                end
              else s
          | None => s
          end in
        let r := delete_entity (task_manager s1) task_id in
        (with_tasks s1 (fst r), Ok (snd r))
    end.

Definition delete_process (now : datetime) (process_id : string) (s : t) : t * option bool :=
  handle_errors
    match get_process (process_manager s) process_id with
    | None => (s, Ok false)
    | Some process =>
        let s0 :=
          fold_left (fun s task_id => fst (delete_task now task_id s))
                    (Process.tasks process) s in
        let s1 :=
          match Process.parent_phase_id process with
          | Some phase_id =>
              if truthy phase_id then
                match get_phase (phase_manager s0) phase_id with
                | Some phase =>
                    with_phases s0
                      (<[phase_id := fst (Phase.remove_process now phase process_id)]>
                         (phase_manager s0))
                | None => s0
                end
              else s0
          | None => s0
          end in
        let r := delete_entity (process_manager s1) process_id in
        (with_processes s1 (fst r), Ok (snd r))
    end.

Definition delete_phase (now : datetime) (phase_id : string) (s : t) : t * option bool :=
  handle_errors
    match get_phase (phase_manager s) phase_id with
    | None => (s, Ok false)
    | Some phase =>
        let s0 :=
          fold_left (fun s process_id => fst (delete_process now process_id s))
                    (Phase.processes phase) s in
        let s1 :=
          match Phase.parent_project_id phase with
          | Some project_id =>
              if truthy project_id then
                match get_project (project_manager s0) project_id with
                | Some project =>
                    with_projects s0
                      (<[project_id := fst (Project.remove_phase now project phase_id)]>
                         (project_manager s0))
                | None => s0
                end
              else s0
          | None => s0
          end in
        let r := delete_entity (phase_manager s1) phase_id in
        (with_phases s1 (fst r), Ok (snd r))
    end.

Definition delete_project (now : datetime) (project_id : string) (s : t) : t * option bool :=
  handle_errors
    match get_project (project_manager s) project_id with
    | None => (s, Ok false)
    | Some project =>
        let s0 :=
          fold_left (fun s phase_id => fst (delete_phase now phase_id s))
                    (Project.phases project) s in
        let r := delete_entity (project_manager s0) project_id in
        (with_projects s0 (fst r), Ok (snd r))
    end.

End Lifecycle.

(** * The statements of the specification *)

(** ** Process progress (specification section 4.2) *)



(** ** Concrete entities used in the scenarios *)

Definition t0 : datetime := mkdatetime (mkdate 2024 1 15) 9 30 0 0.
Definition t1 : datetime := mkdatetime (mkdate 2024 1 16) 10 0 0 250000.

Definition task_in (uuid parent : string) (st : string) : Task.t :=
  let x := Task.init uuid "1705311000.0" t0 uuid "" in
  let x := fst (Task.set_status "1705399200.25" t1 x st "user" "") in
  Task.mk (Task.base x) (Task.status x) (Task.status_history x) (Some parent)
          (Task.priority x) (Task.estimated_hours x) (Task.actual_hours x)
          (Task.notes x) (Task.tags x).

(** A process under the phase [parent], with the given assignee, task
    list, progress, progress mode and estimated hours. *)
Definition process_in (uuid parent : string) (assignee : string) (tasks : list string)
    (progress : Q) (manual : bool) (hours : option Q) : Process.t :=
  let x := Process.init uuid t0 uuid "" assignee in
  Process.mk (Process.base x) (Process.assignee x) (Some parent) None None hours None
             progress manual tasks "" 3%Z.



(** ** Phase progress (specification section 4.3) *)





(** The weight as amended: the estimated hours if set and not zero,
    else 1.0. *)
Definition amended_weight (process : Process.t) : Q :=
  match Process.estimated_hours process with
  | Some h => if Qeq_bool h 0 then 1%Q else h
  | None => 1%Q
  end.


Definition phase_in (uuid parent : string) (processes : list string) (progress : Q)
  : Phase.t :=
  let x := Phase.init uuid t0 uuid "" in
  Phase.mk (Phase.base x) (Some parent) None progress processes "" 3%Z "" [].




(** ** Project status (specification section 4.4) *)

Definition all_are (v : string) (statuses : list string) : bool :=
  forallb (fun s => String.eqb s v) statuses.

Definition any_is (v : string) (statuses : list string) : bool :=
  existsb (fun s => String.eqb s v) statuses.

(** The aggregation rule over the derived statuses of the resolvable
    phases, as the specification words it. *)
Definition claimed_status (statuses : list string) : string :=
  match statuses with
  | [] => ProjectStatus.NOT_STARTED
  | _ =>
      if all_are PhaseStatus.COMPLETED statuses then ProjectStatus.COMPLETED
      else if any_is PhaseStatus.IN_PROGRESS statuses then ProjectStatus.IN_PROGRESS
      else if all_are PhaseStatus.NOT_STARTED statuses then ProjectStatus.NOT_STARTED
      else ProjectStatus.IN_PROGRESS
  end.

Definition derived_statuses (x : Project.t) (phase_manager : gmap string Phase.t)
  : list string :=
  map Phase.get_status (Project.resolved phase_manager (Project.phases x)).

Definition project_in (uuid : string) (phases : list string) (status : string)
    (manual : bool) (progress : Q) : Project.t :=
  let x := Project.init uuid t0 uuid "" in
  Project.mk (Project.base x) status manual None None progress phases "" 3%Z
             None None "" [] [] 2%Z.

(** Two phases without processes: one at 100.0, one at 0.0. *)
Definition mixed_phases : gmap string Phase.t :=
  <["ph1" := phase_in "ph1" "pj" [] 100%Q]>
    (<["ph2" := phase_in "ph2" "pj" [] 0%Q]> ∅).

Definition mixed_project : Project.t :=
  project_in "pj" ["ph1"; "ph2"] ProjectStatus.NOT_STARTED false 0%Q.

(** ** Project progress (specification section 4.4) *)

(** A project whose only phase lists one process. *)
Definition busy_phases : gmap string Phase.t :=
  <["ph" := phase_in "ph" "pj" ["P1"] 40%Q]> ∅.

Definition busy_project : Project.t :=
  project_in "pj" ["ph"] ProjectStatus.NOT_STARTED false 0%Q.

(** ** Orchestrated project update (specification section 4.5) *)

(** The claim: after [update_project] the stored progress is the value
    of [calculate_progress_from_phases], whatever [is_status_manual]. *)
Definition progress_always_recomputed (now : datetime) (k : string) (project : Project.t)
    (s : ProjectManagementSystem.t) : Prop :=
  exists project',
    ProjectManagementSystem.project_manager
      (fst (ProjectManagementSystem.update_project now k project s)) !! k = Some project'
    /\ Project.calculate_progress_from_phases project
         (ProjectManagementSystem.phase_manager s) = Ok (Project.progress project').

(** A project with a manually set status over the two phases above. *)
Definition manual_project : Project.t :=
  project_in "pj" ["ph1"; "ph2"] ProjectStatus.ON_HOLD true 0%Q.

Definition manual_system : ProjectManagementSystem.t :=
  ProjectManagementSystem.mk (<["pj" := manual_project]> ∅) mixed_phases ∅ ∅.

Definition auto_system : ProjectManagementSystem.t :=
  ProjectManagementSystem.mk (<["pj" := mixed_project]> ∅) mixed_phases ∅ ∅.

(** ** Cascade consistency (specification sections 4.5 and 8) *)


(** What the cascade establishes at the project level: the phase
    [phase] of the state [s] has become [phase'] in [s']. *)
Definition project_level (s s' : ProjectManagementSystem.t) (phase phase' : Phase.t) : Prop :=
  Phase.validate phase' = true ->
  ProjectManagementSystem.contains (ProjectManagementSystem.phase_manager s) (Phase.id phase)
  = true ->
  forall project_id project,
    Phase.parent_project_id phase = Some project_id ->
    truthy project_id = true ->
    ProjectManagementSystem.project_manager s !! project_id = Some project ->
    Project.validate project = true ->
    Project.is_status_manual project = false ->
    forall v,
      Project.calculate_progress_from_phases project
        (ProjectManagementSystem.phase_manager s') = Ok v ->
      exists project',
        ProjectManagementSystem.project_manager s' !! project_id = Some project'
        /\ Project.progress project' = v
        /\ Project.calculate_progress_from_phases project'
             (ProjectManagementSystem.phase_manager s') = Ok (Project.progress project').

(** What the cascade establishes at the phase level: the process
    [process] of the state [s] has become [process'] in [s']. *)
Definition phase_level (s s' : ProjectManagementSystem.t) (process process' : Process.t)
  : Prop :=
  Process.validate process' = true ->
  ProjectManagementSystem.contains (ProjectManagementSystem.process_manager s)
    (Process.id process) = true ->
  forall phase_id phase,
    Process.parent_phase_id process = Some phase_id ->
    truthy phase_id = true ->
    ProjectManagementSystem.phase_manager s !! phase_id = Some phase ->
    exists phase',
      ProjectManagementSystem.phase_manager s' !! phase_id = Some phase'
      /\ Phase.progress phase'
         = Phase.calculate_progress_from_processes phase'
             (ProjectManagementSystem.process_manager s')
      /\ project_level s s' phase phase'.




Definition complete_T (s : ProjectManagementSystem.t)
  : ProjectManagementSystem.t * option bool :=
  ProjectManagementSystem.update_task_status "1705399200.25" t1 "user" "T"
    TaskStatus.COMPLETED "" s.

(** ** The manual-progress default of a process *)

(** A process as [create_process] and [create_task] leave it: built by
    the constructor, attached to a phase, one task added. *)
Definition fresh_process : Process.t :=
  fst (Process.add_task t0 (fst (create_process "P" t0 ∅ "P" "alice" "" (Some "ph"))) "T").

Definition fresh_system : ProjectManagementSystem.t :=
  ProjectManagementSystem.mk
    (<["pj" := project_in "pj" ["ph"] ProjectStatus.NOT_STARTED false 0%Q]> ∅)
    (<["ph" := phase_in "ph" "pj" ["P"] 0%Q]> ∅)
    (<["P" := fresh_process]> ∅)
    (<["T" := task_in "T" "P" TaskStatus.NOT_STARTED]> ∅).

(** ** Notification deduplication (specification section 4.6) *)

(** A process due on 2024-01-16 at 40.0, checked on 2024-01-15. *)
Definition due_process : Process.t :=
  let x := process_in "P" "ph" "alice" [] (40 # 1) true None in
  Process.mk (Process.base x) (Process.assignee x) (Process.parent_phase_id x)
             None (Some (mkdate 2024 1 16)) None None (Process.progress x) true [] "" 3%Z.

Definition today : date := mkdate 2024 1 15.

Definition t0b : datetime := mkdatetime (mkdate 2024 1 15) 15 0 0 0.

(** What one run of the deadline-approaching check produces for
    [due_process]: a new notification, under a new id. *)
Definition alert (uuid : string) (now : datetime) : Notification.t :=
  Notification.add_metadata
    (Notification.add_metadata
       (Notification.init uuid now NotificationType.DEADLINE_APPROACHING "P" "Process" "P"
          "Process「P」の期限が明日です。" NotificationPriority.HIGH)
       "days_until_deadline" (PInt 1))
    "end_date" (PStr "2024-01-16").

(** First check, dismissal of its notification, second check. *)
Definition after_dismissal : NotificationManager.t :=
  NotificationManager.run
    [NotificationManager.Add (alert "n1" t0);
     NotificationManager.Dismiss t0b "n1";
     NotificationManager.Add (alert "n2" t0b)].

(** The same, followed by a third check. *)
Definition duplicate_ops : list NotificationManager.op :=
  [NotificationManager.Add (alert "n1" t0);
   NotificationManager.Dismiss t0b "n1";
   NotificationManager.Add (alert "n2" t0b);
   NotificationManager.Add (alert "n3" t0b)].

(** ** Serialization round trip (specification sections 6 and 8) *)

Definition opt_date_ok (o : option date) : bool :=
  match o with
  | Some d => date_ok d
  | None => true
  end.

(** The time stamps of an entity are values of [datetime.datetime]. *)
Definition base_ok (e : BaseEntity.t) : bool :=
  datetime_ok (BaseEntity.created_at e) && datetime_ok (BaseEntity.updated_at e).

Definition task_ok (x : Task.t) : bool :=
  base_ok (Task.base x)
  && forallb (fun c => datetime_ok (StatusChange.changed_at c)) (Task.status_history x).

Definition process_ok (x : Process.t) : bool :=
  base_ok (Process.base x)
  && opt_date_ok (Process.start_date x) && opt_date_ok (Process.end_date x).

Definition phase_ok (x : Phase.t) : bool :=
  base_ok (Phase.base x) && opt_date_ok (Phase.end_date x).

Definition project_ok (x : Project.t) : bool :=
  base_ok (Project.base x)
  && opt_date_ok (Project.start_date x) && opt_date_ok (Project.end_date x).

(** Entities with every optional attribute set, and with every one
    left at [None]. *)
Definition full_task : Task.t :=
  let x := task_in "T" "P" TaskStatus.COMPLETED in
  Task.mk (Task.base x) (Task.status x) (Task.status_history x) (Task.parent_process_id x)
          2%Z (Some (15 # 10)) (Some 2%Q) "review" ["urgent"; "api"].

Definition full_process : Process.t :=
  let x := Process.init "P" t0 "build" "the build" "alice" in
  Process.mk (Process.base x) "alice" (Some "ph") (Some (mkdate 2024 2 29))
             (Some (mkdate 2024 3 31)) (Some 10%Q) None (125 # 10) false ["T"] "n" 1%Z.

Definition full_phase : Phase.t :=
  let x := Phase.init "ph" t0b "design" "" in
  Phase.mk (Phase.base x) (Some "pj") (Some (mkdate 2024 12 31)) (333 # 10) ["P"]
           "" 3%Z "M1" ["report"].

Definition full_project : Project.t :=
  let x := Project.init "pj" t0 "site" "new site" in
  Project.mk (Project.base x) ProjectStatus.ON_HOLD true None (Some (mkdate 2025 1 1))
             (50 # 1) ["ph"] "" 4%Z (Some 1000%Q) None "carol" ["dave"] ["web"] 3%Z.

(** * Further properties of the model *)

(** A string that does not begin with white space. *)
Definition starts_clean (s : string) : Prop :=
  match s with
  | EmptyString => True
  | String c _ => isspace c = false
  end.

(** ** Tasks reached through their own methods *)

(** The history replays from [prev] to [cur]: every entry starts where
    the one before it ended. *)
Fixpoint chained (prev : string) (h : list StatusChange.t) (cur : string) : Prop :=
  match h with
  | [] => prev = cur
  | c :: r => StatusChange.old_status c = prev /\ chained (StatusChange.new_status c) r cur
  end.

(** The tasks a caller can obtain from the constructor through the
    methods of the class. *)
Inductive task_reachable : Task.t -> Prop :=
| reach_init uuid stamp now name description :
    task_reachable (Task.init uuid stamp now name description)
| reach_create uuid stamp now tasks name description process_id :
    task_reachable (fst (create_task uuid stamp now tasks name description process_id))
| reach_set_status stamp now x new_status changed_by comment :
    task_reachable x ->
    task_reachable (fst (Task.set_status stamp now x new_status changed_by comment))
| reach_set_priority now x priority :
    task_reachable x -> task_reachable (fst (TaskSetters.set_priority now x priority))
| reach_add_tag now x tag :
    task_reachable x -> task_reachable (fst (TaskSetters.add_tag now x tag))
| reach_remove_tag now x tag :
    task_reachable x -> task_reachable (fst (TaskSetters.remove_tag now x tag))
| reach_set_estimated_hours now x hours :
    task_reachable x -> task_reachable (fst (TaskSetters.set_estimated_hours now x hours))
| reach_set_actual_hours now x hours :
    task_reachable x -> task_reachable (fst (TaskSetters.set_actual_hours now x hours)).

(** ** Deadline checks *)

(** What both deadline checks take for a finished entity: status
    Completed where the class has a status, or progress at 100. *)
Definition finished (e : NotificationGenerator.entity) : bool :=
  match NotificationGenerator.status e with
  | Some s => String.eqb s ProjectStatus.COMPLETED
  | None => false
  end
  || match NotificationGenerator.progress e with
     | Some p => Qle_bool 100 p
     | None => false
     end.

Definition is_some {A : Type} (o : option A) : bool :=
  match o with
  | Some _ => true
  | None => false
  end.

(** ** Notifications *)

(** The three marking methods of a notification, each with the clock
    reading it draws. *)
Inductive marking : Type :=
| Read (now : datetime)
| Acknowledged (now : datetime)
| Dismissed (now : datetime).

Definition mark (n : Notification.t) (m : marking) : Notification.t :=
  match m with
  | Read now => Notification.mark_as_read now n
  | Acknowledged now => Notification.acknowledge now n
  | Dismissed now => Notification.dismiss now n
  end.

(** The time stamps a notification holds can be rendered and read
    back. *)
Definition opt_datetime_ok (o : option datetime) : bool :=
  match o with
  | Some t => datetime_ok t
  | None => true
  end.

Definition notification_ok (n : Notification.t) : bool :=
  datetime_ok (Notification.created_at n)
  && opt_datetime_ok (Notification.read_at n)
  && opt_datetime_ok (Notification.acknowledged_at n)
  && opt_datetime_ok (Notification.dismissed_at n).

(** The notifications of an [(entity_id, type)] pair held by a
    manager. *)
Definition same_pair (entity_id notification_type : string) (n : Notification.t) : bool :=
  String.eqb (Notification.entity_id n) entity_id
  && String.eqb (Notification.type n) notification_type.

Definition held_for (m : NotificationManager.t) (entity_id notification_type : string)
  : list Notification.t :=
  List.filter (same_pair entity_id notification_type) (map snd m).

(** Operations that neither acknowledge nor dismiss, and add only
    active notifications. *)
Definition quiet (o : NotificationManager.op) : bool :=
  match o with
  | NotificationManager.Add n => Notification.is_active n
  | NotificationManager.MarkAsRead _ _ => true
  | NotificationManager.Delete _ => true
  | NotificationManager.Acknowledge _ _ => false
  | NotificationManager.Dismiss _ _ => false
  end.

(** Every entry is stored under the id of its notification. *)
Definition keyed_by_id (m : NotificationManager.t) : Prop :=
  forall k n, In (k, n) m -> k = Notification.id n.

(** ** Deletion *)

(** A key that is free stays free. *)
Definition only_less {V : Type} (m m' : gmap string V) : Prop :=
  forall k, m !! k = None -> m' !! k = None.

(** The same keys are taken. *)
Definition same_keys {V : Type} (m m' : gmap string V) : Prop :=
  forall k, m !! k = None <-> m' !! k = None.

(** Every child that a parent of [parents] lists is afterwards either
    gone or still listed by that parent. *)
Definition kept_or_gone {P C : Type} (children_of : P -> list string)
    (parents parents' : gmap string P) (children' : gmap string C) : Prop :=
  forall k p c,
    parents !! k = Some p -> In c (children_of p) ->
    children' !! c = None
    \/ exists p', parents' !! k = Some p' /\ In c (children_of p').

(** From [s] to [s'] nothing is created, and no child is unlinked from
    its parent while it still exists. *)
Definition shrinks (s s' : ProjectManagementSystem.t) : Prop :=
  only_less (ProjectManagementSystem.task_manager s)
            (ProjectManagementSystem.task_manager s')
  /\ only_less (ProjectManagementSystem.process_manager s)
               (ProjectManagementSystem.process_manager s')
  /\ only_less (ProjectManagementSystem.phase_manager s)
               (ProjectManagementSystem.phase_manager s')
  /\ only_less (ProjectManagementSystem.project_manager s)
               (ProjectManagementSystem.project_manager s')
  /\ kept_or_gone Process.tasks
       (ProjectManagementSystem.process_manager s)
       (ProjectManagementSystem.process_manager s')
       (ProjectManagementSystem.task_manager s')
  /\ kept_or_gone Phase.processes
       (ProjectManagementSystem.phase_manager s)
       (ProjectManagementSystem.phase_manager s')
       (ProjectManagementSystem.process_manager s')
  /\ kept_or_gone Project.phases
       (ProjectManagementSystem.project_manager s)
       (ProjectManagementSystem.project_manager s')
       (ProjectManagementSystem.phase_manager s').

(** A manager after a parent was, or was not, written back at its own
    key with [upd] applied. *)
Definition written_back {P : Type} (upd : P -> P) (m m' : gmap string P) : Prop :=
  m' = m \/ exists k p, m !! k = Some p /\ m' = <[k := upd p]> m.

(** What deleting tasks leaves alone, what deleting processes leaves
    alone, and what deleting phases leaves alone. *)
Definition task_frame (s s' : ProjectManagementSystem.t) : Prop :=
  ProjectManagementSystem.phase_manager s' = ProjectManagementSystem.phase_manager s
  /\ ProjectManagementSystem.project_manager s' = ProjectManagementSystem.project_manager s
  /\ same_keys (ProjectManagementSystem.process_manager s)
               (ProjectManagementSystem.process_manager s').

Definition process_frame (s s' : ProjectManagementSystem.t) : Prop :=
  ProjectManagementSystem.project_manager s' = ProjectManagementSystem.project_manager s
  /\ same_keys (ProjectManagementSystem.phase_manager s)
               (ProjectManagementSystem.phase_manager s').

Definition phase_frame (s s' : ProjectManagementSystem.t) : Prop :=
  same_keys (ProjectManagementSystem.project_manager s)
            (ProjectManagementSystem.project_manager s').

(** * Proofs *)

(** ** Rounding and sums *)



(** ** The loop of [calculate_progress_from_tasks] *)

Lemma count_task_fold (tm : gmap string Task.t) (l : list string) (acc : list Task.t * nat) :
  fold_left (Process.count_task tm) l acc
  = (fst acc ++ List.filter Task.is_actionable (omap (get_task tm) l),
     snd acc + length (List.filter Task.is_completed
                         (List.filter Task.is_actionable (omap (get_task tm) l)))).
Proof.
  revert acc. induction l as [|task_id l IH]; intros [ts n]; simpl.
  - rewrite app_nil_r, Nat.add_0_r. reflexivity.
  - rewrite IH. unfold Process.count_task. simpl.
    destruct (get_task tm task_id) as [task|]; simpl; [|reflexivity].
    destruct (Task.is_actionable task); simpl; [|reflexivity].
    rewrite <- app_assoc. simpl.
    destruct (Task.is_completed task); simpl; f_equal.
    rewrite Nat.add_succ_r. reflexivity.
Qed.


(** ** The loops of [calculate_progress_from_processes] *)




Lemma amended_weight_is_weight (p : Process.t) : amended_weight p = Phase.weight p.
Proof. reflexivity. Qed.




(** ** Project status *)

Lemma phase_statuses_fold (pm : gmap string Phase.t) (l : list string) (acc : list string) :
  fold_left (fun acc phase_id =>
               match get_phase pm phase_id with
               | Some phase => acc ++ [Phase.get_status phase]
               | None => acc
               end) l acc
  = acc ++ map Phase.get_status (Project.resolved pm l).
Proof.
  revert acc. induction l as [|phase_id l IH]; intros acc; simpl.
  - rewrite app_nil_r. reflexivity.
  - rewrite IH. unfold Project.resolved. simpl.
    destruct (get_phase pm phase_id) as [phase|]; simpl; [|reflexivity].
    rewrite <- app_assoc. reflexivity.
Qed.

Lemma calculate_status_from_phases_claimed (x : Project.t) (pm : gmap string Phase.t) :
  Project.calculate_status_from_phases x pm = claimed_status (derived_statuses x pm).
Proof.
  unfold Project.calculate_status_from_phases, claimed_status, derived_statuses.
  destruct (Project.phases x) as [|i l] eqn:E; [reflexivity|].
  rewrite phase_statuses_fold. cbn [app]. reflexivity.
Qed.

Lemma claimed_status_valid (l : list string) : ProjectStatus.is_valid (claimed_status l) = true.
Proof.
  unfold claimed_status. destruct l as [|s l]; [reflexivity|].
  destruct (all_are _ _); [reflexivity|].
  destruct (any_is _ _); [reflexivity|].
  destruct (all_are _ _); reflexivity.
Qed.

Lemma update_status_from_phases_status (now : datetime) (x : Project.t)
    (pm : gmap string Phase.t) :
  Project.status (fst (Project.update_status_from_phases now x pm))
  = if Project.is_status_manual x then Project.status x
    else Project.calculate_status_from_phases x pm.
Proof.
  unfold Project.update_status_from_phases.
  destruct (Project.is_status_manual x); cbn [negb]; [reflexivity|].
  destruct (String.eqb _ _) eqn:E; cbn [negb fst].
  - apply String.eqb_eq in E. symmetry. exact E.
  - unfold Project.set_status.
    rewrite calculate_status_from_phases_claimed, claimed_status_valid.
    reflexivity.
Qed.

(** C6.  [calculate_status_from_phases] is NotStarted without a
    resolvable phase and otherwise follows the aggregation rule over
    the derived statuses of the resolvable phases (all Completed,
    any InProgress, all NotStarted, else InProgress);
    [update_status_from_phases] installs it exactly when
    [is_status_manual] is false; phases with derived statuses
    [Completed, NotStarted] give InProgress. *)
Theorem calculate_status_from_phases_rule :
  (forall (x : Project.t) (pm : gmap string Phase.t),
      Project.calculate_status_from_phases x pm = claimed_status (derived_statuses x pm))
  /\ (forall (now : datetime) (x : Project.t) (pm : gmap string Phase.t),
         Project.status (fst (Project.update_status_from_phases now x pm))
         = if Project.is_status_manual x then Project.status x
           else Project.calculate_status_from_phases x pm)
  /\ derived_statuses mixed_project mixed_phases
     = [PhaseStatus.COMPLETED; PhaseStatus.NOT_STARTED]
  /\ Project.calculate_status_from_phases mixed_project mixed_phases
     = ProjectStatus.IN_PROGRESS.
Proof.
  split; [exact calculate_status_from_phases_claimed|]. split.
  - exact update_status_from_phases_status.
  - split; vm_compute; reflexivity.
Qed.

(** ** Project progress: [get_date_range] without a process manager *)

Lemma collect_dates_raise (pm : option (gmap string Process.t)) (l : list string) (e : exn) :
  fold_left (Phase.collect_dates pm) l (Raise e) = Raise e.
Proof. induction l as [|i l IH]; simpl; [reflexivity | exact IH]. Qed.

Lemma get_date_range_no_manager (x : Phase.t) :
  Phase.get_date_range x None
  = match Phase.processes x with
    | [] => Ok (None, Phase.end_date x)
    | _ :: _ => Raise AttributeError
    end.
Proof.
  unfold Phase.get_date_range.
  destruct (Phase.processes x) as [|i l]; simpl; [reflexivity|].
  rewrite collect_dates_raise. reflexivity.
Qed.

(** The sibling callers pass the real manager, and then the call
    returns. *)
Lemma get_date_range_with_manager (x : Phase.t) (pm : gmap string Process.t) :
  exists r, Phase.get_date_range x (Some pm) = Ok r.
Proof.
  unfold Phase.get_date_range.
  assert (H : forall l a, exists b, fold_left (Phase.collect_dates (Some pm)) l (Ok a) = Ok b).
  { induction l as [|i l IH]; intros a; simpl; [eauto|].
    destruct (get_process pm i); apply IH. }
  destruct (H (Phase.processes x) ([], [])) as [b Hb]. rewrite Hb. simpl. eauto.
Qed.





(** ** Project progress where it is defined *)

(** Where no resolvable phase lists a process, every weight is one day
    and the result is the simple mean of the phase progress values. *)
Lemma resolved_cons (pm : gmap string Phase.t) (i : string) (l : list string) :
  Project.resolved pm (i :: l)
  = match get_phase pm i with
    | Some phase => phase :: Project.resolved pm l
    | None => Project.resolved pm l
    end.
Proof. reflexivity. Qed.



(** C3 (failing input).  For a project whose single phase lists one
    process, [calculate_progress_from_phases] raises [AttributeError]
    instead of returning the weighted mean: the phase's
    [get_date_range] is called with [None] for the process manager. *)
Theorem calculate_progress_from_phases_undefined :
  Project.resolved busy_phases (Project.phases busy_project) <> []
  /\ Project.calculate_progress_from_phases busy_project busy_phases = Raise AttributeError.
Proof.
  split; vm_compute; congruence.
Qed.

(** ** The orchestrator: writing an object back *)

Import ProjectManagementSystem.

Lemma lookup_insert_twice {V : Type} (m : gmap string V) (k k' : string) (v : V) :
  <[k' := v]> (<[k := v]> m) !! k = Some v.
Proof.
  destruct (decide (k' = k)) as [->|Hne].
  - apply lookup_insert_eq.
  - rewrite lookup_insert_ne by exact Hne. apply lookup_insert_eq.
Qed.

Lemma contains_insert {V : Type} (m : gmap string V) (k i : string) (v w : V) :
  m !! k = Some w -> contains (<[k := v]> m) i = contains m i.
Proof.
  intros H. unfold contains.
  destruct (decide (k = i)) as [->|Hne].
  - rewrite lookup_insert_eq, H. reflexivity.
  - rewrite lookup_insert_ne by exact Hne. reflexivity.
Qed.

Lemma calculate_progress_from_phases_ext (x y : Project.t) (pm : gmap string Phase.t) :
  Project.phases x = Project.phases y ->
  Project.calculate_progress_from_phases x pm = Project.calculate_progress_from_phases y pm.
Proof. intros E. unfold Project.calculate_progress_from_phases. rewrite E. reflexivity. Qed.

Lemma calculate_progress_from_processes_ext (x y : Phase.t) (pm : gmap string Process.t) :
  Phase.processes x = Phase.processes y ->
  Phase.calculate_progress_from_processes x pm = Phase.calculate_progress_from_processes y pm.
Proof. intros E. unfold Phase.calculate_progress_from_processes. rewrite E. reflexivity. Qed.

Lemma calculate_progress_from_tasks_ext (x y : Process.t) (tm : gmap string Task.t) :
  Process.tasks x = Process.tasks y ->
  Process.calculate_progress_from_tasks x tm = Process.calculate_progress_from_tasks y tm.
Proof. intros E. unfold Process.calculate_progress_from_tasks. rewrite E. reflexivity. Qed.

Lemma update_status_from_phases_fields (now : datetime) (x : Project.t)
    (pm : gmap string Phase.t) :
  let y := fst (Project.update_status_from_phases now x pm) in
  Project.phases y = Project.phases x
  /\ Project.progress y = Project.progress x
  /\ Project.status y = (if Project.is_status_manual x then Project.status x
                         else Project.calculate_status_from_phases x pm).
Proof.
  split; [|split; [|apply update_status_from_phases_status]].
  - unfold Project.update_status_from_phases, Project.set_status.
    destruct (negb (Project.is_status_manual x)); [|reflexivity].
    destruct (negb (String.eqb _ _)); [|reflexivity].
    destruct (negb (ProjectStatus.is_valid _)); reflexivity.
  - unfold Project.update_status_from_phases, Project.set_status.
    destruct (negb (Project.is_status_manual x)); [|reflexivity].
    destruct (negb (String.eqb _ _)); [|reflexivity].
    destruct (negb (ProjectStatus.is_valid _)); reflexivity.
Qed.

Lemma store_project_effect (now : datetime) (k : string) (project : Project.t) (s : t) :
  project_manager s !! k = Some project ->
  let s' := fst (store_project now k project s) in
  phase_manager s' = phase_manager s
  /\ process_manager s' = process_manager s
  /\ task_manager s' = task_manager s
  /\ exists project',
       project_manager s' !! k = Some project'
       /\ Project.phases project' = Project.phases project
       /\ Project.progress project' = Project.progress project
       /\ Project.status project' = Project.status project.
Proof.
  intros Hk. unfold store_project.
  destruct (Project.validate project && contains (project_manager s) (Project.id project)).
  - cbn [fst]. repeat split.
    exists (Project.update_timestamp now project). split; [|repeat split].
    cbn [with_projects project_manager]. apply lookup_insert_twice.
  - cbn [fst]. repeat split. exists project. repeat split. exact Hk.
Qed.

Lemma update_project_effect (now : datetime) (k : string) (project : Project.t) (s : t) :
  project_manager s !! k = Some project ->
  Project.validate project = true ->
  let s' := fst (update_project now k project s) in
  phase_manager s' = phase_manager s
  /\ process_manager s' = process_manager s
  /\ task_manager s' = task_manager s
  /\ exists project',
       project_manager s' !! k = Some project'
       /\ Project.phases project' = Project.phases project
       /\ (if Project.is_status_manual project
           then Project.progress project' = Project.progress project
                /\ Project.status project' = Project.status project
           else Project.status project'
                = Project.calculate_status_from_phases project (phase_manager s)
                /\ forall v,
                    Project.calculate_progress_from_phases project (phase_manager s) = Ok v ->
                    Project.progress project' = v).
Proof.
  intros Hk Hv. unfold update_project, update_project_body. rewrite Hv. cbn [negb].
  destruct (Project.is_status_manual project) eqn:Hm; cbn [negb].
  - destruct (store_project_effect now k project s Hk) as (F1 & F2 & F3 & p' & L & P & G & S).
    unfold handle_errors. cbn [fst]. repeat split; try assumption.
    exists p'. repeat split; assumption.
  - destruct (update_status_from_phases_fields now project (phase_manager s))
      as (Hph & Hpg & Hst). rewrite Hm in Hst.
    set (p1 := fst (Project.update_status_from_phases now project (phase_manager s))) in *.
    set (s1 := with_projects s (<[k:=p1]> (project_manager s))).
    change (phase_manager s1) with (phase_manager s).
    unfold Project.update_progress_from_phases.
    rewrite (calculate_progress_from_phases_ext p1 project _ Hph).
    destruct (Project.calculate_progress_from_phases project (phase_manager s)) as [v|e] eqn:Hc;
      cbn [rbind].
    + set (p2 := Project.with_progress p1 v).
      assert (Hp2 : exists p3, (if negb (Qeq_bool (Project.progress p1) (Project.progress p2))
                                then Ok (Project.update_timestamp now p2, true)
                                else Ok (p2, false)) = Ok (p3, negb (Qeq_bool (Project.progress p1) (Project.progress p2)))
                               /\ Project.phases p3 = Project.phases project
                               /\ Project.progress p3 = v
                               /\ Project.status p3 = Project.status p1).
      { destruct (negb _); eexists; (split; [reflexivity|]); repeat split; exact Hph. }
      destruct Hp2 as (p3 & -> & Hph3 & Hpg3 & Hst3).
      set (s2 := with_projects s1 (<[k:=p3]> (project_manager s1))).
      assert (Hk2 : project_manager s2 !! k = Some p3) by apply lookup_insert_eq.
      destruct (store_project_effect now k p3 s2 Hk2) as (F1 & F2 & F3 & p' & L & P & G & S).
      unfold handle_errors. cbn [fst]. repeat split; try assumption.
      exists p'. split; [exact L|]. split; [congruence|]. split; [congruence|].
      intros v' Hv'. congruence.
    + unfold handle_errors. cbn [fst]. repeat split.
      exists p1. split; [apply lookup_insert_eq|]. split; [exact Hph|].
      split; [exact Hst|]. intros v Hv'. discriminate.
Qed.

(** C2 (counterexample).  A valid project with a manually set status
    and stale progress 0.0 over phases at 100.0 and 0.0: the fresh
    value is 50.0, and [update_project] leaves the progress at 0.0. *)
Lemma manual_status_blocks_progress :
  project_manager manual_system !! "pj" = Some manual_project
  /\ Project.validate manual_project = true
  /\ ~ progress_always_recomputed t1 "pj" manual_project manual_system.
Proof.
  split; [reflexivity|]. split; [reflexivity|].
  intros (p' & L & C). vm_compute in L. vm_compute in C.
  injection L as <-. discriminate C.
Qed.

(** C2 (amended).  For a valid project held by the manager,
    [update_project] recomputes status and progress from the phases only
    when [is_status_manual] is false; when it is true both are left as
    they are.  In the automatic case the stored progress is the value
    [calculate_progress_from_phases] returns, whenever it returns
    one. *)
Theorem update_project_recomputes_unless_manual
    (now : datetime) (k : string) (project : Project.t) (s : t) :
  project_manager s !! k = Some project ->
  Project.validate project = true ->
  exists project',
    project_manager (fst (update_project now k project s)) !! k = Some project'
    /\ (if Project.is_status_manual project
        then Project.progress project' = Project.progress project
             /\ Project.status project' = Project.status project
        else Project.status project'
             = Project.calculate_status_from_phases project (phase_manager s)
             /\ forall v,
                 Project.calculate_progress_from_phases project (phase_manager s) = Ok v ->
                 Project.progress project' = v).
Proof.
  intros Hk Hv.
  destruct (update_project_effect now k project s Hk Hv) as (_ & _ & _ & p' & L & _ & H).
  exists p'. split; assumption.
Qed.

Lemma update_project_recomputes_unless_manual_witness :
  (exists project',
      project_manager (fst (update_project t1 "pj" mixed_project auto_system)) !! "pj"
      = Some project'
      /\ Project.status project' = ProjectStatus.IN_PROGRESS
      /\ Project.progress project' = 500 # 10)
  /\ (exists project',
         project_manager (fst (update_project t1 "pj" manual_project manual_system)) !! "pj"
         = Some project'
         /\ Project.status project' = ProjectStatus.ON_HOLD
         /\ Project.progress project' = 0%Q).
Proof.
  split.
  - destruct (update_project_recomputes_unless_manual t1 "pj" mixed_project auto_system
                eq_refl eq_refl) as (p' & L & S & P).
    exists p'. split; [exact L|]. split; [exact S|]. apply P. reflexivity.
  - destruct (update_project_recomputes_unless_manual t1 "pj" manual_project manual_system
                eq_refl eq_refl) as (p' & L & P & S).
    exists p'. split; [exact L|]. split; [exact S | exact P].
Defined.

(** ** The computed process progress lies in [0, 100] *)

Lemma round_half_even_bounds (y : Q) (n : Z) :
  (0 <= y)%Q -> (y <= inject_Z n)%Q -> (0 <= round_half_even y <= n)%Z.
Proof.
  intros H0 Hn. unfold round_half_even.
  assert (F0 : (0 <= Qfloor y)%Z).
  { change 0%Z with (Qfloor 0). apply Qfloor_resp_le. exact H0. }
  assert (Fn : (Qfloor y <= n)%Z).
  { rewrite <- (Qfloor_Z n). apply Qfloor_resp_le. exact Hn. }
  assert (Hlt : (inject_Z (Qfloor y) + (1 # 2) <= y)%Q -> (Qfloor y + 1 <= n)%Z).
  { intros Hh.
    assert (Hs : (inject_Z (Qfloor y) < inject_Z n)%Q) by lra.
    rewrite <- Zlt_Qlt in Hs. lia. }
  destruct (Qcompare_spec (y - inject_Z (Qfloor y)) (1 # 2)) as [E|L|G].
  - assert (Hh : (inject_Z (Qfloor y) + (1 # 2) <= y)%Q) by lra.
    specialize (Hlt Hh). destruct (Z.even (Qfloor y)); lia.
  - lia.
  - assert (Hh : (inject_Z (Qfloor y) + (1 # 2) <= y)%Q) by lra.
    specialize (Hlt Hh). lia.
Qed.

Lemma round1_bounds (x : Q) :
  (0 <= x)%Q -> (x <= 100)%Q -> (0 <= round1 x)%Q /\ (round1 x <= 100)%Q.
Proof.
  intros H0 H1.
  assert (B : (0 <= round_half_even (x * 10) <= 1000)%Z).
  { apply round_half_even_bounds.
    - lra.
    - change (inject_Z 1000) with (1000 # 1). lra. }
  unfold round1, Qle. simpl. lia.
Qed.

Lemma filter_length_le {A : Type} (f : A -> bool) (l : list A) :
  length (List.filter f l) <= length l.
Proof.
  induction l as [|a l IH]; simpl; [lia|]. destruct (f a); simpl; lia.
Qed.

Lemma calculate_progress_from_tasks_range (x : Process.t) (tm : gmap string Task.t) :
  Qle_bool 0 (Process.calculate_progress_from_tasks x tm)
  && Qle_bool (Process.calculate_progress_from_tasks x tm) 100 = true.
Proof.
  unfold Process.calculate_progress_from_tasks.
  destruct (Process.tasks x) as [|i l]; [reflexivity|].
  rewrite count_task_fold. cbn [fst snd app Nat.add].
  set (A := List.filter Task.is_actionable (omap (get_task tm) (i :: l))).
  destruct A as [|a A'] eqn:EA; [reflexivity|]. rewrite <- EA.
  assert (Hc : length (List.filter Task.is_completed A) <= length A)
    by apply filter_length_le.
  assert (Hpos : 0 < length A) by (rewrite EA; simpl; lia).
  set (c := length (List.filter Task.is_completed A)) in *.
  set (n := length A) in *.
  assert (Hn : (0 < float_of_nat n)%Q).
  { unfold float_of_nat. change 0%Q with (inject_Z 0). rewrite <- Zlt_Qlt. lia. }
  assert (Hcn : (float_of_nat c <= float_of_nat n)%Q).
  { unfold float_of_nat. rewrite <- Zle_Qle. lia. }
  assert (Hc0 : (0 <= float_of_nat c)%Q).
  { unfold float_of_nat. change 0%Q with (inject_Z 0). rewrite <- Zle_Qle. lia. }
  assert (D0 : (0 <= float_of_nat c / float_of_nat n)%Q).
  { apply Qle_shift_div_l; [exact Hn|]. lra. }
  assert (D1 : (float_of_nat c / float_of_nat n <= 1)%Q).
  { apply Qle_shift_div_r; [exact Hn|]. lra. }
  assert (R0 : (0 <= float_of_nat c / float_of_nat n * 100)%Q) by lra.
  assert (R1 : (float_of_nat c / float_of_nat n * 100 <= 100)%Q) by lra.
  destruct (round1_bounds _ R0 R1) as [B0 B1].
  apply andb_true_intro. split; apply Qle_bool_iff; assumption.
Qed.

(** ** The orchestrator: one level at a time *)

Lemma update_progress_from_processes_fields (now : datetime) (x : Phase.t)
    (pm : gmap string Process.t) :
  let y := fst (Phase.update_progress_from_processes now x pm) in
  Phase.processes y = Phase.processes x
  /\ Phase.parent_project_id y = Phase.parent_project_id x
  /\ Phase.id y = Phase.id x
  /\ Phase.progress y = Phase.calculate_progress_from_processes x pm.
Proof.
  unfold Phase.update_progress_from_processes.
  destruct (negb _); repeat split.
Qed.

Lemma update_progress_from_tasks_fields (now : datetime) (x : Process.t)
    (tm : gmap string Task.t) :
  let y := fst (Process.update_progress_from_tasks now x tm) in
  Process.tasks y = Process.tasks x
  /\ Process.parent_phase_id y = Process.parent_phase_id x
  /\ Process.id y = Process.id x
  /\ Process.is_progress_manual y = Process.is_progress_manual x
  /\ Process.progress y = (if Process.is_progress_manual x then Process.progress x
                           else Process.calculate_progress_from_tasks x tm).
Proof.
  unfold Process.update_progress_from_tasks, Process.set_progress.
  destruct (Process.is_progress_manual x) eqn:Hm; cbn [negb]; [repeat split; exact Hm|].
  rewrite calculate_progress_from_tasks_range. repeat split.
Qed.

Lemma store_phase_effect (now : datetime) (k : string) (phase : Phase.t) (s : t) :
  phase_manager s !! k = Some phase ->
  let r := store_phase now k phase s in
  project_manager (fst r) = project_manager s
  /\ process_manager (fst r) = process_manager s
  /\ task_manager (fst r) = task_manager s
  /\ snd r = Phase.validate phase && contains (phase_manager s) (Phase.id phase)
  /\ exists phase',
       phase_manager (fst r) !! k = Some phase'
       /\ Phase.processes phase' = Phase.processes phase
       /\ Phase.parent_project_id phase' = Phase.parent_project_id phase
       /\ Phase.progress phase' = Phase.progress phase
       /\ Phase.validate phase' = Phase.validate phase.
Proof.
  intros Hk. unfold store_phase.
  destruct (Phase.validate phase && contains (phase_manager s) (Phase.id phase)).
  - cbn [fst snd]. repeat split.
    exists (Phase.update_timestamp now phase). split; [|repeat split].
    cbn [with_phases phase_manager]. apply lookup_insert_twice.
  - cbn [fst snd]. repeat split. exists phase. repeat split. exact Hk.
Qed.

Lemma store_process_effect (now : datetime) (k : string) (process : Process.t) (s : t) :
  process_manager s !! k = Some process ->
  let r := store_process now k process s in
  project_manager (fst r) = project_manager s
  /\ phase_manager (fst r) = phase_manager s
  /\ task_manager (fst r) = task_manager s
  /\ snd r = Process.validate process && contains (process_manager s) (Process.id process)
  /\ exists process',
       process_manager (fst r) !! k = Some process'
       /\ Process.tasks process' = Process.tasks process
       /\ Process.parent_phase_id process' = Process.parent_phase_id process
       /\ Process.progress process' = Process.progress process
       /\ Process.is_progress_manual process' = Process.is_progress_manual process
       /\ Process.validate process' = Process.validate process.
Proof.
  intros Hk. unfold store_process.
  destruct (Process.validate process && contains (process_manager s) (Process.id process)).
  - cbn [fst snd]. repeat split.
    exists (Process.update_timestamp now process). split; [|repeat split].
    cbn [with_processes process_manager]. apply lookup_insert_twice.
  - cbn [fst snd]. repeat split. exists process. repeat split. exact Hk.
Qed.

Lemma update_phase_effect (now : datetime) (k : string) (phase : Phase.t) (s : t) :
  phase_manager s !! k = Some phase ->
  let s' := fst (update_phase now k phase s) in
  process_manager s' = process_manager s
  /\ task_manager s' = task_manager s
  /\ exists phase',
       phase_manager s' !! k = Some phase'
       /\ Phase.progress phase'
          = Phase.calculate_progress_from_processes phase' (process_manager s')
       /\ project_level s s' phase phase'.
Proof.
  intros Hk. unfold update_phase, update_phase_body.
  destruct (update_progress_from_processes_fields now phase (process_manager s))
    as (Hps & Hpp & Hid & Hpg).
  set (ph1 := fst (Phase.update_progress_from_processes now phase (process_manager s))) in *.
  set (s1 := with_phases s (<[k:=ph1]> (phase_manager s))).
  assert (Hk1 : phase_manager s1 !! k = Some ph1) by apply lookup_insert_eq.
  destruct (store_phase_effect now k ph1 s1 Hk1)
    as (F1 & F2 & F3 & Hr & ph' & L & Pps & Ppp & Ppg & Pv).
  assert (Hcalc : forall pm, pm = process_manager s ->
            Phase.progress ph' = Phase.calculate_progress_from_processes ph' pm).
  { intros pm ->. rewrite Ppg, Hpg.
    apply calculate_progress_from_processes_ext. congruence. }
  destruct (snd (store_phase now k ph1 s1)) eqn:Hs; unfold handle_errors; cbn [fst].
  - set (s2 := fst (store_phase now k ph1 s1)) in *.
    symmetry in Hr. apply andb_true_iff in Hr. destruct Hr as [Hv1 Hc1].
    destruct (Phase.parent_project_id ph1) as [prk|] eqn:Epp.
    + destruct (truthy prk) eqn:Etr.
      * destruct (get_project (project_manager s2) prk) as [pj|] eqn:Epj.
        -- destruct (Project.validate pj) eqn:Evpj.
           ++ destruct (update_project_effect now prk pj s2 Epj Evpj)
                as (G1 & G2 & G3 & pj' & Lpj & Phs & Hif).
              split; [rewrite G2; exact F2|]. split; [rewrite G3; exact F3|].
              exists ph'. split; [rewrite G1; exact L|].
              split; [apply Hcalc; rewrite G2; exact F2|].
              intros _ _ prk0 pj0 E0 T0 L0 V0 M0 v Hv.
              assert (prk0 = prk) by congruence. subst prk0.
              assert (pj0 = pj).
              { unfold get_project in Epj. rewrite F1 in Epj. cbn in Epj. congruence. }
              subst pj0. rewrite M0 in Hif. destruct Hif as [_ Hif].
              rewrite G1 in Hv. exists pj'. split; [exact Lpj|].
              assert (Hpv : Project.progress pj' = v) by (apply Hif; exact Hv).
              split; [exact Hpv|].
              rewrite G1, Hpv, <- Hv. apply calculate_progress_from_phases_ext. exact Phs.
           ++ unfold update_project, update_project_body. rewrite Evpj. cbn.
              split; [exact F2|]. split; [exact F3|].
              exists ph'. split; [exact L|]. split; [apply Hcalc; exact F2|].
              intros _ _ prk0 pj0 E0 T0 L0 V0 M0 v Hv.
              assert (prk0 = prk) by congruence. subst prk0.
              unfold get_project in Epj. rewrite F1 in Epj. cbn in Epj. congruence.
        -- split; [exact F2|]. split; [exact F3|].
           exists ph'. split; [exact L|]. split; [apply Hcalc; exact F2|].
           intros _ _ prk0 pj0 E0 T0 L0 V0 M0 v Hv.
           assert (prk0 = prk) by congruence. subst prk0.
           unfold get_project in Epj. rewrite F1 in Epj. cbn in Epj. congruence.
      * split; [exact F2|]. split; [exact F3|].
        exists ph'. split; [exact L|]. split; [apply Hcalc; exact F2|].
        intros _ _ prk0 pj0 E0 T0 L0 V0 M0 v Hv. congruence.
    + split; [exact F2|]. split; [exact F3|].
      exists ph'. split; [exact L|]. split; [apply Hcalc; exact F2|].
      intros _ _ prk0 pj0 E0 T0 L0 V0 M0 v Hv. congruence.
  - split; [exact F2|]. split; [exact F3|].
    exists ph'. split; [exact L|]. split; [apply Hcalc; exact F2|].
    intros Hv' Hc'. exfalso.
    rewrite Pv in Hv'. rewrite Hv' in Hr.
    unfold s1 in Hr. cbn [with_phases phase_manager] in Hr.
    rewrite (contains_insert _ _ _ _ _ Hk), Hid, Hc' in Hr. discriminate.
Qed.

Lemma project_level_ext (s0 s s' : t) (phase phase' : Phase.t) :
  phase_manager s0 = phase_manager s ->
  project_manager s0 = project_manager s ->
  project_level s0 s' phase phase' -> project_level s s' phase phase'.
Proof.
  intros E1 E2 H. unfold project_level in *. rewrite <- E1, <- E2. exact H.
Qed.

Lemma phase_level_ext (s0 s s' : t) (process process' : Process.t) :
  process_manager s0 = process_manager s ->
  phase_manager s0 = phase_manager s ->
  project_manager s0 = project_manager s ->
  phase_level s0 s' process process' -> phase_level s s' process process'.
Proof.
  intros E1 E2 E3 H. unfold phase_level in *. rewrite <- E1, <- E2.
  intros Hv Hc phk ph Ep Tr L.
  destruct (H Hv Hc phk ph Ep Tr L) as (ph' & L' & C' & P').
  exists ph'. split; [exact L'|]. split; [exact C'|].
  apply (project_level_ext s0); assumption.
Qed.

Lemma update_process_effect (now : datetime) (k : string) (process : Process.t) (s : t) :
  process_manager s !! k = Some process ->
  let s' := fst (update_process now k process s) in
  task_manager s' = task_manager s
  /\ exists process',
       process_manager s' !! k = Some process'
       /\ Process.is_progress_manual process' = Process.is_progress_manual process
       /\ Process.progress process'
          = (if Process.is_progress_manual process then Process.progress process
             else Process.calculate_progress_from_tasks process' (task_manager s'))
       /\ phase_level s s' process process'.
Proof.
  intros Hk. unfold update_process, update_process_body.
  set (p1 := if negb (Process.is_progress_manual process)
             then fst (Process.update_progress_from_tasks now process (task_manager s))
             else process).
  assert (Hp1 : Process.tasks p1 = Process.tasks process
                /\ Process.parent_phase_id p1 = Process.parent_phase_id process
                /\ Process.id p1 = Process.id process
                /\ Process.is_progress_manual p1 = Process.is_progress_manual process
                /\ Process.progress p1
                   = (if Process.is_progress_manual process then Process.progress process
                      else Process.calculate_progress_from_tasks process (task_manager s))).
  { unfold p1.
    destruct (update_progress_from_tasks_fields now process (task_manager s))
      as (A & B & C & D & E).
    destruct (Process.is_progress_manual process) eqn:Hm; cbn [negb].
    - repeat split. exact Hm.
    - repeat split; assumption. }
  destruct Hp1 as (Hts & Hpp & Hid & Hmn & Hpg).
  set (s1 := with_processes s (<[k:=p1]> (process_manager s))).
  assert (Hk1 : process_manager s1 !! k = Some p1) by apply lookup_insert_eq.
  destruct (store_process_effect now k p1 s1 Hk1)
    as (F1 & F2 & F3 & Hr & p' & L & Pts & Ppp & Ppg & Pmn & Pv).
  assert (Hcalc : forall tm, tm = task_manager s ->
            Process.progress p'
            = (if Process.is_progress_manual process then Process.progress process
               else Process.calculate_progress_from_tasks p' tm)).
  { intros tm ->. rewrite Ppg, Hpg.
    destruct (Process.is_progress_manual process); [reflexivity|].
    apply calculate_progress_from_tasks_ext. congruence. }
  destruct (snd (store_process now k p1 s1)) eqn:Hs; unfold handle_errors; cbn [fst].
  - set (s2 := fst (store_process now k p1 s1)) in *.
    destruct (Process.parent_phase_id p1) as [phk|] eqn:Epp.
    + destruct (truthy phk) eqn:Etr.
      * destruct (get_phase (phase_manager s2) phk) as [ph|] eqn:Eph.
        -- destruct (update_phase_effect now phk ph s2 Eph) as (G2 & G3 & ph' & Lph & Cph & Pl).
           split; [rewrite G3; exact F3|].
           exists p'. split; [rewrite G2; exact L|]. split; [congruence|].
           split; [apply Hcalc; rewrite G3; exact F3|].
           intros _ _ phk0 ph0 E0 T0 L0.
           assert (phk0 = phk) by congruence. subst phk0.
           assert (ph0 = ph).
           { unfold get_phase in Eph. rewrite F2 in Eph. cbn in Eph. congruence. }
           subst ph0. exists ph'. split; [exact Lph|]. split; [exact Cph|].
           apply (project_level_ext s2); [exact F2 | exact F1 | exact Pl].
        -- split; [exact F3|]. exists p'. split; [exact L|]. split; [congruence|].
           split; [apply Hcalc; exact F3|].
           intros _ _ phk0 ph0 E0 T0 L0.
           assert (phk0 = phk) by congruence. subst phk0.
           unfold get_phase in Eph. rewrite F2 in Eph. cbn in Eph. congruence.
      * split; [exact F3|]. exists p'. split; [exact L|]. split; [congruence|].
        split; [apply Hcalc; exact F3|].
        intros _ _ phk0 ph0 E0 T0 L0. congruence.
    + split; [exact F3|]. exists p'. split; [exact L|]. split; [congruence|].
      split; [apply Hcalc; exact F3|].
      intros _ _ phk0 ph0 E0 T0 L0. congruence.
  - split; [exact F3|]. exists p'. split; [exact L|]. split; [congruence|].
    split; [apply Hcalc; exact F3|].
    intros Hv' Hc'. exfalso.
    rewrite Pv in Hv'. rewrite Hv' in Hr.
    unfold s1 in Hr. cbn [with_processes process_manager] in Hr.
    rewrite (contains_insert _ _ _ _ _ Hk), Hid, Hc' in Hr. discriminate.
Qed.

Lemma set_status_parent (stamp : string) (now : datetime) (x : Task.t)
    (new_status changed_by comment : string) :
  Task.parent_process_id (fst (Task.set_status stamp now x new_status changed_by comment))
  = Task.parent_process_id x.
Proof.
  unfold Task.set_status.
  destruct (negb (TaskStatus.is_valid new_status)); [reflexivity|].
  destruct (String.eqb new_status (Task.status x)); reflexivity.
Qed.

(** The effect of [update_task_status] on the task and on the process
    that owns it. *)
Lemma update_task_status_effect (stamp : string) (now : datetime) (user : string)
    (task_id new_status comment : string) (s : t)
    (task : Task.t) (process_id : string) (process : Process.t) :
  task_manager s !! task_id = Some task ->
  Task.parent_process_id task = Some process_id ->
  truthy process_id = true ->
  process_manager s !! process_id = Some process ->
  let r := update_task_status stamp now user task_id new_status comment s in
  exists task' process',
    task_manager (fst r) !! task_id = Some task'
    /\ Task.parent_process_id task' = Some process_id
    /\ process_manager (fst r) !! process_id = Some process'
    /\ Process.is_progress_manual process' = Process.is_progress_manual process
    /\ (Process.is_progress_manual process = true ->
        Process.progress process' = Process.progress process)
    /\ (snd r = Some true ->
        Process.progress process'
        = (if Process.is_progress_manual process then Process.progress process
           else Process.calculate_progress_from_tasks process' (task_manager (fst r)))
        /\ phase_level s (fst r) process process').
Proof.
  intros Ht Hp Htr Hproc.
  unfold update_task_status, update_task_status_body, get_task. rewrite Ht.
  pose proof (set_status_parent stamp now task new_status user comment) as Hpar.
  set (r0 := Task.set_status stamp now task new_status user comment) in *.
  set (s1 := with_tasks s (<[task_id:=fst r0]> (task_manager s))).
  destruct (snd r0) eqn:Hs; unfold handle_errors; cbn [fst snd].
  - unfold _cascade_update_progress. rewrite Hpar, Hp, Htr.
    change (process_manager s1) with (process_manager s).
    unfold get_process. rewrite Hproc.
    assert (Hproc1 : process_manager s1 !! process_id = Some process) by exact Hproc.
    destruct (update_process_effect now process_id process s1 Hproc1)
      as (G3 & p' & L & Mn & Pg & Pl).
    exists (fst r0), p'. split.
    { rewrite G3. apply lookup_insert_eq. }
    split; [congruence|]. split; [exact L|]. split; [exact Mn|]. split.
    { intros Hm. rewrite Hm in Pg. exact Pg. }
    intros _. split; [exact Pg|].
    apply (phase_level_ext s1); try reflexivity. exact Pl.
  - exists (fst r0), process. split; [apply lookup_insert_eq|].
    split; [congruence|]. split; [exact Hproc|]. split; [reflexivity|].
    split; [reflexivity|]. intros Hf. discriminate.
Qed.

(** ** Cascade consistency *)




(** ** The manual-progress default *)

Lemma set_progress_flag (now : datetime) (x : Process.t) (q : Q) (m : bool) :
  Process.is_progress_manual (fst (Process.set_progress now x q m))
  = if Qle_bool 0 q && Qle_bool q 100 then m else Process.is_progress_manual x.
Proof. unfold Process.set_progress. destruct (_ && _); reflexivity. Qed.

Lemma other_setters_keep_flag (now : datetime) (x : Process.t) :
  Process.is_progress_manual (Process.update_timestamp now x) = Process.is_progress_manual x
  /\ (forall a, Process.is_progress_manual (fst (Process.set_assignee now x a))
                = Process.is_progress_manual x)
  /\ (forall a b, Process.is_progress_manual (fst (Process.set_dates now x a b))
                  = Process.is_progress_manual x)
  /\ (forall i, Process.is_progress_manual (fst (Process.add_task now x i))
                = Process.is_progress_manual x)
  /\ (forall i, Process.is_progress_manual (fst (Process.remove_task now x i))
                = Process.is_progress_manual x)
  /\ (forall h, Process.is_progress_manual (fst (Process.set_estimated_hours now x h))
                = Process.is_progress_manual x)
  /\ (forall h, Process.is_progress_manual (fst (Process.set_actual_hours now x h))
                = Process.is_progress_manual x)
  /\ (forall tm, Process.is_progress_manual (fst (Process.update_progress_from_tasks now x tm))
                 = Process.is_progress_manual x).
Proof.
  split; [reflexivity|].
  split; [intros a; unfold Process.set_assignee; destruct (_ && _); reflexivity|].
  split; [intros a b; unfold Process.set_dates; destruct (dates_reversed a b); reflexivity|].
  split; [intros i; unfold Process.add_task; destruct (negb _); reflexivity|].
  split; [intros i; unfold Process.remove_task; destruct (mem _ _); reflexivity|].
  split; [intros h; unfold Process.set_estimated_hours; destruct (Qle_bool 0 h); reflexivity|].
  split; [intros h; unfold Process.set_actual_hours; destruct (Qle_bool 0 h); reflexivity|].
  intros tm. apply update_progress_from_tasks_fields.
Qed.

(** C10.  The constructor sets [is_progress_manual] to true and the
    progress to 0.0.  While the flag is true, [update_progress_from_tasks]
    returns without touching the process, and a task-status change
    through the orchestrator leaves the progress of the owning process
    as it was.  No setter other than [set_progress] changes the flag,
    and after a [set_progress(progress, is_manual=False)] that is
    accepted, [update_progress_from_tasks] installs the value computed
    from the tasks. *)
Theorem process_progress_manual_by_default :
  (forall (uuid : string) (now : datetime) (name description assignee : string),
      Process.is_progress_manual (Process.init uuid now name description assignee) = true
      /\ Process.progress (Process.init uuid now name description assignee) = 0%Q)
  /\ (forall (uuid : string) (now : datetime) (processes : gmap string Process.t)
             (name assignee description : string) (phase_id : option string),
         Process.is_progress_manual
           (fst (create_process uuid now processes name assignee description phase_id))
         = true
         /\ Process.progress
              (fst (create_process uuid now processes name assignee description phase_id))
            = 0%Q)
  /\ (forall (now : datetime) (x : Process.t) (tm : gmap string Task.t),
         Process.is_progress_manual x = true ->
         Process.update_progress_from_tasks now x tm = (x, true))
  /\ (forall (stamp : string) (now : datetime) (user task_id new_status comment : string)
             (s : t) (task : Task.t) (process_id : string) (process : Process.t),
         task_manager s !! task_id = Some task ->
         Task.parent_process_id task = Some process_id ->
         truthy process_id = true ->
         process_manager s !! process_id = Some process ->
         Process.is_progress_manual process = true ->
         exists process',
           process_manager
             (fst (update_task_status stamp now user task_id new_status comment s))
             !! process_id = Some process'
           /\ Process.progress process' = Process.progress process
           /\ Process.is_progress_manual process' = true)
  /\ (forall (now : datetime) (x : Process.t) (q : Q) (m : bool),
         Process.is_progress_manual (fst (Process.set_progress now x q m))
         = if Qle_bool 0 q && Qle_bool q 100 then m else Process.is_progress_manual x)
  /\ (forall (now : datetime) (x : Process.t),
         Process.is_progress_manual (Process.update_timestamp now x)
         = Process.is_progress_manual x
         /\ (forall a, Process.is_progress_manual (fst (Process.set_assignee now x a))
                       = Process.is_progress_manual x)
         /\ (forall a b, Process.is_progress_manual (fst (Process.set_dates now x a b))
                         = Process.is_progress_manual x)
         /\ (forall i, Process.is_progress_manual (fst (Process.add_task now x i))
                       = Process.is_progress_manual x)
         /\ (forall i, Process.is_progress_manual (fst (Process.remove_task now x i))
                       = Process.is_progress_manual x)
         /\ (forall h, Process.is_progress_manual (fst (Process.set_estimated_hours now x h))
                       = Process.is_progress_manual x)
         /\ (forall h, Process.is_progress_manual (fst (Process.set_actual_hours now x h))
                       = Process.is_progress_manual x)
         /\ (forall tm,
                Process.is_progress_manual (fst (Process.update_progress_from_tasks now x tm))
                = Process.is_progress_manual x))
  /\ (forall (now now' : datetime) (x : Process.t) (q : Q) (tm : gmap string Task.t),
         Qle_bool 0 q && Qle_bool q 100 = true ->
         Process.progress
           (fst (Process.update_progress_from_tasks now'
                   (fst (Process.set_progress now x q false)) tm))
         = Process.calculate_progress_from_tasks x tm).
Proof.
  split; [intros; split; reflexivity|].
  split.
  { intros uuid now processes name assignee description phase_id.
    unfold create_process. destruct (truthy_opt phase_id); split; reflexivity. }
  split.
  { intros now x tm Hm. unfold Process.update_progress_from_tasks. rewrite Hm. reflexivity. }
  split.
  { intros stamp now user task_id new_status comment s task process_id process
           Ht Hp Htr Hproc Hm.
    destruct (update_task_status_effect stamp now user task_id new_status comment s
                task process_id process Ht Hp Htr Hproc)
      as (task' & process' & _ & _ & L & Mn & Keep & _).
    exists process'. split; [exact L|]. split; [apply Keep; exact Hm | congruence]. }
  split; [exact set_progress_flag|].
  split; [exact other_setters_keep_flag|].
  intros now now' x q tm Hq.
  destruct (update_progress_from_tasks_fields now'
              (fst (Process.set_progress now x q false)) tm) as (_ & _ & _ & _ & Hpg).
  rewrite Hpg, set_progress_flag, Hq.
  apply calculate_progress_from_tasks_ext.
  unfold Process.set_progress. rewrite Hq. reflexivity.
Qed.

Lemma process_progress_manual_by_default_witness :
  Process.update_progress_from_tasks t1 fresh_process
    (task_manager (fst (complete_T fresh_system))) = (fresh_process, true)
  /\ Process.calculate_progress_from_tasks fresh_process
       (task_manager (fst (complete_T fresh_system))) = 1000 # 10
  /\ (exists process',
         process_manager (fst (complete_T fresh_system)) !! "P" = Some process'
         /\ Process.progress process' = 0%Q
         /\ Process.is_progress_manual process' = true)
  /\ Process.progress
       (fst (Process.update_progress_from_tasks t1
               (fst (Process.set_progress t1 fresh_process 0 false))
               (task_manager (fst (complete_T fresh_system))))) = 1000 # 10.
Proof.
  destruct process_progress_manual_by_default as (_ & _ & Hupd & Hcas & _ & _ & Hauto).
  split; [apply Hupd; reflexivity|].
  split; [vm_compute; reflexivity|].
  split.
  - apply (Hcas "1705399200.25" t1 "user" "T" TaskStatus.COMPLETED "" fresh_system
             (task_in "T" "P" TaskStatus.NOT_STARTED) "P" fresh_process);
      reflexivity.
  - rewrite (Hauto t1 t1 fresh_process 0%Q _ eq_refl). vm_compute. reflexivity.
Defined.

(** ** Notification deduplication *)

Lemma add_notification_first_match (m : NotificationManager.t) (n e : Notification.t) :
  NotificationManager.find_existing_notification m (Notification.entity_id n)
    (Notification.type n) = Some e ->
  NotificationManager.add_notification m n
  = if Notification.is_active e then (m, false)
    else (dict_set (Notification.id n) n m, true).
Proof. intros H. unfold NotificationManager.add_notification. rewrite H. reflexivity. Qed.

Lemma deadline_check_alert (uuid : string) (now : datetime) :
  NotificationGenerator._check_deadline_approaching uuid now today
    NotificationSettings.init (NotificationGenerator.of_process due_process)
  = Some (alert uuid now).
Proof. reflexivity. Qed.

(** The scenario of the specification: the second check is rejected,
    and after the dismissal a third check is accepted. *)
Lemma dedup_scenario :
  let m1 := fst (NotificationManager.add_notification NotificationManager.empty
                   (alert "n1" t0)) in
  let m2 := fst (NotificationManager.dismiss t0b m1 "n1") in
  NotificationManager.add_notification NotificationManager.empty (alert "n1" t0)
  = (m1, true)
  /\ NotificationManager.add_notification m1 (alert "n2" t0b) = (m1, false)
  /\ snd (NotificationManager.add_notification m2 (alert "n3" t0b)) = true
  /\ map fst (fst (NotificationManager.add_notification m2 (alert "n3" t0b))) = ["n1"; "n3"].
Proof. repeat split. Qed.

Lemma reachable_run (ops : list NotificationManager.op) :
  NotificationManager.reachable (NotificationManager.run ops).
Proof.
  unfold NotificationManager.run.
  assert (H : forall m, NotificationManager.reachable m ->
                NotificationManager.reachable (fold_left NotificationManager.step ops m)).
  { induction ops as [|o ops IH]; intros m Hm; simpl; [exact Hm|].
    apply IH. constructor. exact Hm. }
  apply H. constructor.
Qed.

(** C7 (failing input).  After a first alert has been dismissed and a
    second one accepted, the second is active; a third notification of
    the same [(entity_id, type)] pair is nevertheless accepted and
    inserted, because [find_existing_notification] returns the first,
    dismissed one. *)
Theorem add_notification_accepts_duplicate :
  (forall (uuid : string) (now : datetime),
      NotificationGenerator._check_deadline_approaching uuid now today
        NotificationSettings.init (NotificationGenerator.of_process due_process)
      = Some (alert uuid now))
  /\ NotificationManager.active_for after_dismissal "P" NotificationType.DEADLINE_APPROACHING
  = [alert "n2" t0b]
  /\ option_map Notification.id
       (NotificationManager.find_existing_notification after_dismissal "P"
          NotificationType.DEADLINE_APPROACHING) = Some "n1"
  /\ snd (NotificationManager.add_notification after_dismissal (alert "n3" t0b)) = true
  /\ NotificationManager.active_for
       (fst (NotificationManager.add_notification after_dismissal (alert "n3" t0b)))
       "P" NotificationType.DEADLINE_APPROACHING
     = [alert "n2" t0b; alert "n3" t0b].
Proof.
  split; [exact deadline_check_alert|].
  repeat (split; [vm_compute; reflexivity|]).
  vm_compute. reflexivity.
Qed.

(** C8 (failing input).  The state reached from the empty manager by
    add, dismiss, add, add holds two active notifications of one
    [(entity_id, type)] pair. *)
Theorem at_most_one_active_violated :
  NotificationManager.reachable (NotificationManager.run duplicate_ops)
  /\ length (NotificationManager.active_for (NotificationManager.run duplicate_ops)
               "P" NotificationType.DEADLINE_APPROACHING) = 2
  /\ ~ NotificationManager.at_most_one_active (NotificationManager.run duplicate_ops).
Proof.
  split; [apply reachable_run|]. split; [reflexivity|].
  intros H. specialize (H "P" NotificationType.DEADLINE_APPROACHING).
  vm_compute in H. lia.
Qed.

(** ** ISO 8601 round trip *)

Lemma digit_val_digit (n : Z) : (0 <= n < 10)%Z -> digit_val (digit n) = Some n.
Proof.
  intros H. rewrite <- (Z2Nat.id n) by lia.
  assert (K : Z.to_nat n < 10) by lia.
  revert K. generalize (Z.to_nat n). intros k K.
  do 10 (destruct k as [|k]; [reflexivity|]). lia.
Qed.

Lemma number_digit (d acc : Z) (r : list ascii) :
  (0 <= d < 10)%Z -> number (digit d :: r) acc = number r (10 * acc + d)%Z.
Proof. intros H. cbn [number]. rewrite (digit_val_digit d H). reflexivity. Qed.

Lemma mod10_range (n : Z) : (0 <= n mod 10 < 10)%Z.
Proof. apply Z.mod_pos_bound. lia. Qed.

Lemma number_pad2 (n : Z) : (0 <= n < 100)%Z -> number (pad2 n) 0%Z = Some n.
Proof.
  intros H. unfold pad2.
  rewrite !number_digit by apply mod10_range.
  cbn [number]. f_equal. Z.div_mod_to_equations. lia.
Qed.

Lemma number_pad4 (n : Z) : (0 <= n < 10000)%Z -> number (pad4 n) 0%Z = Some n.
Proof.
  intros H. unfold pad4.
  rewrite !number_digit by apply mod10_range.
  cbn [number]. f_equal. Z.div_mod_to_equations. lia.
Qed.

Lemma number_pad6 (n : Z) : (0 <= n < 1000000)%Z -> number (pad6 n) 0%Z = Some n.
Proof.
  intros H. unfold pad6.
  rewrite !number_digit by apply mod10_range.
  cbn [number]. f_equal. Z.div_mod_to_equations. lia.
Qed.

Lemma days_in_month_le (y m : Z) : (days_in_month y m <= 31)%Z.
Proof.
  unfold days_in_month.
  destruct m as [|p|p]; try lia.
  destruct (is_leap y);
    repeat (destruct p as [p|p|]; try lia).
Qed.

Lemma date_ok_bounds (d : date) :
  date_ok d = true ->
  (0 <= year d < 10000 /\ 0 <= month d < 100 /\ 0 <= day d < 100)%Z.
Proof.
  unfold date_ok. intros H.
  repeat (apply andb_true_iff in H; destruct H as [H ?]).
  pose proof (days_in_month_le (year d) (month d)). lia.
Qed.

Lemma parse_date_chars (d : date) : date_ok d = true -> parse_date (date_chars d) = Some d.
Proof.
  intros H. destruct (date_ok_bounds d H) as (Hy & Hm & Hd).
  pose proof (number_pad4 _ Hy) as Ey. pose proof (number_pad2 _ Hm) as Em.
  pose proof (number_pad2 _ Hd) as Ed.
  destruct d as [y m dd]. cbn [year month day] in *.
  unfold pad4, pad2 in Ey, Em, Ed.
  cbn [date_chars pad4 pad2 app parse_date year month day].
  rewrite !Ascii.eqb_refl. cbn [andb].
  rewrite Ey, Em, Ed. cbn zeta. rewrite H. reflexivity.
Qed.

Lemma date_round_trip (d : date) :
  date_ok d = true -> date_fromisoformat (date_isoformat d) = Some d.
Proof.
  intros H. unfold date_fromisoformat, date_isoformat.
  rewrite list_ascii_of_string_of_list_ascii. apply parse_date_chars. exact H.
Qed.

Lemma firstn_date_chars (d : date) (r : list ascii) :
  firstn 10 (date_chars d ++ r) = date_chars d /\ skipn 10 (date_chars d ++ r) = r.
Proof. split; reflexivity. Qed.

Lemma parse_time_chars (t : datetime) :
  datetime_ok t = true -> parse_time (dt_date t) (time_chars t) = Some t.
Proof.
  intros H. pose proof H as H'. unfold datetime_ok in H'.
  apply andb_true_iff in H'. destruct H' as [_ H'].
  repeat (apply andb_true_iff in H'; destruct H' as [H' ?]).
  assert (Hh : (0 <= hour t < 100)%Z) by lia.
  assert (Hm : (0 <= minute t < 100)%Z) by lia.
  assert (Hs : (0 <= second t < 100)%Z) by lia.
  assert (Hu : (0 <= microsecond t < 1000000)%Z) by lia.
  pose proof (number_pad2 _ Hh) as Eh. pose proof (number_pad2 _ Hm) as Em.
  pose proof (number_pad2 _ Hs) as Es. pose proof (number_pad6 _ Hu) as Eu.
  destruct t as [d h m s u]. cbn [dt_date hour minute second microsecond] in *.
  unfold pad2 in Eh, Em, Es. unfold pad6 in Eu.
  cbn [time_chars pad2 app parse_time hour minute second microsecond].
  rewrite !Ascii.eqb_refl. cbn [andb].
  rewrite Eh, Em, Es.
  destruct (u =? 0)%Z eqn:E0.
  - apply Z.eqb_eq in E0. subst u. cbn zeta. rewrite H. reflexivity.
  - cbn [pad6]. rewrite Ascii.eqb_refl, Eu. cbn zeta. rewrite H. reflexivity.
Qed.

Lemma datetime_round_trip (t : datetime) :
  datetime_ok t = true -> datetime_fromisoformat (datetime_isoformat t) = Some t.
Proof.
  intros H. unfold datetime_fromisoformat, datetime_isoformat.
  rewrite list_ascii_of_string_of_list_ascii.
  destruct (firstn_date_chars (dt_date t) (sepT :: time_chars t)) as [-> ->].
  rewrite parse_date_chars.
  - apply parse_time_chars. exact H.
  - unfold datetime_ok in H. apply andb_true_iff in H. apply H.
Qed.

Lemma date_isoformat_truthy (d : date) : truthy (date_isoformat d) = true.
Proof. reflexivity. Qed.

(** ** [from_dict] after [to_dict] *)

Lemma as_str_list_map (l : list string) : as_str_list (map PStr l) = Some l.
Proof.
  induction l as [|s l IH]; [reflexivity|]. cbn [map as_str_list]. rewrite IH. reflexivity.
Qed.

Lemma status_change_round_trip (c : StatusChange.t) :
  datetime_ok (StatusChange.changed_at c) = true ->
  StatusChange.from_dict (StatusChange.to_dict c) = Some c.
Proof.
  intros H. destruct c as [i o n a b cm]. cbn [StatusChange.changed_at] in H.
  unfold StatusChange.from_dict, StatusChange.to_dict, get_item_str, get_str,
    get_item_datetime.
  cbn -[datetime_fromisoformat datetime_isoformat].
  rewrite (datetime_round_trip a H). reflexivity.
Qed.

Lemma restore_history_map (h : list StatusChange.t) :
  forallb (fun c => datetime_ok (StatusChange.changed_at c)) h = true ->
  Task.restore_history (map (fun c => PDict (StatusChange.to_dict c)) h) = Some h.
Proof.
  induction h as [|c h IH]; intros H; [reflexivity|].
  cbn [forallb] in H. apply andb_true_iff in H. destruct H as [Hc Hh].
  cbn [map Task.restore_history].
  rewrite (status_change_round_trip c Hc), (IH Hh). reflexivity.
Qed.

Lemma task_round_trip (x : Task.t) :
  task_ok x = true -> Task.from_dict (Task.to_dict x) = Some x.
Proof.
  intros H. unfold task_ok, base_ok in H.
  destruct x as [[i n d c u] st h pp pr eh ah nt tg].
  cbn [Task.base Task.status_history BaseEntity.created_at BaseEntity.updated_at] in H.
  apply andb_true_iff in H. destruct H as [H Hh].
  apply andb_true_iff in H. destruct H as [Hc Hu].
  unfold Task.from_dict, Task.to_dict, BaseEntity.restore, get_item_str, get_str,
    get_item_datetime, get_opt_str, get_int, get_opt_float, get_str_list, str_list_val.
  cbn -[datetime_fromisoformat datetime_isoformat as_str_list Task.restore_history].
  rewrite (datetime_round_trip c Hc).
  cbn -[datetime_fromisoformat datetime_isoformat as_str_list Task.restore_history].
  rewrite (datetime_round_trip u Hu).
  cbn -[datetime_fromisoformat datetime_isoformat as_str_list Task.restore_history].
  destruct pp, eh, ah;
    cbn -[datetime_fromisoformat datetime_isoformat as_str_list Task.restore_history];
    rewrite as_str_list_map;
    cbn -[datetime_fromisoformat datetime_isoformat as_str_list Task.restore_history];
    rewrite (restore_history_map h Hh); reflexivity.
Qed.

Lemma date_if_truthy_val (o : option date) :
  opt_date_ok o = true -> date_if_truthy (opt_date_val o) = Some o.
Proof.
  intros H. destruct o as [d|]; [|reflexivity].
  unfold date_if_truthy. cbn [opt_date_val py_truthy].
  rewrite date_isoformat_truthy, (date_round_trip d H). reflexivity.
Qed.

Ltac restore_step :=
  cbn -[datetime_fromisoformat datetime_isoformat as_str_list date_if_truthy opt_date_val
        Task.restore_history].

Lemma process_round_trip (x : Process.t) :
  process_ok x = true -> Process.from_dict (Process.to_dict x) = Some x.
Proof.
  intros H. unfold process_ok, base_ok in H.
  destruct x as [[i n d c u] a pp sd ed eh ah pg im ts nt pr].
  cbn [Process.base Process.start_date Process.end_date
       BaseEntity.created_at BaseEntity.updated_at] in H.
  apply andb_true_iff in H. destruct H as [H He].
  apply andb_true_iff in H. destruct H as [H Hs].
  apply andb_true_iff in H. destruct H as [Hc Hu].
  unfold Process.from_dict, Process.to_dict, BaseEntity.restore, get_item_str, get_str,
    get_item_datetime, get_opt_str, get_int, get_float, get_bool, get_opt_float,
    get_opt_date, get_str_list, str_list_val.
  restore_step. rewrite (datetime_round_trip c Hc).
  restore_step. rewrite (datetime_round_trip u Hu).
  restore_step.
  destruct pp; restore_step;
    rewrite (date_if_truthy_val sd Hs); restore_step;
    rewrite (date_if_truthy_val ed He); restore_step;
    destruct eh, ah; restore_step; rewrite as_str_list_map; reflexivity.
Qed.

Lemma phase_round_trip (x : Phase.t) :
  phase_ok x = true -> Phase.from_dict (Phase.to_dict x) = Some x.
Proof.
  intros H. unfold phase_ok, base_ok in H.
  destruct x as [[i n d c u] pp ed pg ps nt pr ms dl].
  cbn [Phase.base Phase.end_date BaseEntity.created_at BaseEntity.updated_at] in H.
  apply andb_true_iff in H. destruct H as [H He].
  apply andb_true_iff in H. destruct H as [Hc Hu].
  unfold Phase.from_dict, Phase.to_dict, BaseEntity.restore, get_item_str, get_str,
    get_item_datetime, get_opt_str, get_int, get_float, get_opt_date, get_str_list,
    str_list_val.
  restore_step. rewrite (datetime_round_trip c Hc).
  restore_step. rewrite (datetime_round_trip u Hu).
  restore_step.
  destruct pp; restore_step;
    rewrite (date_if_truthy_val ed He); restore_step;
    rewrite !as_str_list_map; reflexivity.
Qed.

Lemma project_round_trip (x : Project.t) :
  project_ok x = true -> Project.from_dict (Project.to_dict x) = Some x.
Proof.
  intros H. unfold project_ok, base_ok in H.
  destruct x as [[i n d c u] st sm sd ed pg ps nt pr bd ac mg sh tg rl].
  cbn [Project.base Project.start_date Project.end_date
       BaseEntity.created_at BaseEntity.updated_at] in H.
  apply andb_true_iff in H. destruct H as [H He].
  apply andb_true_iff in H. destruct H as [H Hs].
  apply andb_true_iff in H. destruct H as [Hc Hu].
  unfold Project.from_dict, Project.to_dict, BaseEntity.restore, get_item_str, get_str,
    get_item_datetime, get_int, get_float, get_bool, get_opt_float, get_opt_date,
    get_str_list, str_list_val.
  restore_step. rewrite (datetime_round_trip c Hc).
  restore_step. rewrite (datetime_round_trip u Hu).
  restore_step.
  rewrite (date_if_truthy_val sd Hs); restore_step.
  rewrite (date_if_truthy_val ed He); restore_step.
  rewrite !as_str_list_map; restore_step.
  destruct bd, ac; restore_step; rewrite ?as_str_list_map; reflexivity.
Qed.

(** C9.  For a task, a process, a phase and a project whose dates and
    time stamps are values of [datetime.date] and [datetime.datetime],
    [from_dict(to_dict(e))] returns an entity with every attribute
    equal to the one of [e]: the base attributes, the dates, the
    optional attributes (including those left at [None]), the lists
    and, for the task, every entry of the status history. *)
Theorem from_dict_to_dict
    (task : Task.t) (process : Process.t) (phase : Phase.t) (project : Project.t) :
  task_ok task = true ->
  process_ok process = true ->
  phase_ok phase = true ->
  project_ok project = true ->
  Task.from_dict (Task.to_dict task) = Some task
  /\ Process.from_dict (Process.to_dict process) = Some process
  /\ Phase.from_dict (Phase.to_dict phase) = Some phase
  /\ Project.from_dict (Project.to_dict project) = Some project.
Proof.
  intros Ht Hp Hh Hj.
  split; [apply task_round_trip; exact Ht|].
  split; [apply process_round_trip; exact Hp|].
  split; [apply phase_round_trip; exact Hh | apply project_round_trip; exact Hj].
Qed.

Lemma from_dict_to_dict_witness :
  (Task.from_dict (Task.to_dict full_task) = Some full_task
   /\ Process.from_dict (Process.to_dict full_process) = Some full_process
   /\ Phase.from_dict (Phase.to_dict full_phase) = Some full_phase
   /\ Project.from_dict (Project.to_dict full_project) = Some full_project)
  /\ (Task.from_dict (Task.to_dict (Task.init "T" "1705311000.0" t0 "t" "")))
     = Some (Task.init "T" "1705311000.0" t0 "t" "").
Proof.
  split.
  - apply (from_dict_to_dict full_task full_process full_phase full_project); reflexivity.
  - apply (from_dict_to_dict (Task.init "T" "1705311000.0" t0 "t" "")
             full_process full_phase full_project); reflexivity.
Defined.

(** * Further properties *)

(** ** Lists of ids and tags *)

Lemma mem_In (x : string) (l : list string) : mem x l = true <-> In x l.
Proof.
  unfold mem. rewrite existsb_exists. split.
  - intros (y & Hy & E). apply String.eqb_eq in E. subst y. exact Hy.
  - intros H. exists x. split; [exact H | apply String.eqb_refl].
Qed.

Lemma mem_false (x : string) (l : list string) : mem x l = false <-> ~ In x l.
Proof.
  rewrite <- mem_In. destruct (mem x l); split; intros H; congruence.
Qed.

Lemma remove_first_In (x y : string) (l : list string) :
  In y (remove_first x l) -> In y l.
Proof.
  induction l as [|z l IH]; simpl; [tauto|].
  destruct (String.eqb x z); simpl; tauto.
Qed.

Lemma remove_first_other (x y : string) (l : list string) :
  y <> x -> In y l -> In y (remove_first x l).
Proof.
  intros Hne. induction l as [|z l IH]; simpl; [tauto|].
  destruct (String.eqb x z) eqn:E.
  - apply String.eqb_eq in E. subst z. intros [H|H]; [congruence | exact H].
  - simpl. tauto.
Qed.

Lemma remove_first_NoDup (x : string) (l : list string) :
  List.NoDup l -> List.NoDup (remove_first x l) /\ ~ In x (remove_first x l).
Proof.
  induction 1 as [|z l Hz Hl IH]; simpl.
  - split; [constructor | tauto].
  - destruct (String.eqb x z) eqn:E.
    + apply String.eqb_eq in E. subst z. split; assumption.
    + apply String.eqb_neq in E. destruct IH as [IH1 IH2]. split.
      * constructor; [|exact IH1]. intros H. apply Hz. eapply remove_first_In. exact H.
      * simpl. intros [H|H]; [congruence | tauto].
Qed.

Lemma NoDup_snoc (x : string) (l : list string) :
  List.NoDup l -> ~ In x l -> List.NoDup (l ++ [x]).
Proof.
  intros Hl Hx. induction Hl as [|z l Hz Hl IH]; simpl.
  - constructor; [simpl; tauto | constructor].
  - constructor.
    + rewrite in_app_iff. simpl. intros [H|[H|[]]]; [tauto|].
      subst z. apply Hx. left. reflexivity.
    + apply IH. intros H. apply Hx. right. exact H.
Qed.

Lemma remove_first_snoc (x : string) (l : list string) :
  ~ In x l -> remove_first x (l ++ [x]) = l.
Proof.
  induction l as [|z l IH]; simpl; intros H.
  - rewrite String.eqb_refl. reflexivity.
  - destruct (String.eqb x z) eqn:E.
    + apply String.eqb_eq in E. subst z. tauto.
    + rewrite IH by tauto. reflexivity.
Qed.

(** ** [str.strip] *)

Lemma rstrip_idem (s : string) : rstrip (rstrip s) = rstrip s.
Proof.
  induction s as [|c r IH]; [reflexivity|]. cbn [rstrip].
  destruct (rstrip r) as [|c' r'] eqn:E.
  - destruct (isspace c) eqn:Ec; [reflexivity|]. cbn [rstrip]. rewrite Ec. reflexivity.
  - cbn [rstrip]. cbn [rstrip] in IH. rewrite IH. reflexivity.
Qed.

Lemma lstrip_clean (s : string) : starts_clean (lstrip s).
Proof.
  induction s as [|c r IH]; [exact I|]. cbn [lstrip].
  destruct (isspace c) eqn:E; [exact IH | exact E].
Qed.

Lemma rstrip_clean (s : string) : starts_clean s -> starts_clean (rstrip s).
Proof.
  destruct s as [|c r]; [intros _; exact I|]. cbn [starts_clean rstrip]. intros Hc.
  destruct (rstrip r); [rewrite Hc|]; exact Hc.
Qed.

Lemma lstrip_of_clean (s : string) : starts_clean s -> lstrip s = s.
Proof.
  destruct s as [|c r]; [reflexivity|]. cbn [starts_clean lstrip]. intros ->. reflexivity.
Qed.

Lemma strip_idem (s : string) : strip (strip s) = strip s.
Proof.
  unfold strip at 1. rewrite lstrip_of_clean.
  - unfold strip. apply rstrip_idem.
  - unfold strip. apply rstrip_clean, lstrip_clean.
Qed.

(** ** Task status changes *)

Lemma set_status_appends_one_entry_aux
    (stamp : string) (now : datetime) (x : Task.t) (new_status changed_by comment : string) :
  fst (Task.set_status stamp now x new_status changed_by comment) = x
  \/ (TaskStatus.is_valid new_status = true
      /\ Task.status (fst (Task.set_status stamp now x new_status changed_by comment))
         = new_status
      /\ Task.status_history (fst (Task.set_status stamp now x new_status changed_by comment))
         = Task.status_history x
           ++ [StatusChange.mk stamp (Task.status x) new_status now changed_by comment]).
Proof.
  unfold Task.set_status.
  destruct (TaskStatus.is_valid new_status); cbn [negb]; [|left; reflexivity].
  destruct (String.eqb new_status (Task.status x)); [left; reflexivity|].
  right. split; [reflexivity|]. split; [reflexivity|].
  destruct comment; reflexivity.
Qed.

(** X1.  [set_status] answers whether the new status is one of the four
    values.  With a valid status different from the current one it sets
    the status and appends exactly one history entry recording the old
    and new status, the actor, the comment and the time; in every other
    case the task is returned untouched. *)
Theorem set_status_appends_one_entry
    (stamp : string) (now : datetime) (x : Task.t) (new_status changed_by comment : string) :
  let r := Task.set_status stamp now x new_status changed_by comment in
  snd r = TaskStatus.is_valid new_status
  /\ (if TaskStatus.is_valid new_status && negb (String.eqb new_status (Task.status x))
      then Task.status (fst r) = new_status
           /\ Task.status_history (fst r)
              = Task.status_history x
                ++ [StatusChange.mk stamp (Task.status x) new_status now changed_by comment]
      else fst r = x).
Proof.
  unfold Task.set_status.
  destruct (TaskStatus.is_valid new_status); cbn [negb andb]; [|split; reflexivity].
  destruct (String.eqb new_status (Task.status x)); cbn [negb fst snd];
    [split; reflexivity|].
  split; [reflexivity|]. split; [reflexivity|].
  destruct comment; reflexivity.
Qed.

Lemma chained_snoc (prev cur : string) (h : list StatusChange.t) (c : StatusChange.t) :
  chained prev h cur -> StatusChange.old_status c = cur ->
  chained prev (h ++ [c]) (StatusChange.new_status c).
Proof.
  revert prev. induction h as [|d h IH]; cbn [chained app]; intros prev H E.
  - split; [congruence | reflexivity].
  - destruct H as [H1 H2]. split; [exact H1 | apply IH; assumption].
Qed.

(** X2.  Every task obtained from the constructor through the methods
    of the class has a valid status and a non-empty history that
    replays from the empty status to the current one, each entry
    starting where the previous one ended. *)
Theorem history_replays_to_status (x : Task.t) :
  task_reachable x ->
  TaskStatus.is_valid (Task.status x) = true
  /\ Task.status_history x <> []
  /\ chained "" (Task.status_history x) (Task.status x).
Proof.
  induction 1 as [uuid stamp now name description
                 | uuid stamp now tasks name description process_id
                 | stamp now x new_status changed_by comment Hx IH
                 | now x priority Hx IH | now x tag Hx IH | now x tag Hx IH
                 | now x hours Hx IH | now x hours Hx IH].
  - repeat split. discriminate.
  - unfold create_task. destruct (truthy_opt process_id); repeat split; discriminate.
  - destruct IH as (V & N & C).
    destruct (set_status_appends_one_entry_aux stamp now x new_status changed_by comment)
      as [E|(Hv & Es & Eh)].
    + rewrite E. repeat split; assumption.
    + rewrite Es, Eh. split; [exact Hv|]. split.
      * intros Hn. apply app_eq_nil in Hn. destruct Hn as [_ Hn]. discriminate.
      * apply (chained_snoc "" (Task.status x)); [exact C | reflexivity].
  - unfold TaskSetters.set_priority. destruct (_ && _)%bool; exact IH.
  - unfold TaskSetters.add_tag. destruct (_ && _)%bool; exact IH.
  - unfold TaskSetters.remove_tag. destruct (mem _ _); exact IH.
  - unfold TaskSetters.set_estimated_hours. destruct (Qle_bool _ _); exact IH.
  - unfold TaskSetters.set_actual_hours. destruct (Qle_bool _ _); exact IH.
Qed.

Lemma history_replays_to_status_witness :
  let x := fst (Task.set_status "1705399200.25" t1
                  (fst (create_task "T" "1705311000.0" t0 ∅ "write" "" (Some "P")))
                  TaskStatus.COMPLETED "alice" "done") in
  TaskStatus.is_valid (Task.status x) = true
  /\ Task.status_history x <> []
  /\ chained "" (Task.status_history x) (Task.status x).
Proof.
  apply history_replays_to_status. apply reach_set_status. apply reach_create.
Defined.

(** ** Tags *)

(** X3.  [add_tag] stores the stripped tag, and only when it is not
    empty and not yet present, so a duplicate-free tag list stays
    duplicate-free; [remove_tag] compares without stripping.  After an
    accepted [add_tag(tag)], [remove_tag] of the stripped tag is
    accepted and gives back the tag list as it was. *)
Theorem add_tag_then_remove_tag (now now' : datetime) (x : Task.t) (tag : string) :
  List.NoDup (Task.tags x) ->
  let r := TaskSetters.add_tag now x tag in
  snd r = truthy (strip tag) && negb (mem (strip tag) (Task.tags x))
  /\ List.NoDup (Task.tags (fst r))
  /\ (snd r = true ->
      Task.tags (fst r) = Task.tags x ++ [strip tag]
      /\ snd (TaskSetters.remove_tag now' (fst r) (strip tag)) = true
      /\ Task.tags (fst (TaskSetters.remove_tag now' (fst r) (strip tag))) = Task.tags x)
  /\ (snd r = false -> fst r = x).
Proof.
  intros Hnd. unfold TaskSetters.add_tag. cbn zeta.
  destruct (truthy (strip tag) && negb (mem (strip tag) (Task.tags x))) eqn:E;
    cbn [fst snd].
  - apply andb_true_iff in E. destruct E as [_ E]. apply negb_true_iff in E.
    apply mem_false in E.
    split; [reflexivity|]. split; [apply NoDup_snoc; assumption|].
    split; [|discriminate]. intros _. split; [reflexivity|].
    unfold TaskSetters.remove_tag.
    assert (M : mem (strip tag) (Task.tags x ++ [strip tag]) = true).
    { apply mem_In. rewrite in_app_iff. right. left. reflexivity. }
    cbn [Task.tags TaskSetters.update_timestamp TaskSetters.with_tags]. rewrite M.
    cbn [fst snd Task.tags TaskSetters.update_timestamp TaskSetters.with_tags].
    split; [reflexivity | apply remove_first_snoc; exact E].
  - split; [reflexivity|]. split; [exact Hnd|]. split; [discriminate | reflexivity].
Qed.

Lemma add_tag_then_remove_tag_witness :
  let x := task_in "T" "P" TaskStatus.IN_PROGRESS in
  let r := TaskSetters.add_tag t1 x "  urgent " in
  snd r = true
  /\ Task.tags (fst r) = ["urgent"]
  /\ snd (TaskSetters.remove_tag t1 (fst r) "  urgent ") = false
  /\ Task.tags (fst (TaskSetters.remove_tag t1 (fst r) "urgent")) = [].
Proof.
  destruct (add_tag_then_remove_tag t1 t1 (task_in "T" "P" TaskStatus.IN_PROGRESS)
              "  urgent " (List.NoDup_nil string)) as (Hs & _ & Hok & _).
  cbn zeta. split; [exact Hs|].
  destruct (Hok Hs) as (Ht & _ & Hr).
  split; [exact Ht|]. split; [reflexivity | exact Hr].
Defined.

(** ** Validity is kept by the setters *)

Lemma base_validate_timestamp (now : datetime) (e : BaseEntity.t) :
  BaseEntity.validate (BaseEntity.update_timestamp now e) = BaseEntity.validate e.
Proof. reflexivity. Qed.

(** X4.  No method of [Task] turns a valid task into an invalid one:
    [set_status], [set_priority], [add_tag], [remove_tag],
    [set_estimated_hours] and [set_actual_hours] reject what
    [validate] would reject. *)
Theorem task_setters_keep_validate (stamp : string) (now : datetime) (x : Task.t) :
  Task.validate x = true ->
  (forall new_status changed_by comment,
      Task.validate (fst (Task.set_status stamp now x new_status changed_by comment)) = true)
  /\ (forall priority, Task.validate (fst (TaskSetters.set_priority now x priority)) = true)
  /\ (forall tag, Task.validate (fst (TaskSetters.add_tag now x tag)) = true)
  /\ (forall tag, Task.validate (fst (TaskSetters.remove_tag now x tag)) = true)
  /\ (forall hours,
         Task.validate (fst (TaskSetters.set_estimated_hours now x hours)) = true)
  /\ (forall hours, Task.validate (fst (TaskSetters.set_actual_hours now x hours)) = true).
Proof.
  intros Hv. pose proof Hv as Hv'. unfold Task.validate in Hv'.
  apply andb_true_iff in Hv'. destruct Hv' as [Hb Ha].
  unfold Task._validate_additional in Ha.
  destruct (negb (TaskStatus.is_valid (Task.status x))) eqn:E1; [discriminate|].
  destruct (negb ((1 <=? Task.priority x)%Z && (Task.priority x <=? 5)%Z)) eqn:E2;
    [discriminate|].
  destruct (match Task.estimated_hours x with
            | Some h => negb (Qle_bool 0 h) | None => false end) eqn:E3; [discriminate|].
  destruct (match Task.actual_hours x with
            | Some h => negb (Qle_bool 0 h) | None => false end) eqn:E4; [discriminate|].
  repeat split.
  - intros new_status changed_by comment. unfold Task.set_status.
    destruct (negb (TaskStatus.is_valid new_status)) eqn:V; [exact Hv|].
    destruct (String.eqb new_status (Task.status x)); [exact Hv|].
    unfold Task.validate, Task._validate_additional. cbn [fst Task.base Task.status
      Task.priority Task.estimated_hours Task.actual_hours].
    rewrite base_validate_timestamp, Hb, V, E2, E3, E4. reflexivity.
  - intros priority. unfold TaskSetters.set_priority.
    destruct ((1 <=? priority)%Z && (priority <=? 5)%Z) eqn:P; [|exact Hv].
    unfold Task.validate, Task._validate_additional.
    cbn [fst TaskSetters.update_timestamp Task.base Task.status Task.priority
         Task.estimated_hours Task.actual_hours].
    rewrite base_validate_timestamp, Hb, E1, P, E3, E4. reflexivity.
  - intros tag. unfold TaskSetters.add_tag.
    destruct (truthy (strip tag) && negb (mem (strip tag) (Task.tags x))); exact Hv.
  - intros tag. unfold TaskSetters.remove_tag.
    destruct (mem tag (Task.tags x)); exact Hv.
  - intros hours. unfold TaskSetters.set_estimated_hours.
    destruct (Qle_bool 0 hours) eqn:P; [|exact Hv].
    unfold Task.validate, Task._validate_additional.
    cbn [fst TaskSetters.update_timestamp Task.base Task.status Task.priority
         Task.estimated_hours Task.actual_hours].
    rewrite base_validate_timestamp, Hb, E1, E2, P, E4. reflexivity.
  - intros hours. unfold TaskSetters.set_actual_hours.
    destruct (Qle_bool 0 hours) eqn:P; [|exact Hv].
    unfold Task.validate, Task._validate_additional.
    cbn [fst TaskSetters.update_timestamp Task.base Task.status Task.priority
         Task.estimated_hours Task.actual_hours].
    rewrite base_validate_timestamp, Hb, E1, E2, E3, P. reflexivity.
Qed.

Lemma task_setters_keep_validate_witness :
  Task.validate (fst (Task.set_status "1705399200.25" t1
                        (task_in "T" "P" TaskStatus.NOT_STARTED)
                        TaskStatus.CANNOT_HANDLE "alice" "")) = true
  /\ Task.validate (fst (TaskSetters.set_priority t1
                           (task_in "T" "P" TaskStatus.NOT_STARTED) 9)) = true.
Proof.
  destruct (task_setters_keep_validate "1705399200.25" t1
              (task_in "T" "P" TaskStatus.NOT_STARTED) eq_refl) as (H1 & H2 & _).
  split; [apply H1 | apply H2].
Defined.

Lemma process_validate_fields (x : Process.t) :
  Process.validate x = true <->
  BaseEntity.validate (Process.base x) = true
  /\ truthy (Process.assignee x) = true
  /\ truthy (strip (Process.assignee x)) = true
  /\ Qle_bool 0 (Process.progress x) && Qle_bool (Process.progress x) 100 = true
  /\ dates_reversed (Process.start_date x) (Process.end_date x) = false
  /\ negative_opt (Process.estimated_hours x) = false
  /\ negative_opt (Process.actual_hours x) = false
  /\ ((1 <=? Process.priority x) && (Process.priority x <=? 5))%Z = true.
Proof.
  unfold Process.validate, Process._validate_additional.
  destruct (BaseEntity.validate (Process.base x)),
           (truthy (Process.assignee x)),
           (truthy (strip (Process.assignee x))),
           (Qle_bool 0 (Process.progress x) && Qle_bool (Process.progress x) 100),
           (dates_reversed (Process.start_date x) (Process.end_date x)),
           (negative_opt (Process.estimated_hours x)),
           (negative_opt (Process.actual_hours x)),
           ((1 <=? Process.priority x) && (Process.priority x <=? 5))%Z;
    cbn; intuition congruence.
Qed.

Ltac process_fields :=
  apply process_validate_fields;
  cbn [fst Process.update_timestamp Process.with_tasks Process.base Process.assignee
       Process.progress Process.start_date Process.end_date Process.estimated_hours
       Process.actual_hours Process.priority negative_opt];
  rewrite ?base_validate_timestamp.

(** X5.  No setter of [Process] turns a valid process into an invalid
    one: each of [set_assignee], [set_dates], [set_progress],
    [add_task], [remove_task], [set_estimated_hours],
    [set_actual_hours] and [update_progress_from_tasks] either refuses
    the change or leaves a process that [validate] accepts.  The
    assignee is stored stripped, and stripping twice changes nothing. *)
Theorem process_setters_keep_validate (now : datetime) (x : Process.t) :
  Process.validate x = true ->
  (forall a, Process.validate (fst (Process.set_assignee now x a)) = true)
  /\ (forall s e, Process.validate (fst (Process.set_dates now x s e)) = true)
  /\ (forall p m, Process.validate (fst (Process.set_progress now x p m)) = true)
  /\ (forall i, Process.validate (fst (Process.add_task now x i)) = true)
  /\ (forall i, Process.validate (fst (Process.remove_task now x i)) = true)
  /\ (forall h, Process.validate (fst (Process.set_estimated_hours now x h)) = true)
  /\ (forall h, Process.validate (fst (Process.set_actual_hours now x h)) = true)
  /\ (forall tm, Process.validate (fst (Process.update_progress_from_tasks now x tm)) = true).
Proof.
  intros Hv. pose proof (proj1 (process_validate_fields x) Hv)
    as (Hb & Ha & Hs & Hp & Hd & He & Hh & Hr).
  assert (SP : forall p m, Process.validate (fst (Process.set_progress now x p m)) = true).
  { intros p m. unfold Process.set_progress.
    destruct (Qle_bool 0 p && Qle_bool p 100) eqn:G; [|exact Hv].
    process_fields. repeat split; assumption. }
  repeat split.
  - intros a. unfold Process.set_assignee.
    destruct (truthy a && truthy (strip a)) eqn:G; [|exact Hv].
    apply andb_true_iff in G. destruct G as [_ G].
    process_fields. rewrite strip_idem. repeat split; assumption.
  - intros s e. unfold Process.set_dates.
    destruct (dates_reversed s e) eqn:G; [exact Hv|].
    process_fields. repeat split; assumption.
  - exact SP.
  - intros i. unfold Process.add_task.
    destruct (negb (mem i (Process.tasks x))); exact Hv.
  - intros i. unfold Process.remove_task.
    destruct (mem i (Process.tasks x)); exact Hv.
  - intros h. unfold Process.set_estimated_hours.
    destruct (Qle_bool 0 h) eqn:G; [|exact Hv].
    process_fields. rewrite G. repeat split; assumption.
  - intros h. unfold Process.set_actual_hours.
    destruct (Qle_bool 0 h) eqn:G; [|exact Hv].
    process_fields. rewrite G. repeat split; assumption.
  - intros tm. unfold Process.update_progress_from_tasks.
    destruct (negb (Process.is_progress_manual x)); [apply SP | exact Hv].
Qed.

Lemma process_setters_keep_validate_witness :
  Process.validate (fst (Process.set_assignee t1 (process_in "P" "ph" "alice" ["T"] 0 false None)
                           "  bob  ")) = true
  /\ Process.validate (fst (Process.set_progress t1 (process_in "P" "ph" "alice" ["T"] 0 false None)
                              150 true)) = true.
Proof.
  destruct (process_setters_keep_validate t1 (process_in "P" "ph" "alice" ["T"] 0 false None) eq_refl)
    as (H1 & _ & H3 & _).
  split; [apply H1 | apply H3].
Defined.

(** ** Child lists *)

(** X6.  The child-id lists never hold an id twice: [Process.add_task],
    [Phase.add_process] and [Project.add_phase] append an id only when
    it is absent, so a duplicate-free list stays duplicate-free, and
    after the matching [remove_*] the id is no longer listed while
    every other id is kept. *)
Theorem child_lists_stay_duplicate_free (now : datetime) (i : string) :
  (forall x : Process.t,
      List.NoDup (Process.tasks x) ->
      let a := fst (Process.add_task now x i) in
      let r := fst (Process.remove_task now x i) in
      List.NoDup (Process.tasks a) /\ In i (Process.tasks a)
      /\ List.NoDup (Process.tasks r) /\ ~ In i (Process.tasks r)
      /\ forall j, j <> i -> (In j (Process.tasks r) <-> In j (Process.tasks x)))
  /\ (forall x : Phase.t,
      List.NoDup (Phase.processes x) ->
      let a := fst (Phase.add_process now x i) in
      let r := fst (Phase.remove_process now x i) in
      List.NoDup (Phase.processes a) /\ In i (Phase.processes a)
      /\ List.NoDup (Phase.processes r) /\ ~ In i (Phase.processes r)
      /\ forall j, j <> i -> (In j (Phase.processes r) <-> In j (Phase.processes x)))
  /\ (forall x : Project.t,
      List.NoDup (Project.phases x) ->
      let a := fst (Project.add_phase now x i) in
      let r := fst (Project.remove_phase now x i) in
      List.NoDup (Project.phases a) /\ In i (Project.phases a)
      /\ List.NoDup (Project.phases r) /\ ~ In i (Project.phases r)
      /\ forall j, j <> i -> (In j (Project.phases r) <-> In j (Project.phases x))).
Proof.
  assert (K : forall l : list string,
             List.NoDup l ->
             let a := if negb (mem i l) then l ++ [i] else l in
             let r := if mem i l then remove_first i l else l in
             List.NoDup a /\ In i a /\ List.NoDup r /\ ~ In i r
             /\ forall j, j <> i -> (In j r <-> In j l)).
  { intros l Hl. cbn zeta. destruct (mem i l) eqn:M; cbn [negb].
    - apply mem_In in M. destruct (remove_first_NoDup i l Hl) as [N1 N2].
      repeat split; try assumption.
      + apply remove_first_In.
      + apply remove_first_other. assumption.
    - apply mem_false in M. repeat split; try assumption.
      + apply NoDup_snoc; assumption.
      + apply in_app_iff. right. left. reflexivity.
      + tauto.
      + tauto. }
  split; [|split]; intros x Hl; specialize (K _ Hl); cbn zeta in *.
  - unfold Process.add_task, Process.remove_task.
    destruct (mem i (Process.tasks x)); exact K.
  - unfold Phase.add_process, Phase.remove_process.
    destruct (mem i (Phase.processes x)); exact K.
  - unfold Project.add_phase, Project.remove_phase.
    destruct (mem i (Project.phases x)); exact K.
Qed.

Lemma child_lists_stay_duplicate_free_witness :
  let x := process_in "P" "ph" "alice" ["T1"; "T2"] 0 false None in
  List.NoDup (Process.tasks (fst (Process.add_task t1 x "T2")))
  /\ ~ In "T2" (Process.tasks (fst (Process.remove_task t1 x "T2"))).
Proof.
  assert (N : List.NoDup (Process.tasks (process_in "P" "ph" "alice" ["T1"; "T2"] 0 false None))).
  { cbn. constructor; [|constructor; [|constructor]]; cbn.
    - intros [E|[]]. discriminate E.
    - intros []. }
  destruct (child_lists_stay_duplicate_free t1 "T2") as (H & _).
  destruct (H _ N) as (H1 & _ & _ & H4 & _).
  split; [exact H1 | exact H4].
Defined.

(** ** Dates *)

Lemma days_before_year_succ (y : Z) :
  (days_before_year (y + 1) = days_before_year y + (if is_leap y then 366 else 365))%Z.
Proof.
  unfold days_before_year, is_leap. cbn zeta.
  replace (y + 1 - 1)%Z with y by lia.
  destruct (y mod 4 =? 0)%Z eqn:E4, (y mod 100 =? 0)%Z eqn:E100,
           (y mod 400 =? 0)%Z eqn:E400; cbn [andb orb negb];
    rewrite ?Z.eqb_eq, ?Z.eqb_neq in *; Z.div_mod_to_equations; lia.
Qed.

Lemma days_before_year_mono (y y' : Z) :
  (y < y')%Z -> (days_before_year (y + 1) <= days_before_year y')%Z.
Proof.
  intros H. replace y' with (y + 1 + Z.of_nat (Z.to_nat (y' - y - 1)))%Z by lia.
  induction (Z.to_nat (y' - y - 1)) as [|k IH].
  - rewrite Z.add_0_r. lia.
  - replace (y + 1 + Z.of_nat (S k))%Z with (y + 1 + Z.of_nat k + 1)%Z by lia.
    rewrite (days_before_year_succ (y + 1 + Z.of_nat k)).
    destruct (is_leap (y + 1 + Z.of_nat k)); lia.
Qed.

Lemma days_before_month_succ (y m : Z) :
  (1 <= m <= 11)%Z ->
  (days_before_month y (m + 1) = days_before_month y m + days_in_month y m)%Z.
Proof.
  intros H. replace m with (Z.of_nat (Z.to_nat m)) by lia.
  assert (B : 1 <= Z.to_nat m <= 11) by lia.
  destruct (Z.to_nat m) as [|k]; [lia|].
  unfold days_before_month, days_in_month. generalize (is_leap y). intros b.
  do 11 (destruct k as [|k]; [cbn; destruct b; reflexivity|]).
  lia.
Qed.

Lemma days_in_month_pos (y m : Z) : (28 <= days_in_month y m)%Z.
Proof.
  unfold days_in_month.
  destruct m as [|p|p]; try lia.
  destruct (is_leap y);
    repeat (destruct p as [p|p|]; try lia).
Qed.

Lemma days_before_month_mono (y m m' : Z) :
  (1 <= m)%Z -> (m < m')%Z -> (m' <= 12)%Z ->
  (days_before_month y m + days_in_month y m <= days_before_month y m')%Z.
Proof.
  intros H1 H2 H3.
  replace m' with (m + 1 + Z.of_nat (Z.to_nat (m' - m - 1)))%Z in * by lia.
  induction (Z.to_nat (m' - m - 1)) as [|k IH].
  - rewrite Z.add_0_r. rewrite (days_before_month_succ y m) by lia. lia.
  - replace (m + 1 + Z.of_nat (S k))%Z with (m + 1 + Z.of_nat k + 1)%Z by lia.
    rewrite (days_before_month_succ y (m + 1 + Z.of_nat k)) by lia.
    pose proof (days_in_month_pos y (m + 1 + Z.of_nat k)). lia.
Qed.

Lemma days_before_month_range (y m : Z) :
  (1 <= m <= 12)%Z ->
  (0 <= days_before_month y m)%Z
  /\ (days_before_month y m + days_in_month y m <= (if is_leap y then 366 else 365))%Z.
Proof.
  intros H. replace m with (Z.of_nat (Z.to_nat m)) by lia.
  assert (B : 1 <= Z.to_nat m <= 12) by lia.
  destruct (Z.to_nat m) as [|k]; [lia|].
  unfold days_before_month, days_in_month. generalize (is_leap y). intros b.
  do 12 (destruct k as [|k]; [destruct b; vm_compute; split; discriminate|]).
  lia.
Qed.

Lemma date_ok_fields (d : date) :
  date_ok d = true ->
  (1 <= year d <= 9999 /\ 1 <= month d <= 12
   /\ 1 <= day d <= days_in_month (year d) (month d))%Z.
Proof. unfold date_ok. lia. Qed.

Lemma toordinal_lt (a b : date) :
  date_ok a = true -> date_ok b = true ->
  date_ltb a b = true -> (toordinal a < toordinal b)%Z.
Proof.
  intros Ha Hb L. apply date_ok_fields in Ha, Hb. unfold toordinal.
  destruct a as [ya ma da], b as [yb mb db]. unfold date_ltb in L. cbn in *.
  pose proof (days_before_month_range ya ma ltac:(lia)) as [A1 A2].
  pose proof (days_before_month_range yb mb ltac:(lia)) as [B1 B2].
  destruct (ya <? yb)%Z eqn:Y.
  - pose proof (days_before_year_mono ya yb ltac:(lia)) as M.
    rewrite days_before_year_succ in M. destruct (is_leap ya); lia.
  - cbn [orb] in L. assert (ya = yb) by lia. subst yb.
    destruct (ma <? mb)%Z eqn:Mo.
    + pose proof (days_before_month_mono ya ma mb ltac:(lia) ltac:(lia) ltac:(lia)). lia.
    + assert (ma = mb) by lia. subst mb. lia.
Qed.

Lemma date_ltb_total (a b : date) :
  date_ltb a b = false -> a = b \/ date_ltb b a = true.
Proof.
  destruct a as [ya ma da], b as [yb mb db]. unfold date_ltb. cbn. intros L.
  destruct (Z.eq_dec ya yb), (Z.eq_dec ma mb), (Z.eq_dec da db);
    subst; [left; reflexivity | right; lia ..].
Qed.

Lemma date_ltb_days (a b : date) :
  date_ok a = true -> date_ok b = true ->
  date_ltb a b = (days_between a b <? 0)%Z.
Proof.
  intros Ha Hb. unfold days_between. destruct (date_ltb a b) eqn:L.
  - pose proof (toordinal_lt a b Ha Hb L). lia.
  - destruct (date_ltb_total a b L) as [E|L'].
    + subst b. lia.
    + pose proof (toordinal_lt b a Hb Ha L'). lia.
Qed.

(** X7.  The ordering the code uses to compare dates agrees with the
    day count it uses to subtract them: for dates the [date] constructor
    accepts, [a < b] holds exactly when [(a - b).days] is negative.
    Hence a process or phase is overdue exactly when it has an end
    date, its progress is below 100 and [get_remaining_days] is
    negative; with progress 100 or more it is never overdue, however
    late. *)
Theorem overdue_iff_negative_remaining_days (today e : date) :
  date_ok today = true -> date_ok e = true ->
  date_ltb e today = (days_between e today <? 0)%Z
  /\ (forall x : Process.t,
        Process.end_date x = Some e ->
        Process.get_remaining_days today x = Some (days_between e today)
        /\ Process.is_overdue today x
           = negb (Qle_bool 100 (Process.progress x)) && (days_between e today <? 0)%Z)
  /\ (forall x : Phase.t,
        Phase.end_date x = Some e ->
        Phase.get_remaining_days today x = Some (days_between e today)
        /\ Phase.is_overdue today x
           = negb (Qle_bool 100 (Phase.progress x)) && (days_between e today <? 0)%Z)
  /\ (forall x : Project.t,
        Project.end_date x = Some e ->
        Project.get_remaining_days today x = Some (days_between e today)
        /\ Project.is_overdue today x
           = negb (String.eqb (Project.status x) ProjectStatus.COMPLETED)
             && (days_between e today <? 0)%Z).
Proof.
  intros Ht He. pose proof (date_ltb_days e today He Ht) as D.
  split; [exact D|].
  split; [|split]; intros x E.
  - unfold Process.get_remaining_days, Process.is_overdue. rewrite E, D.
    split; [reflexivity|]. destruct (Qle_bool 100 (Process.progress x)); reflexivity.
  - unfold Phase.get_remaining_days, Phase.is_overdue. rewrite E, D.
    split; [reflexivity|]. destruct (Qle_bool 100 (Phase.progress x)); reflexivity.
  - unfold Project.get_remaining_days, Project.is_overdue. rewrite E, D.
    split; [reflexivity|].
    destruct (String.eqb (Project.status x) ProjectStatus.COMPLETED); reflexivity.
Qed.

Lemma overdue_iff_negative_remaining_days_witness :
  date_ltb (mkdate 2023 12 31) (mkdate 2024 3 1)
  = (days_between (mkdate 2023 12 31) (mkdate 2024 3 1) <? 0)%Z.
Proof.
  exact (proj1 (overdue_iff_negative_remaining_days (mkdate 2024 3 1) (mkdate 2023 12 31)
                  eq_refl eq_refl)).
Defined.

(** X8.  [Project.set_dates] refuses exactly the calls whose start
    date is after the end date and then changes nothing; after an
    accepted call with both dates given [get_duration_days] is at
    least 1, and 1 when the two dates are equal. *)
Theorem accepted_dates_give_positive_duration (now : datetime) (x : Project.t)
    (s e : date) :
  date_ok s = true -> date_ok e = true ->
  let r := Project.set_dates now x (Some s) (Some e) in
  snd r = negb (date_ltb e s)
  /\ (snd r = true ->
      exists n, Project.get_duration_days (fst r) = Some n /\ (1 <= n)%Z
                /\ (s = e -> n = 1%Z))
  /\ (snd r = false -> fst r = x).
Proof.
  intros Hs He. unfold Project.set_dates. cbn [dates_reversed].
  destruct (date_ltb e s) eqn:L; cbn [fst snd negb].
  - split; [reflexivity|]. split; [discriminate | reflexivity].
  - split; [reflexivity|]. split; [|discriminate]. intros _.
    exists (days_between e s + 1)%Z. split; [reflexivity|].
    rewrite (date_ltb_days e s He Hs) in L. split; [lia|].
    intros ->. unfold days_between. lia.
Qed.

Lemma accepted_dates_give_positive_duration_witness :
  exists n,
    Project.get_duration_days
      (fst (Project.set_dates t1 (project_in "PJ" [] ProjectStatus.NOT_STARTED false 0)
              (Some (mkdate 2024 2 28)) (Some (mkdate 2024 3 1)))) = Some n
    /\ (1 <= n)%Z.
Proof.
  destruct (accepted_dates_give_positive_duration t1
              (project_in "PJ" [] ProjectStatus.NOT_STARTED false 0)
              (mkdate 2024 2 28) (mkdate 2024 3 1) eq_refl eq_refl) as (_ & H & _).
  destruct (H eq_refl) as (n & Hn & Hle & _).
  exists n. split; assumption.
Defined.

(** ** Deadline checks *)

(** X9.  The two deadline checks never fire together.  Without an end
    date, or for a finished entity, neither fires; otherwise, with [n]
    the number of days from today to the end date, the approaching
    check fires exactly when [0 <= n <= deadline_warning_days] and the
    overdue check exactly when [n < 0].  What they produce is an active
    notification for the entity, of the type of the check; an overdue
    notification always has high priority, an approaching one only on
    the last two days. *)
Theorem deadline_checks_are_exclusive (uuid uuid' : string) (now now' : datetime)
    (today : date) (settings : NotificationSettings.t) (e : NotificationGenerator.entity) :
  let a := NotificationGenerator._check_deadline_approaching uuid now today settings e in
  let o := NotificationGenerator._check_deadline_overdue uuid' now' today settings e in
  (a = None \/ o = None)
  /\ match NotificationGenerator.end_date e with
     | None => a = None /\ o = None
     | Some d =>
         let n := days_between d today in
         is_some a
         = negb (finished e)
           && ((0 <=? n)%Z
               && (n <=? NotificationSettings.deadline_warning_days settings)%Z)
         /\ is_some o = negb (finished e) && (n <? 0)%Z
     end
  /\ (forall x, a = Some x ->
        Notification.type x = NotificationType.DEADLINE_APPROACHING
        /\ Notification.entity_id x = NotificationGenerator.id e
        /\ Notification.id x = uuid
        /\ Notification.is_active x = true
        /\ forall d, NotificationGenerator.end_date e = Some d ->
             Notification.priority x
             = if (days_between d today <=? 1)%Z then NotificationPriority.HIGH
               else NotificationPriority.MEDIUM)
  /\ (forall x, o = Some x ->
        Notification.type x = NotificationType.DEADLINE_OVERDUE
        /\ Notification.entity_id x = NotificationGenerator.id e
        /\ Notification.id x = uuid'
        /\ Notification.is_active x = true
        /\ Notification.priority x = NotificationPriority.HIGH).
Proof.
  cbn zeta.
  unfold NotificationGenerator._check_deadline_approaching,
         NotificationGenerator._check_deadline_overdue, finished.
  destruct (NotificationGenerator.end_date e) as [d|].
  2:{ repeat split; try discriminate. left. reflexivity. }
  change (String.eqb ?s "完了") with (String.eqb s ProjectStatus.COMPLETED).
  destruct (match NotificationGenerator.status e with
            | Some s => String.eqb s ProjectStatus.COMPLETED
            | None => false
            end).
  { repeat split; try discriminate. left. reflexivity. }
  destruct (match NotificationGenerator.progress e with
            | Some p => Qle_bool 100 p
            | None => false
            end).
  { repeat split; try discriminate. left. reflexivity. }
  cbn [orb negb andb].
  assert (F : days_between today d = (- days_between d today)%Z)
    by (unfold days_between; lia).
  rewrite F. set (n := days_between d today).
  destruct ((0 <=? n)%Z && (n <=? NotificationSettings.deadline_warning_days settings)%Z)
    eqn:A; destruct (0 <? - n)%Z eqn:O; cbn [is_some]; try lia.
  all: split; [first [left; reflexivity | right; reflexivity]|].
  all: split; [split; [reflexivity | destruct (n <? 0)%Z eqn:N; first [reflexivity | lia]]|].
  all: split; intros x Hx; try discriminate Hx; injection Hx as <-.
  - repeat split. intros d' [= <-]. fold n. cbn.
    destruct (n =? 0)%Z eqn:E0; [|destruct (n =? 1)%Z eqn:E1];
      destruct (n <=? 1)%Z eqn:L1; cbn; try reflexivity; lia.
  - repeat split.
Qed.

(** ** Progress stays between 0 and 100 *)










(** ** Date ranges *)

Lemma date_ltb_le_trans (a b c : date) :
  date_ltb a b = false -> date_ltb b c = false -> date_ltb a c = false.
Proof.
  destruct a as [ya ma da], b as [yb mb db], c as [yc mc dc].
  unfold date_ltb. cbn. lia.
Qed.

Lemma date_ltb_irrefl (a : date) : date_ltb a a = false.
Proof. destruct a as [ya ma da]. unfold date_ltb. cbn. lia. Qed.

Lemma date_ltb_asym (a b : date) : date_ltb a b = true -> date_ltb b a = false.
Proof.
  destruct a as [ya ma da], b as [yb mb db]. unfold date_ltb. cbn. lia.
Qed.

Lemma date_min_spec (l : list date) (d : date) :
  In (date_min d l) (d :: l)
  /\ forall d', In d' (d :: l) -> date_ltb d' (date_min d l) = false.
Proof.
  revert d. induction l as [|y l IH]; intros d.
  - cbn. split; [left; reflexivity|]. intros d' [<-|[]]. apply date_ltb_irrefl.
  - unfold date_min. cbn [fold_left]. fold (date_min (if date_ltb y d then y else d) l).
    destruct (IH (if date_ltb y d then y else d)) as [I M]. split.
    + destruct I as [I|I]; [|right; right; exact I].
      rewrite <- I. destruct (date_ltb y d); [right; left|left]; reflexivity.
    + intros d' [<-|[<-|H]].
      * destruct (date_ltb y d) eqn:E.
        -- apply date_ltb_le_trans with (b := y);
             [apply date_ltb_asym; exact E | apply M; left; reflexivity].
        -- apply M. left. reflexivity.
      * destruct (date_ltb y d) eqn:E.
        -- apply M. left. reflexivity.
        -- apply date_ltb_le_trans with (b := d);
             [exact E | apply M; left; reflexivity].
      * apply M. right. exact H.
Qed.

Lemma date_max_spec (l : list date) (d : date) :
  In (date_max d l) (d :: l)
  /\ forall d', In d' (d :: l) -> date_ltb (date_max d l) d' = false.
Proof.
  revert d. induction l as [|y l IH]; intros d.
  - cbn. split; [left; reflexivity|]. intros d' [<-|[]]. apply date_ltb_irrefl.
  - unfold date_max. cbn [fold_left]. fold (date_max (if date_ltb d y then y else d) l).
    destruct (IH (if date_ltb d y then y else d)) as [I M]. split.
    + destruct I as [I|I]; [|right; right; exact I].
      rewrite <- I. destruct (date_ltb d y); [right; left|left]; reflexivity.
    + intros d' [<-|[<-|H]].
      * destruct (date_ltb d y) eqn:E.
        -- apply date_ltb_le_trans with (b := y);
             [apply M; left; reflexivity | apply date_ltb_asym; exact E].
        -- apply M. left. reflexivity.
      * destruct (date_ltb d y) eqn:E.
        -- apply M. left. reflexivity.
        -- apply date_ltb_le_trans with (b := d);
             [apply M; left; reflexivity | exact E].
      * apply M. right. exact H.
Qed.

Lemma collect_dates_fold (pm : gmap string Process.t) (l : list string)
    (a : list date * list date) :
  fold_left (Phase.collect_dates (Some pm)) l (Ok a)
  = Ok (fst a ++ omap Process.start_date (Phase.resolved pm l),
        snd a ++ omap Process.end_date (Phase.resolved pm l)).
Proof.
  revert a. induction l as [|i l IH]; intros [s e].
  - cbn. rewrite !app_nil_r. reflexivity.
  - cbn [fold_left]. unfold Phase.collect_dates at 2. cbn [rbind].
    unfold Phase.resolved. cbn [omap list_omap]. fold (omap (get_process pm) l).
    destruct (get_process pm i) as [p|]; [|apply IH].
    rewrite IH. cbn [fst snd omap list_omap].
    fold (omap Process.start_date (omap (get_process pm) l)).
    fold (omap Process.end_date (omap (get_process pm) l)).
    unfold Phase.resolved.
    destruct (Process.start_date p), (Process.end_date p); cbn [opt_to_list];
      rewrite <- ?app_assoc; cbn [app]; rewrite ?app_nil_r; reflexivity.
Qed.

(** X12.  Given the process manager, [Phase.get_date_range] always
    returns.  The start date is the earliest start date among the
    resolvable child processes, [None] when none of them has one: the
    phase has no start date of its own.  The end date is the latest
    end date among the children, and the phase's own [end_date] only
    when no child has one. *)
Theorem phase_date_range_from_children (x : Phase.t) (pm : gmap string Process.t) :
  let children := Phase.resolved pm (Phase.processes x) in
  let starts := omap Process.start_date children in
  let ends := omap Process.end_date children in
  exists s e,
    Phase.get_date_range x (Some pm) = Ok (s, e)
    /\ match starts with
       | [] => s = None
       | _ => exists d, s = Some d /\ In d starts
                        /\ forall d', In d' starts -> date_ltb d' d = false
       end
    /\ match ends with
       | [] => e = Phase.end_date x
       | _ => exists d, e = Some d /\ In d ends
                        /\ forall d', In d' ends -> date_ltb d d' = false
       end.
Proof.
  cbn zeta. unfold Phase.get_date_range.
  rewrite collect_dates_fold. cbn [rbind fst snd app].
  eexists _, _. split; [reflexivity|].
  split.
  - destruct (omap Process.start_date (Phase.resolved pm (Phase.processes x)))
      as [|d r]; [reflexivity|].
    destruct (date_min_spec r d) as [I M]. eauto.
  - destruct (omap Process.end_date (Phase.resolved pm (Phase.processes x)))
      as [|d r]; [reflexivity|].
    destruct (date_max_spec r d) as [I M]. eauto.
Qed.

Lemma collect_phase_dates_raise (pm : gmap string Phase.t) (l : list string) (e : exn) :
  fold_left (Project.collect_phase_dates pm) l (Raise e) = Raise e.
Proof. induction l as [|i l IH]; simpl; [reflexivity | exact IH]. Qed.

Lemma collect_phase_dates_fold (pm : gmap string Phase.t) (l : list string)
    (a : list date * list date) :
  (forall phase_id phase,
      In phase_id l -> get_phase pm phase_id = Some phase -> Phase.processes phase = []) ->
  fold_left (Project.collect_phase_dates pm) l (Ok a)
  = Ok (fst a, snd a ++ omap Phase.end_date (Project.resolved pm l)).
Proof.
  revert a. induction l as [|i l IH]; intros [s e] H.
  - cbn. rewrite app_nil_r. reflexivity.
  - cbn [fold_left]. unfold Project.collect_phase_dates at 2. cbn [rbind].
    rewrite resolved_cons.
    destruct (get_phase pm i) as [ph|] eqn:G.
    + rewrite get_date_range_no_manager, (H i ph (or_introl eq_refl) G). cbn [rbind].
      rewrite IH by (intros j q Hj; apply H; right; exact Hj).
      cbn [fst snd opt_to_list omap list_omap].
      fold (omap Phase.end_date (Project.resolved pm l)).
      rewrite app_nil_r.
      destruct (Phase.end_date ph); cbn [opt_to_list];
        rewrite <- ?app_assoc; cbn [app]; rewrite ?app_nil_r; reflexivity.
    + apply IH. intros j q Hj. apply H. right. exact Hj.
Qed.

Lemma collect_phase_dates_raises (pm : gmap string Phase.t) (l : list string)
    (a : list date * list date) (phase_id : string) (phase : Phase.t) :
  In phase_id l -> get_phase pm phase_id = Some phase -> Phase.processes phase <> [] ->
  fold_left (Project.collect_phase_dates pm) l (Ok a) = Raise AttributeError.
Proof.
  intros Hin Hget Hne. revert a. induction l as [|i l IH]; intros a; [destruct Hin|].
  cbn [fold_left]. unfold Project.collect_phase_dates at 2. cbn [rbind].
  destruct Hin as [->|Hin].
  - rewrite Hget, get_date_range_no_manager.
    destruct (Phase.processes phase); [congruence|]. cbn [rbind].
    apply collect_phase_dates_raise.
  - destruct (get_phase pm i) as [ph|]; [|apply IH; exact Hin].
    rewrite get_date_range_no_manager.
    destruct (Phase.processes ph); cbn [rbind];
      [apply IH; exact Hin | apply collect_phase_dates_raise].
Qed.

(** X13.  [Project.get_date_range] passes [None] for the process
    manager to each phase, so it returns exactly when no resolvable
    phase lists a process and raises [AttributeError] otherwise.  When
    it returns, the phases contribute no start date: the start is the
    project's own [start_date], and the end is the latest of the
    phases' end dates and the project's own. *)
Theorem project_date_range_defined_without_processes (x : Project.t)
    (pm : gmap string Phase.t) :
  let r := Project.get_date_range x pm in
  ((exists v, r = Ok v) <->
   (forall phase_id phase,
       In phase_id (Project.phases x) -> get_phase pm phase_id = Some phase ->
       Phase.processes phase = []))
  /\ (forall v, r = Ok v ->
        fst v = Project.start_date x
        /\ match omap Phase.end_date (Project.resolved pm (Project.phases x))
                 ++ opt_to_list (Project.end_date x) with
           | [] => snd v = None
           | d :: l =>
               snd v = Some (date_max d l)
               /\ In (date_max d l) (d :: l)
               /\ forall d', In d' (d :: l) -> date_ltb (date_max d l) d' = false
           end)
  /\ (r = Raise AttributeError \/ exists v, r = Ok v).
Proof.
  cbn zeta.
  assert (R : forall phase_id phase,
             In phase_id (Project.phases x) -> get_phase pm phase_id = Some phase ->
             Phase.processes phase <> [] ->
             Project.get_date_range x pm = Raise AttributeError).
  { intros phase_id phase Hin Hget Hne. unfold Project.get_date_range.
    rewrite (collect_phase_dates_raises pm _ _ phase_id phase Hin Hget Hne).
    reflexivity. }
  assert (V : (forall phase_id phase,
                 In phase_id (Project.phases x) -> get_phase pm phase_id = Some phase ->
                 Phase.processes phase = []) ->
              Project.get_date_range x pm
              = Ok (Project.start_date x,
                    match omap Phase.end_date (Project.resolved pm (Project.phases x))
                          ++ opt_to_list (Project.end_date x) with
                    | [] => Project.end_date x
                    | d :: l => Some (date_max d l)
                    end)).
  { intros H. unfold Project.get_date_range.
    rewrite (collect_phase_dates_fold pm _ _ H). cbn [rbind fst snd app].
    destruct (Project.start_date x) as [s|]; cbn [opt_to_list]; [|reflexivity].
    cbn [date_min fold_left]. reflexivity. }
  assert (N : (exists v, Project.get_date_range x pm = Ok v) ->
              forall phase_id phase,
                In phase_id (Project.phases x) -> get_phase pm phase_id = Some phase ->
                Phase.processes phase = []).
  { intros [v Hv] phase_id phase Hin Hget.
    destruct (Phase.processes phase) as [|i l] eqn:E; [reflexivity|].
    rewrite (R phase_id phase Hin Hget) in Hv; [discriminate Hv|].
    rewrite E. discriminate. }
  split; [split; [exact N | intros H; rewrite (V H); eauto]|]. split.
  - intros v Hv. rewrite (V (N (ex_intro _ v Hv))) in Hv. injection Hv as <-.
    split; [reflexivity|]. cbn [snd].
    destruct (omap Phase.end_date (Project.resolved pm (Project.phases x))
              ++ opt_to_list (Project.end_date x)) as [|d l] eqn:E.
    + apply app_eq_nil in E. destruct E as [_ E].
      destruct (Project.end_date x); [discriminate E | reflexivity].
    + split; [reflexivity | apply date_max_spec].
  - unfold Project.get_date_range.
    assert (C : forall l a,
               (exists b, fold_left (Project.collect_phase_dates pm) l (Ok a) = Ok b)
               \/ fold_left (Project.collect_phase_dates pm) l (Ok a)
                  = Raise AttributeError).
    { induction l as [|i l IH]; intros a; cbn [fold_left]; [eauto|].
      unfold Project.collect_phase_dates at 2 4. cbn [rbind].
      destruct (get_phase pm i) as [ph|]; [|apply IH].
      rewrite get_date_range_no_manager.
      destruct (Phase.processes ph); cbn [rbind];
        [apply IH | right; apply collect_phase_dates_raise]. }
    destruct (C (Project.phases x) ([], [])) as [[b ->]| ->].
    + right. cbn [rbind]. eauto.
    + left. reflexivity.
Qed.

(** ** Notifications *)

Lemma mark_step (n : Notification.t) (m : marking) :
  let n' := mark n m in
  (forall t, Notification.read_at n = Some t -> Notification.read_at n' = Some t)
  /\ (forall t, Notification.acknowledged_at n = Some t ->
                Notification.acknowledged_at n' = Some t)
  /\ (forall t, Notification.dismissed_at n = Some t ->
                Notification.dismissed_at n' = Some t)
  /\ Notification.id n' = Notification.id n
  /\ Notification.type n' = Notification.type n
  /\ Notification.entity_id n' = Notification.entity_id n
  /\ Notification.created_at n' = Notification.created_at n
  /\ (Notification.is_active n' = true -> Notification.is_active n = true)
  /\ ((Notification.is_active n = false -> Notification.is_read n = true) ->
      Notification.is_active n' = false -> Notification.is_read n' = true).
Proof.
  destruct n as [i ty ei et en ms pr c r a d md].
  destruct m as [now|now|now]; destruct r as [r|], a as [a|], d as [d|];
    cbn; repeat split; intros; try congruence; auto.
Qed.

(** X14.  The three time stamps of a notification are written once:
    through any sequence of [mark_as_read], [acknowledge] and
    [dismiss] a stamp that is set keeps its value, the identity of the
    notification (id, type, entity, creation time) never changes, and
    a notification that has stopped being active never becomes active
    again.  Acknowledging or dismissing also marks as read, so from a
    state in which every inactive notification is read, every
    inactive notification stays read. *)
Theorem notification_marks_are_write_once (n : Notification.t) (ms : list marking) :
  let n' := fold_left mark ms n in
  (forall t, Notification.read_at n = Some t -> Notification.read_at n' = Some t)
  /\ (forall t, Notification.acknowledged_at n = Some t ->
                Notification.acknowledged_at n' = Some t)
  /\ (forall t, Notification.dismissed_at n = Some t ->
                Notification.dismissed_at n' = Some t)
  /\ Notification.id n' = Notification.id n
  /\ Notification.type n' = Notification.type n
  /\ Notification.entity_id n' = Notification.entity_id n
  /\ Notification.created_at n' = Notification.created_at n
  /\ (Notification.is_active n' = true -> Notification.is_active n = true)
  /\ ((Notification.is_active n = false -> Notification.is_read n = true) ->
      Notification.is_active n' = false -> Notification.is_read n' = true).
Proof.
  revert n. induction ms as [|m ms IH]; intros n; cbn [fold_left].
  - cbn zeta. repeat split; auto.
  - specialize (IH (mark n m)). cbn zeta in *.
    destruct IH as (I1 & I2 & I3 & I4 & I5 & I6 & I7 & I8 & I9).
    destruct (mark_step n m) as (S1 & S2 & S3 & S4 & S5 & S6 & S7 & S8 & S9).
    split; [intros t Ht; apply I1, S1, Ht|].
    split; [intros t Ht; apply I2, S2, Ht|].
    split; [intros t Ht; apply I3, S3, Ht|].
    split; [congruence|]. split; [congruence|]. split; [congruence|].
    split; [congruence|].
    split; [intros H; apply S8, I8, H|].
    intros H. apply I9. apply S9. exact H.
Qed.

(** X15.  A notification created by the constructor is active and
    unread; after [acknowledge] or [dismiss] it is read and no longer
    active, while [mark_as_read] alone leaves it active.  Calling a
    marking method a second time changes nothing, whatever the clock
    says then. *)
Theorem notification_marking_is_idempotent (n : Notification.t) (now now' : datetime) :
  Notification.mark_as_read now' (Notification.mark_as_read now n)
  = Notification.mark_as_read now n
  /\ Notification.acknowledge now' (Notification.acknowledge now n)
     = Notification.acknowledge now n
  /\ Notification.dismiss now' (Notification.dismiss now n) = Notification.dismiss now n
  /\ Notification.is_read (Notification.mark_as_read now n) = true
  /\ Notification.is_active (Notification.mark_as_read now n) = Notification.is_active n
  /\ Notification.is_read (Notification.acknowledge now n)
     = Notification.is_read n || negb (Notification.is_acknowledged n)
  /\ Notification.is_acknowledged (Notification.acknowledge now n) = true
  /\ Notification.is_active (Notification.acknowledge now n) = false
  /\ Notification.is_read (Notification.dismiss now n)
     = Notification.is_read n || negb (Notification.is_dismissed n)
  /\ Notification.is_dismissed (Notification.dismiss now n) = true
  /\ Notification.is_active (Notification.dismiss now n) = false
  /\ (forall uuid ty ei et en ms pr,
        let fresh := Notification.init uuid now ty ei et en ms pr in
        Notification.is_active fresh = true /\ Notification.is_read fresh = false).
Proof.
  destruct n as [i ty ei et en ms pr c r a d md].
  destruct r as [r|], a as [a|], d as [d|]; cbn; repeat split.
Qed.

Lemma datetime_if_truthy_val (o : option datetime) :
  opt_datetime_ok o = true -> datetime_if_truthy (opt_datetime_val o) = Some o.
Proof.
  intros H. destruct o as [t|]; [|reflexivity].
  unfold datetime_if_truthy. cbn [opt_datetime_val py_truthy].
  assert (T : truthy (datetime_isoformat t) = true) by reflexivity.
  rewrite T, (datetime_round_trip t H). reflexivity.
Qed.

(** X16.  [Notification.from_dict] restores what [Notification.to_dict]
    wrote: every field, the three optional time stamps at [None] or at
    a value, and the metadata dictionary, for notifications whose time
    stamps are values the [datetime] constructor accepts. *)
Theorem notification_from_dict_to_dict (n : Notification.t) :
  notification_ok n = true ->
  Notification.from_dict (Notification.to_dict n) = Some n.
Proof.
  intros H. unfold notification_ok in H.
  destruct n as [i ty ei et en ms pr c r a d md].
  cbn [Notification.created_at Notification.read_at Notification.acknowledged_at
       Notification.dismissed_at] in H.
  apply andb_true_iff in H. destruct H as [H Hd].
  apply andb_true_iff in H. destruct H as [H Ha].
  apply andb_true_iff in H. destruct H as [Hc Hr].
  unfold Notification.from_dict, Notification.to_dict, get_item_str, get_str,
    get_item_datetime, get_opt_datetime, get_dict.
  cbn -[datetime_fromisoformat datetime_isoformat datetime_if_truthy opt_datetime_val].
  rewrite (datetime_round_trip c Hc).
  cbn -[datetime_fromisoformat datetime_isoformat datetime_if_truthy opt_datetime_val].
  rewrite (datetime_if_truthy_val r Hr).
  cbn -[datetime_fromisoformat datetime_isoformat datetime_if_truthy opt_datetime_val].
  rewrite (datetime_if_truthy_val a Ha).
  cbn -[datetime_fromisoformat datetime_isoformat datetime_if_truthy opt_datetime_val].
  rewrite (datetime_if_truthy_val d Hd).
  reflexivity.
Qed.

Lemma notification_from_dict_to_dict_witness :
  Notification.from_dict
    (Notification.to_dict (Notification.dismiss t1 (alert "N1" t0b)))
  = Some (Notification.dismiss t1 (alert "N1" t0b)).
Proof.
  apply notification_from_dict_to_dict. vm_compute. reflexivity.
Defined.

(** ** The notification dictionary *)

Lemma dict_set_keys {V : Type} (k : string) (v : V) (d : list (string * V)) :
  map fst (dict_set k v d)
  = if mem k (map fst d) then map fst d else map fst d ++ [k].
Proof.
  induction d as [|[k' v'] d IH]; [reflexivity|].
  cbn [dict_set map fst mem existsb]. unfold mem in IH.
  destruct (String.eqb k k') eqn:E; cbn [map fst orb]; [reflexivity|].
  rewrite IH. destruct (existsb (String.eqb k) (map fst d)); reflexivity.
Qed.

Lemma dict_set_In {V : Type} (k : string) (v : V) (d : list (string * V)) (kv : string * V) :
  In kv (dict_set k v d) -> kv = (k, v) \/ In kv d.
Proof.
  induction d as [|[k' v'] d IH]; cbn [dict_set].
  - intros [<-|[]]. left. reflexivity.
  - destruct (String.eqb k k') eqn:E.
    + apply String.eqb_eq in E. subst k'. intros [<-|H]; [left; reflexivity|].
      right. right. exact H.
    + intros [<-|H]; [right; left; reflexivity|].
      destruct (IH H) as [->|H']; [left; reflexivity | right; right; exact H'].
Qed.

Lemma dict_get_In {V : Type} (k : string) (v : V) (d : list (string * V)) :
  dict_get k d = Some v -> In (k, v) d.
Proof.
  induction d as [|[k' v'] d IH]; cbn [dict_get]; [discriminate|].
  destruct (String.eqb k k') eqn:E.
  - apply String.eqb_eq in E. subst k'. intros [= ->]. left. reflexivity.
  - intros H. right. apply IH. exact H.
Qed.

Lemma dict_get_set {V : Type} (k : string) (v : V) (d : list (string * V)) :
  dict_get k (dict_set k v d) = Some v.
Proof.
  induction d as [|[k' v'] d IH]; cbn [dict_set dict_get].
  - rewrite String.eqb_refl. reflexivity.
  - destruct (String.eqb k k') eqn:E; cbn [dict_get]; rewrite E; [reflexivity | exact IH].
Qed.

Lemma dict_del_keys {V : Type} (k : string) (d : list (string * V)) :
  map fst (dict_del k d) = remove_first k (map fst d).
Proof.
  induction d as [|[k' v'] d IH]; [reflexivity|].
  cbn [dict_del map fst remove_first].
  destruct (String.eqb k k'); cbn [map fst]; [reflexivity | rewrite IH; reflexivity].
Qed.

Lemma dict_del_In {V : Type} (k : string) (d : list (string * V)) (kv : string * V) :
  In kv (dict_del k d) -> In kv d.
Proof.
  induction d as [|[k' v'] d IH]; cbn [dict_del]; [tauto|].
  destruct (String.eqb k k'); [intros H; right; exact H|].
  intros [<-|H]; [left; reflexivity | right; apply IH; exact H].
Qed.

Lemma dict_get_del {V : Type} (k : string) (d : list (string * V)) :
  List.NoDup (map fst d) -> dict_get k (dict_del k d) = None.
Proof.
  induction d as [|[k' v'] d IH]; cbn [dict_del dict_get map fst]; [reflexivity|].
  intros N. inversion N as [|? ? Hk Hd]; subst.
  destruct (String.eqb k k') eqn:E.
  - apply String.eqb_eq in E. subst k'.
    destruct (dict_get k d) as [v|] eqn:G; [|reflexivity].
    exfalso. apply Hk. apply dict_get_In in G.
    apply in_map_iff. exists (k, v). split; [reflexivity | exact G].
  - cbn [dict_get]. rewrite E. apply IH. exact Hd.
Qed.

Lemma mark_keeps_id (n : Notification.t) (m : marking) :
  Notification.id (mark n m) = Notification.id n.
Proof. apply (mark_step n m). Qed.

Lemma marked_entry_keyed (m : NotificationManager.t) (k : string) (n n' : Notification.t) :
  keyed_by_id m -> dict_get k m = Some n -> Notification.id n' = Notification.id n ->
  keyed_by_id (dict_set k n' m).
Proof.
  intros K G E k0 n0 H. apply dict_set_In in H. destruct H as [[= -> ->]|H].
  - rewrite E. apply K. apply dict_get_In. exact G.
  - apply K. exact H.
Qed.

Lemma marked_entry_keys (m : NotificationManager.t) (k : string) (n n' : Notification.t) :
  dict_get k m = Some n -> map fst (dict_set k n' m) = map fst m.
Proof.
  intros G. rewrite dict_set_keys.
  assert (M : mem k (map fst m) = true).
  { apply mem_In. apply in_map_iff. exists (k, n).
    split; [reflexivity | apply dict_get_In; exact G]. }
  rewrite M. reflexivity.
Qed.

Lemma step_invariant (m : NotificationManager.t) (o : NotificationManager.op) :
  List.NoDup (map fst m) /\ keyed_by_id m ->
  List.NoDup (map fst (NotificationManager.step m o))
  /\ keyed_by_id (NotificationManager.step m o).
Proof.
  intros [N K]. destruct o as [n|now i|now i|now i|i]; cbn [NotificationManager.step].
  - unfold NotificationManager.add_notification.
    assert (A : List.NoDup (map fst (dict_set (Notification.id n) n m))
                /\ keyed_by_id (dict_set (Notification.id n) n m)).
    { split.
      - rewrite dict_set_keys.
        destruct (mem (Notification.id n) (map fst m)) eqn:M; [exact N|].
        apply NoDup_snoc; [exact N | apply mem_false; exact M].
      - intros k0 n0 H. apply dict_set_In in H.
        destruct H as [[= -> ->]|H]; [reflexivity | apply K; exact H]. }
    destruct (NotificationManager.find_existing_notification m _ _) as [e|];
      [destruct (Notification.is_active e)|]; cbn [fst]; tauto.
  - unfold NotificationManager.acknowledge, NotificationManager.get_notification.
    destruct (dict_get i m) as [n|] eqn:G; cbn [fst]; [|tauto]. split.
    + rewrite (marked_entry_keys m i n _ G). exact N.
    + apply (marked_entry_keyed m i n _ K G). apply (mark_keeps_id n (Acknowledged now)).
  - unfold NotificationManager.dismiss, NotificationManager.get_notification.
    destruct (dict_get i m) as [n|] eqn:G; cbn [fst]; [|tauto]. split.
    + rewrite (marked_entry_keys m i n _ G). exact N.
    + apply (marked_entry_keyed m i n _ K G). apply (mark_keeps_id n (Dismissed now)).
  - unfold NotificationManager.mark_as_read, NotificationManager.get_notification.
    destruct (dict_get i m) as [n|] eqn:G; cbn [fst]; [|tauto]. split.
    + rewrite (marked_entry_keys m i n _ G). exact N.
    + apply (marked_entry_keyed m i n _ K G). apply (mark_keeps_id n (Read now)).
  - unfold NotificationManager.delete_notification.
    destruct (dict_get i m) as [n|] eqn:G; cbn [fst]; [|tauto]. split.
    + rewrite dict_del_keys. apply remove_first_NoDup. exact N.
    + intros k0 n0 H. apply K. apply dict_del_In in H. exact H.
Qed.

(** X17.  In every state the notification manager can reach, the keys
    of the dictionary are distinct and each notification is stored
    under its own id.  There, a notification that [add_notification]
    accepted is the one [get_notification] returns for its id, a
    rejected one changes nothing, and after an accepted
    [delete_notification] the id resolves to nothing. *)
Theorem reachable_manager_is_keyed_by_id (m : NotificationManager.t) :
  NotificationManager.reachable m ->
  List.NoDup (map fst m)
  /\ (forall k n, In (k, n) m -> k = Notification.id n)
  /\ (forall n,
        let r := NotificationManager.add_notification m n in
        if snd r
        then NotificationManager.get_notification (fst r) (Notification.id n) = Some n
        else fst r = m)
  /\ (forall i,
        let r := NotificationManager.delete_notification m i in
        NotificationManager.get_notification (fst r) i = None
        /\ snd r = is_some (NotificationManager.get_notification m i)).
Proof.
  intros R.
  assert (I : List.NoDup (map fst m) /\ keyed_by_id m).
  { induction R as [|m o R IH].
    - split; [constructor | intros k n []].
    - apply step_invariant. exact IH. }
  destruct I as [N K]. split; [exact N|]. split; [exact K|]. split.
  - intros n. cbn zeta. unfold NotificationManager.add_notification,
      NotificationManager.get_notification.
    destruct (NotificationManager.find_existing_notification m _ _) as [e|];
      [destruct (Notification.is_active e)|]; cbn [fst snd];
      try reflexivity; apply dict_get_set.
  - intros i. cbn zeta. unfold NotificationManager.delete_notification,
      NotificationManager.get_notification.
    destruct (dict_get i m) as [n|] eqn:G; cbn [fst snd is_some].
    + split; [apply dict_get_del; exact N | reflexivity].
    + split; [exact G | reflexivity].
Qed.

Lemma reachable_manager_is_keyed_by_id_witness :
  List.NoDup
    (map fst (NotificationManager.run
                [NotificationManager.Add (alert "N1" t0b);
                 NotificationManager.Dismiss t1 "N1";
                 NotificationManager.Add (alert "N2" t1)])).
Proof.
  apply reachable_manager_is_keyed_by_id.
  unfold NotificationManager.run. cbn [fold_left].
  apply NotificationManager.reachable_step.
  apply NotificationManager.reachable_step.
  apply NotificationManager.reachable_step.
  apply NotificationManager.reachable_empty.
Defined.

Lemma find_existing_none (m : NotificationManager.t) (e ty : string) :
  NotificationManager.find_existing_notification m e ty = None -> held_for m e ty = [].
Proof.
  unfold held_for, same_pair.
  induction m as [|[k n] m IH]; cbn [NotificationManager.find_existing_notification
                                        map snd List.filter]; [reflexivity|].
  destruct (String.eqb (Notification.entity_id n) e
            && String.eqb (Notification.type n) ty); [discriminate | exact IH].
Qed.

Lemma find_existing_some (m : NotificationManager.t) (e ty : string) (n : Notification.t) :
  NotificationManager.find_existing_notification m e ty = Some n ->
  In n (held_for m e ty) /\ In n (map snd m).
Proof.
  unfold held_for, same_pair.
  induction m as [|[k n0] m IH]; cbn [NotificationManager.find_existing_notification
                                         map snd List.filter]; [discriminate|].
  destruct (String.eqb (Notification.entity_id n0) e
            && String.eqb (Notification.type n0) ty).
  - intros [= ->]. split; left; reflexivity.
  - intros H. destruct (IH H) as [I1 I2]. split; [exact I1 | right; exact I2].
Qed.

Lemma count_after_set (f : Notification.t -> bool) (k : string) (v : Notification.t)
    (m : NotificationManager.t) :
  length (List.filter f (map snd (dict_set k v m)))
  <= length (List.filter f (map snd m)) + (if f v then 1 else 0).
Proof.
  induction m as [|[k' v'] m IH]; cbn [dict_set map snd List.filter].
  - destruct (f v); cbn; lia.
  - destruct (String.eqb k k'); cbn [map snd List.filter].
    + destruct (f v), (f v'); cbn [length]; lia.
    + destruct (f v'); cbn [length]; lia.
Qed.

Lemma count_after_mark (f : Notification.t -> bool) (k : string) (n n' : Notification.t)
    (m : NotificationManager.t) :
  dict_get k m = Some n -> f n' = f n ->
  length (List.filter f (map snd (dict_set k n' m)))
  = length (List.filter f (map snd m)).
Proof.
  intros G E. induction m as [|[k' v'] m IH]; cbn [dict_get] in G; [discriminate|].
  cbn [dict_set]. destruct (String.eqb k k'); cbn [map snd List.filter].
  - injection G as ->. rewrite E. destruct (f n); reflexivity.
  - destruct (f v'); cbn [length]; rewrite (IH G); reflexivity.
Qed.

Lemma count_after_del (f : Notification.t -> bool) (k : string)
    (m : NotificationManager.t) :
  length (List.filter f (map snd (dict_del k m))) <= length (List.filter f (map snd m)).
Proof.
  induction m as [|[k' v'] m IH]; cbn [dict_del map snd List.filter]; [lia|].
  destruct (String.eqb k k'); cbn [map snd List.filter];
    destruct (f v'); cbn [length]; lia.
Qed.

Lemma filter_length_imp {A : Type} (f g : A -> bool) (l : list A) :
  (forall x, f x = true -> g x = true) ->
  length (List.filter f l) <= length (List.filter g l).
Proof.
  intros H. induction l as [|x l IH]; cbn [List.filter]; [lia|].
  destruct (f x) eqn:F; [rewrite (H x F); cbn [length]; lia|].
  destruct (g x); cbn [length]; lia.
Qed.

Lemma quiet_step (m : NotificationManager.t) (o : NotificationManager.op) :
  quiet o = true ->
  (forall n, In n (map snd m) -> Notification.is_active n = true)
  /\ (forall e ty, length (held_for m e ty) <= 1) ->
  (forall n, In n (map snd (NotificationManager.step m o)) ->
             Notification.is_active n = true)
  /\ (forall e ty, length (held_for (NotificationManager.step m o) e ty) <= 1).
Proof.
  intros Hq [A U].
  destruct o as [n|now i|now i|now i|i]; cbn [quiet] in Hq; try discriminate Hq;
    cbn [NotificationManager.step].
  - unfold NotificationManager.add_notification.
    destruct (NotificationManager.find_existing_notification m _ _) as [e0|] eqn:F.
    + apply find_existing_some in F. destruct F as [_ F].
      rewrite (A e0 F). cbn [fst]. split; assumption.
    + cbn [fst]. apply find_existing_none in F. split.
      * intros x Hx. apply in_map_iff in Hx. destruct Hx as ([k v] & <- & Hx).
        apply dict_set_In in Hx. destruct Hx as [[= _ ->]|Hx]; [exact Hq|].
        apply A. apply in_map_iff. exists (k, v). split; [reflexivity | exact Hx].
      * intros e ty. unfold held_for.
        pose proof (count_after_set (same_pair e ty) (Notification.id n) n m) as C.
        destruct (same_pair e ty n) eqn:S.
        -- unfold same_pair in S. apply andb_true_iff in S. destruct S as [S1 S2].
           apply String.eqb_eq in S1. apply String.eqb_eq in S2. subst e ty.
           unfold held_for in F. rewrite F in C. exact C.
        -- specialize (U e ty). unfold held_for in U. lia.
  - unfold NotificationManager.mark_as_read, NotificationManager.get_notification.
    destruct (dict_get i m) as [n|] eqn:G; cbn [fst]; [|split; assumption].
    assert (An : Notification.is_active n = true).
    { apply A. apply in_map_iff. exists (i, n).
      split; [reflexivity | apply dict_get_In; exact G]. }
    split.
    + intros x Hx. apply in_map_iff in Hx. destruct Hx as ([k v] & <- & Hx).
      apply dict_set_In in Hx. destruct Hx as [[= _ ->]|Hx].
      * cbn [snd]. rewrite <- An. destruct n as [? ? ? ? ? ? ? ? [r|] ? ? ?]; reflexivity.
      * apply A. apply in_map_iff. exists (k, v). split; [reflexivity | exact Hx].
    + intros e ty. unfold held_for.
      rewrite (count_after_mark (same_pair e ty) i n _ m G); [apply U|].
      destruct n as [? ? ? ? ? ? ? ? [r|] ? ? ?]; reflexivity.
  - unfold NotificationManager.delete_notification.
    destruct (dict_get i m) as [n|]; cbn [fst]; [|split; assumption]. split.
    + intros x Hx. apply in_map_iff in Hx. destruct Hx as ([k v] & <- & Hx).
      apply dict_del_In in Hx. apply A. apply in_map_iff. exists (k, v).
      split; [reflexivity | exact Hx].
    + intros e ty. unfold held_for.
      pose proof (count_after_del (same_pair e ty) i m) as C.
      specialize (U e ty). unfold held_for in U. lia.
Qed.

(** X18.  As long as no notification is acknowledged or dismissed and
    only active notifications are added, the duplicate check holds
    what it promises: after any sequence of [add_notification],
    [mark_as_read] and [delete_notification] the manager holds at most
    one notification per [(entity_id, type)] pair, hence at most one
    active one, and [add_notification] accepts a notification exactly
    when none is held for its pair. *)
Theorem quiet_runs_hold_one_per_pair (ops : list NotificationManager.op) :
  forallb quiet ops = true ->
  let m := NotificationManager.run ops in
  (forall e ty, length (held_for m e ty) <= 1)
  /\ NotificationManager.at_most_one_active m
  /\ (forall n,
        snd (NotificationManager.add_notification m n)
        = match held_for m (Notification.entity_id n) (Notification.type n) with
          | [] => true
          | _ :: _ => false
          end).
Proof.
  intros Hq. cbn zeta.
  assert (I : (forall n, In n (map snd (NotificationManager.run ops)) ->
                         Notification.is_active n = true)
              /\ (forall e ty, length (held_for (NotificationManager.run ops) e ty) <= 1)).
  { unfold NotificationManager.run.
    assert (G : forall m,
               (forall n, In n (map snd m) -> Notification.is_active n = true)
               /\ (forall e ty, length (held_for m e ty) <= 1) ->
               (forall n, In n (map snd (fold_left NotificationManager.step ops m)) ->
                          Notification.is_active n = true)
               /\ (forall e ty,
                     length (held_for (fold_left NotificationManager.step ops m) e ty)
                     <= 1)).
    { induction ops as [|o ops IH]; intros m Hm; [exact Hm|].
      cbn [forallb] in Hq. apply andb_true_iff in Hq. destruct Hq as [Ho Hq].
      cbn [fold_left]. apply (IH Hq). apply quiet_step; assumption. }
    apply G. split; [intros n [] | intros e ty; cbn; lia]. }
  destruct I as [A U]. split; [exact U|]. split.
  - intros e ty. specialize (U e ty).
    unfold NotificationManager.active_for. unfold held_for in U.
    pose proof (filter_length_imp
                  (fun n => Notification.is_active n
                            && String.eqb (Notification.entity_id n) e
                            && String.eqb (Notification.type n) ty)
                  (same_pair e ty) (map snd (NotificationManager.run ops))) as L.
    assert (P : forall x,
               Notification.is_active x && String.eqb (Notification.entity_id x) e
               && String.eqb (Notification.type x) ty = true ->
               same_pair e ty x = true).
    { intros x Hx. unfold same_pair.
      destruct (Notification.is_active x); [exact Hx | discriminate Hx]. }
    specialize (L P). lia.
  - intros n. unfold NotificationManager.add_notification.
    destruct (NotificationManager.find_existing_notification _ _ _) as [e0|] eqn:F.
    + apply find_existing_some in F. destruct F as [F1 F2].
      rewrite (A e0 F2). cbn [snd].
      destruct (held_for _ _ _); [destruct F1 | reflexivity].
    + apply find_existing_none in F. rewrite F. reflexivity.
Qed.

Lemma quiet_runs_hold_one_per_pair_witness :
  NotificationManager.at_most_one_active
    (NotificationManager.run
       [NotificationManager.Add (alert "N1" t0b);
        NotificationManager.MarkAsRead t1 "N1";
        NotificationManager.Add (alert "N2" t1);
        NotificationManager.Delete "N1";
        NotificationManager.Add (alert "N3" t1)]).
Proof.
  apply quiet_runs_hold_one_per_pair. reflexivity.
Defined.

Lemma mark_as_read_flags (now : datetime) (n : Notification.t) :
  Notification.is_read (Notification.mark_as_read now n) = true
  /\ Notification.is_active (Notification.mark_as_read now n) = Notification.is_active n
  /\ Notification.id (Notification.mark_as_read now n) = Notification.id n.
Proof. destruct n as [? ? ? ? ? ? ? ? [r|] ? ? ?]; repeat split. Qed.

Lemma mark_all_fold (clock : nat -> datetime) (m acc : NotificationManager.t) (c : nat) :
  let r := fold_left (NotificationManager.mark_one clock) m (acc, c) in
  map fst (fst r) = map fst acc ++ map fst m
  /\ NotificationManager.get_unread_notifications (fst r)
     = NotificationManager.get_unread_notifications acc
  /\ snd r = c + length (NotificationManager.get_unread_notifications m)
  /\ length (NotificationManager.get_active_notifications (fst r))
     = length (NotificationManager.get_active_notifications acc)
       + length (NotificationManager.get_active_notifications m)
  /\ (forall kv, In kv acc -> In kv (fst r))
  /\ (forall kv, In kv m -> Notification.is_read (snd kv) = true -> In kv (fst r)).
Proof.
  revert acc c. induction m as [|[k n] m IH]; intros acc c; cbn zeta.
  - cbn [fold_left fst snd map]. unfold NotificationManager.get_unread_notifications,
      NotificationManager.get_active_notifications. cbn [map List.filter length].
    rewrite app_nil_r, !Nat.add_0_r.
    repeat split; try reflexivity; [intros kv H; exact H | intros kv []].
  - cbn [fold_left].
    assert (E : NotificationManager.mark_one clock (acc, c) (k, n)
                = if negb (Notification.is_read n)
                  then (acc ++ [(k, Notification.mark_as_read (clock c) n)], S c)
                  else (acc ++ [(k, n)], c)) by reflexivity.
    rewrite E. clear E.
    unfold NotificationManager.get_unread_notifications,
      NotificationManager.get_active_notifications in *.
    destruct (Notification.is_read n) eqn:R; cbn [negb fst snd].
    + specialize (IH (acc ++ [(k, n)]) c). cbn zeta in IH.
      unfold NotificationManager.t in *.
      destruct IH as (I1 & I2 & I3 & I4 & I5 & I6).
      rewrite I1, I2, I3, I4. cbn [map fst snd List.filter]. rewrite R. cbn [negb].
      rewrite !map_app, !List.filter_app, !length_app. cbn [map fst snd List.filter].
      rewrite R. cbn [negb]. rewrite app_nil_r, <- app_assoc. cbn [app].
      split; [reflexivity|]. split; [reflexivity|]. split; [reflexivity|].
      split; [destruct (Notification.is_active n); cbn [length]; lia|].
      split.
      * intros kv H. apply I5. apply in_app_iff. left. exact H.
      * intros kv [<-|H] Hr; [apply I5, in_app_iff; right; left; reflexivity|].
        apply I6; assumption.
    + specialize (IH (acc ++ [(k, Notification.mark_as_read (clock c) n)]) (S c)).
      cbn zeta in IH. unfold NotificationManager.t in *.
      destruct IH as (I1 & I2 & I3 & I4 & I5 & I6).
      destruct (mark_as_read_flags (clock c) n) as (R' & A' & _).
      rewrite I1, I2, I3, I4. cbn [map fst snd List.filter]. rewrite R. cbn [negb].
      rewrite !map_app, !List.filter_app, !length_app. cbn [map fst snd List.filter].
      rewrite R', A'. cbn [negb length].
      rewrite app_nil_r, <- app_assoc. cbn [app].
      split; [reflexivity|]. split; [reflexivity|]. split; [lia|].
      split; [destruct (Notification.is_active n); cbn [length]; lia|].
      split.
      * intros kv H. apply I5. apply in_app_iff. left. exact H.
      * intros kv [<-|H] Hr; [cbn [snd] in Hr; congruence|].
        apply I6; assumption.
Qed.

(** X19.  [mark_all_as_read] leaves no unread notification and returns
    how many were unread.  It keeps the keys and their order, leaves
    the notifications that were already read as they were, and changes
    no notification's being active. *)
Theorem mark_all_as_read_leaves_none_unread (clock : nat -> datetime)
    (m : NotificationManager.t) :
  let r := NotificationManager.mark_all_as_read clock m in
  NotificationManager.get_unread_notifications (fst r) = []
  /\ snd r = length (NotificationManager.get_unread_notifications m)
  /\ map fst (fst r) = map fst m
  /\ length (NotificationManager.get_active_notifications (fst r))
     = length (NotificationManager.get_active_notifications m)
  /\ (forall k n, In (k, n) m -> Notification.is_read n = true -> In (k, n) (fst r))
  /\ snd (NotificationManager.mark_all_as_read clock (fst r)) = 0.
Proof.
  cbn zeta. unfold NotificationManager.mark_all_as_read.
  destruct (mark_all_fold clock m [] 0) as (I1 & I2 & I3 & I4 & _ & I6).
  cbn zeta in *. split; [exact I2|]. split; [exact I3|]. split; [exact I1|].
  split; [exact I4|]. split; [intros k n H Hr; apply (I6 (k, n) H Hr)|].
  destruct (mark_all_fold clock
              (fst (fold_left (NotificationManager.mark_one clock) m ([], 0))) [] 0)
    as (_ & _ & J3 & _).
  cbn zeta in J3. unfold NotificationManager.t in *.
  etransitivity; [exact J3|]. rewrite I2. reflexivity.
Qed.

Lemma filter_all_true {A : Type} (f : A -> bool) (l : list A) :
  (forall x, In x l -> f x = true) -> List.filter f l = l.
Proof.
  induction l as [|x l IH]; intros H; cbn [List.filter]; [reflexivity|].
  rewrite (H x (or_introl eq_refl)), IH; [reflexivity|].
  intros y Hy. apply H. right. exact Hy.
Qed.

Lemma dict_del_filter {V : Type} (k : string) (d : list (string * V)) :
  List.NoDup (map fst d) ->
  dict_del k d = List.filter (fun kv => negb (String.eqb k (fst kv))) d.
Proof.
  induction d as [|[k' v'] d IH]; intros N; cbn [dict_del List.filter fst];
    [reflexivity|].
  cbn [map fst] in N. inversion N as [|? ? Hk Hd]; subst.
  destruct (String.eqb k k') eqn:E; cbn [negb].
  - apply String.eqb_eq in E. subst k'. symmetry. apply filter_all_true.
    intros [k0 v0] H0. cbn [fst]. apply negb_true_iff. apply String.eqb_neq.
    intros ->. apply Hk. apply in_map_iff. exists (k0, v0). split; [reflexivity | exact H0].
  - rewrite (IH Hd). reflexivity.
Qed.

Lemma filter_filter_andb {A : Type} (f g : A -> bool) (l : list A) :
  List.filter f (List.filter g l) = List.filter (fun x => g x && f x) l.
Proof.
  induction l as [|x l IH]; cbn [List.filter]; [reflexivity|].
  destruct (g x); cbn [List.filter andb]; [destruct (f x)|]; rewrite IH; reflexivity.
Qed.

Lemma fold_del_filter {V : Type} (ks : list string) (d : list (string * V)) :
  List.NoDup (map fst d) ->
  fold_left (fun d k => dict_del k d) ks d
  = List.filter (fun kv => negb (mem (fst kv) ks)) d.
Proof.
  revert d. induction ks as [|k ks IH]; intros d N; cbn [fold_left].
  - symmetry. apply filter_all_true. intros x _. reflexivity.
  - rewrite IH by (rewrite dict_del_keys; apply remove_first_NoDup; exact N).
    rewrite (dict_del_filter k d N), filter_filter_andb.
    apply List.filter_ext. intros [k0 v0]. cbn [fst]. unfold mem. cbn [existsb].
    rewrite (String.eqb_sym k k0), negb_orb. reflexivity.
Qed.

Lemma mem_filtered_keys {V : Type} (f : string * V -> bool) (d : list (string * V))
    (kv : string * V) :
  List.NoDup (map fst d) -> In kv d ->
  mem (fst kv) (map fst (List.filter f d)) = f kv.
Proof.
  intros N H. destruct (f kv) eqn:F.
  - apply mem_In. apply in_map_iff. exists kv. split; [reflexivity|].
    apply List.filter_In. split; assumption.
  - apply mem_false. intros I. apply in_map_iff in I. destruct I as (kv' & E & I).
    apply List.filter_In in I. destruct I as [I F'].
    assert (kv' = kv); [|congruence].
    clear F F'. induction d as [|x d IH]; [destruct H|].
    cbn [map] in N. inversion N as [|? ? Hx Hd]; subst.
    destruct H as [->|H], I as [->|I]; try reflexivity.
    + exfalso. apply Hx. rewrite <- E. apply in_map. exact I.
    + exfalso. apply Hx. rewrite E. apply in_map. exact H.
    + apply IH; assumption.
Qed.

Lemma filter_length_split {A : Type} (f : A -> bool) (l : list A) :
  length (List.filter f l) + length (List.filter (fun x => negb (f x)) l) = length l.
Proof.
  induction l as [|x l IH]; cbn [List.filter length]; [reflexivity|].
  destruct (f x); cbn [negb length]; lia.
Qed.

(** X20.  On a notification dictionary (its keys are distinct)
    [cleanup_old_notifications] removes exactly the notifications
    created before the cutoff and keeps the others in their order; it
    returns the number removed, records the time of the call, and a
    second cleanup with the same cutoff removes nothing. *)
Theorem cleanup_removes_the_old_ones (cutoff now now' : datetime)
    (m : NotificationManager.t) :
  List.NoDup (map fst m) ->
  let r := NotificationManager.cleanup_old_notifications cutoff now m in
  let kept := fst (fst r) in
  kept = List.filter
           (fun kv => negb (datetime_ltb (Notification.created_at (snd kv)) cutoff)) m
  /\ snd r + length kept = length m
  /\ snd (fst r) = now
  /\ (forall k n, In (k, n) kept <->
                  In (k, n) m /\ datetime_ltb (Notification.created_at n) cutoff = false)
  /\ snd (NotificationManager.cleanup_old_notifications cutoff now' kept) = 0.
Proof.
  intros N. cbn zeta. unfold NotificationManager.cleanup_old_notifications.
  cbn [fst snd].
  set (f := fun kv : string * Notification.t =>
              datetime_ltb (Notification.created_at (snd kv)) cutoff).
  assert (E : fold_left (fun d k => dict_del k d) (map fst (List.filter f m)) m
              = List.filter (fun kv => negb (f kv)) m).
  { rewrite (fold_del_filter _ m N). apply filter_ext_in.
    intros kv H. rewrite (mem_filtered_keys f m kv N H). reflexivity. }
  rewrite E. split; [reflexivity|].
  split; [rewrite length_map; apply filter_length_split|].
  split; [reflexivity|]. split.
  - intros k n. rewrite List.filter_In. unfold f. cbn [snd].
    rewrite negb_true_iff. reflexivity.
  - rewrite length_map, filter_filter_andb.
    assert (Z : forall l, List.filter (fun x => negb (f x) && f x) l = []).
    { induction l as [|x l IH]; cbn [List.filter]; [reflexivity|].
      destruct (f x); cbn [negb andb]; exact IH. }
    rewrite Z. reflexivity.
Qed.

Lemma cleanup_removes_the_old_ones_witness :
  snd (NotificationManager.cleanup_old_notifications t1 t1
         (NotificationManager.run
            [NotificationManager.Add (alert "N1" t0b);
             NotificationManager.Dismiss t1 "N1";
             NotificationManager.Add (alert "N2" t1)]))
  + length [("N2", alert "N2" t1)] = 2.
Proof.
  assert (N : List.NoDup (map fst (NotificationManager.run
            [NotificationManager.Add (alert "N1" t0b);
             NotificationManager.Dismiss t1 "N1";
             NotificationManager.Add (alert "N2" t1)]))).
  { cbn. constructor; [|constructor; [|constructor]]; cbn.
    - intros [E|[]]. discriminate E.
    - intros []. }
  exact (proj1 (proj2 (cleanup_removes_the_old_ones t1 t1 t1 _ N))).
Defined.

(** ** The orchestrator: outcomes of a status update *)

Lemma cascade_keeps_tasks (now : datetime) (task : Task.t) (s : t) :
  task_manager (_cascade_update_progress now task s) = task_manager s.
Proof.
  unfold _cascade_update_progress.
  destruct (Task.parent_process_id task) as [process_id|]; [|reflexivity].
  destruct (truthy process_id); [|reflexivity].
  destruct (get_process (process_manager s) process_id) as [process|] eqn:G;
    [|reflexivity].
  apply (update_process_effect now process_id process s G).
Qed.

Lemma with_tasks_same (s : t) (task_id : string) (task : Task.t) :
  task_manager s !! task_id = Some task ->
  with_tasks s (<[task_id := task]> (task_manager s)) = s.
Proof.
  intros H. destruct s as [pj ph pr tk]. unfold with_tasks. cbn in *.
  rewrite (insert_id tk task_id task H). reflexivity.
Qed.

(** X21.  [update_task_status] always returns a boolean, never the
    fallback of a swallowed exception: true exactly when the task
    exists and the new status is one of the four values.  When it
    returns false the whole state is as before.  When it returns true
    the task manager differs from the old one at most in that task,
    which is what [Task.set_status] made of it: the cascade never
    writes a task. *)
Theorem update_task_status_outcome (stamp : string) (now : datetime) (user : string)
    (task_id new_status comment : string) (s : t) :
  let r := update_task_status stamp now user task_id new_status comment s in
  snd r = Some (match task_manager s !! task_id with
                | Some _ => TaskStatus.is_valid new_status
                | None => false
                end)
  /\ (snd r = Some false -> fst r = s)
  /\ (forall task,
        task_manager s !! task_id = Some task ->
        task_manager (fst r)
        = <[task_id := fst (Task.set_status stamp now task new_status user comment)]>
            (task_manager s)).
Proof.
  cbn zeta. unfold update_task_status, update_task_status_body, get_task.
  destruct (task_manager s !! task_id) as [task|] eqn:G.
  2:{ cbn [handle_errors fst snd]. split; [reflexivity|]. split; [reflexivity|].
      intros task H. discriminate H. }
  assert (V : snd (Task.set_status stamp now task new_status user comment)
              = TaskStatus.is_valid new_status).
  { unfold Task.set_status. destruct (TaskStatus.is_valid new_status); cbn [negb];
      [destruct (String.eqb new_status (Task.status task))|]; reflexivity. }
  rewrite V. destruct (TaskStatus.is_valid new_status) eqn:E;
    cbn [handle_errors fst snd].
  - split; [reflexivity|]. split; [discriminate|].
    intros task' [= <-]. rewrite cascade_keeps_tasks. reflexivity.
  - split; [reflexivity|].
    assert (U : fst (Task.set_status stamp now task new_status user comment) = task).
    { unfold Task.set_status. rewrite E. reflexivity. }
    rewrite U. split.
    + intros _. apply with_tasks_same. exact G.
    + intros task' [= <-]. rewrite U. reflexivity.
Qed.

(** ** The orchestrator: creation *)

(** X22.  [create_task] needs the process: without it the call yields
    [None] (the [BusinessLogicError] is swallowed) and the state is as
    before.  With it, the new task is stored under its id with status
    NotStarted and the process as parent, and its id is appended to the
    task list of the process unless already there.  Nothing else is
    written; in particular the progress of the process is not
    recomputed, whatever its mode. *)
Theorem create_task_links_without_recomputing (uuid stamp : string) (now : datetime)
    (name process_id description : string) (s : t) :
  let r := Lifecycle.create_task uuid stamp now name process_id description s in
  match process_manager s !! process_id with
  | None => r = (s, None)
  | Some process =>
      exists task process',
        snd r = Some task
        /\ Task.id task = uuid
        /\ Task.status task = TaskStatus.NOT_STARTED
        /\ Task.parent_process_id task
           = (if truthy process_id then Some process_id else None)
        /\ task_manager (fst r) = <[uuid := task]> (task_manager s)
        /\ process_manager (fst r) = <[process_id := process']> (process_manager s)
        /\ Process.tasks process'
           = (if mem uuid (Process.tasks process) then Process.tasks process
              else Process.tasks process ++ [uuid])
        /\ Process.progress process' = Process.progress process
        /\ Process.is_progress_manual process' = Process.is_progress_manual process
        /\ phase_manager (fst r) = phase_manager s
        /\ project_manager (fst r) = project_manager s
  end.
Proof.
  cbn zeta. unfold Lifecycle.create_task, get_process.
  destruct (process_manager s !! process_id) as [process|]; [|reflexivity].
  cbn [handle_errors fst snd]. unfold create_task. cbn [fst snd truthy_opt].
  eexists _, _. split; [reflexivity|].
  split; [destruct (truthy process_id); reflexivity|].
  split; [destruct (truthy process_id); reflexivity|].
  split; [destruct (truthy process_id); reflexivity|].
  split; [destruct (truthy process_id); reflexivity|].
  split; [reflexivity|].
  assert (I : Task.id (if truthy process_id
                       then Task.mk (Task.base (Task.init uuid stamp now name description))
                              (Task.status (Task.init uuid stamp now name description))
                              (Task.status_history
                                 (Task.init uuid stamp now name description))
                              (Some process_id)
                              (Task.priority (Task.init uuid stamp now name description))
                              (Task.estimated_hours
                                 (Task.init uuid stamp now name description))
                              (Task.actual_hours
                                 (Task.init uuid stamp now name description))
                              (Task.notes (Task.init uuid stamp now name description))
                              (Task.tags (Task.init uuid stamp now name description))
                       else Task.init uuid stamp now name description) = uuid)
    by (destruct (truthy process_id); reflexivity).
  rewrite I. unfold Process.add_task.
  destruct (mem uuid (Process.tasks process)); cbn [negb fst]; repeat split.
Qed.

(** X23.  [create_process] needs the phase and otherwise yields [None]
    with the state as before.  It checks nothing about the assignee:
    the process is stored with the assignee as given, in manual
    progress mode at 0.0, and passes [validate] exactly when its name
    and its assignee are not blank.  Its id is appended to the process
    list of the phase unless already there, and the progress of the
    phase is not recomputed. *)
Theorem create_process_accepts_any_assignee (uuid : string) (now : datetime)
    (name assignee phase_id description : string) (s : t) :
  let r := Lifecycle.create_process uuid now name assignee phase_id description s in
  match phase_manager s !! phase_id with
  | None => r = (s, None)
  | Some phase =>
      exists process phase',
        snd r = Some process
        /\ Process.id process = uuid
        /\ Process.assignee process = assignee
        /\ Process.parent_phase_id process
           = (if truthy phase_id then Some phase_id else None)
        /\ Process.progress process = 0%Q
        /\ Process.is_progress_manual process = true
        /\ Process.validate process
           = truthy name && truthy (strip name) && truthy uuid
             && (truthy assignee && truthy (strip assignee))
        /\ process_manager (fst r) = <[uuid := process]> (process_manager s)
        /\ phase_manager (fst r) = <[phase_id := phase']> (phase_manager s)
        /\ Phase.processes phase'
           = (if mem uuid (Phase.processes phase) then Phase.processes phase
              else Phase.processes phase ++ [uuid])
        /\ Phase.progress phase' = Phase.progress phase
        /\ task_manager (fst r) = task_manager s
        /\ project_manager (fst r) = project_manager s
  end.
Proof.
  cbn zeta. unfold Lifecycle.create_process, get_phase.
  destruct (phase_manager s !! phase_id) as [phase|]; [|reflexivity].
  cbn [handle_errors fst snd].
  exists (fst (create_process uuid now (process_manager s) name assignee description
                 (Some phase_id))),
         (fst (Phase.add_process now phase uuid)).
  unfold create_process. cbn [fst snd truthy_opt].
  split; [reflexivity|].
  split; [destruct (truthy phase_id); reflexivity|].
  split; [destruct (truthy phase_id); reflexivity|].
  split; [destruct (truthy phase_id); reflexivity|].
  split; [destruct (truthy phase_id); reflexivity|].
  split; [destruct (truthy phase_id); reflexivity|].
  split.
  { unfold Process.validate, Process._validate_additional, BaseEntity.validate.
    destruct (truthy phase_id); cbn [Process.base Process.init Process.assignee
      Process.progress Process.start_date Process.end_date Process.estimated_hours
      Process.actual_hours Process.priority BaseEntity.init BaseEntity.name
      BaseEntity.id dates_reversed negative_opt];
      destruct (truthy name), (truthy (strip name)), (truthy uuid), (truthy assignee),
               (truthy (strip assignee)); reflexivity. }
  split; [destruct (truthy phase_id); reflexivity|].
  split; [destruct (truthy phase_id); reflexivity|].
  unfold Phase.add_process.
  destruct (mem uuid (Phase.processes phase)); cbn [negb fst]; repeat split.
Qed.

(** X24.  [create_phase] needs the project and otherwise yields [None]
    with the state as before.  The phase is stored under its id with
    progress 0.0 and no process, its id is appended to the phase list
    of the project unless already there, and neither the status nor
    the progress of the project is recomputed.  [create_project]
    always succeeds and stores a project that is NotStarted, at 0.0,
    in automatic status mode, without touching anything else. *)
Theorem create_phase_links_without_recomputing (uuid : string) (now : datetime)
    (name project_id description manager : string) (s : t) :
  let r := Lifecycle.create_phase uuid now name project_id description s in
  let c := Lifecycle.create_project uuid now name description manager s in
  match project_manager s !! project_id with
  | None => r = (s, None)
  | Some project =>
      exists phase project',
        snd r = Some phase
        /\ Phase.id phase = uuid
        /\ Phase.parent_project_id phase
           = (if truthy project_id then Some project_id else None)
        /\ Phase.progress phase = 0%Q
        /\ Phase.processes phase = []
        /\ phase_manager (fst r) = <[uuid := phase]> (phase_manager s)
        /\ project_manager (fst r) = <[project_id := project']> (project_manager s)
        /\ Project.phases project'
           = (if mem uuid (Project.phases project) then Project.phases project
              else Project.phases project ++ [uuid])
        /\ Project.progress project' = Project.progress project
        /\ Project.status project' = Project.status project
        /\ process_manager (fst r) = process_manager s
        /\ task_manager (fst r) = task_manager s
  end
  /\ exists project,
       snd c = Some project
       /\ Project.id project = uuid
       /\ Project.status project = ProjectStatus.NOT_STARTED
       /\ Project.is_status_manual project = false
       /\ Project.progress project = 0%Q
       /\ Project.phases project = []
       /\ Project.manager project = manager
       /\ project_manager (fst c) = <[uuid := project]> (project_manager s)
       /\ phase_manager (fst c) = phase_manager s
       /\ process_manager (fst c) = process_manager s
       /\ task_manager (fst c) = task_manager s.
Proof.
  cbn zeta. split.
  - unfold Lifecycle.create_phase, get_project.
    destruct (project_manager s !! project_id) as [project|]; [|reflexivity].
    cbn [handle_errors fst snd].
    exists (fst (create_phase uuid now (phase_manager s) name description
                   (Some project_id))),
           (fst (Project.add_phase now project uuid)).
    unfold create_phase. cbn [fst snd truthy_opt].
    split; [reflexivity|].
    split; [destruct (truthy project_id); reflexivity|].
    split; [destruct (truthy project_id); reflexivity|].
    split; [destruct (truthy project_id); reflexivity|].
    split; [destruct (truthy project_id); reflexivity|].
    split; [destruct (truthy project_id); reflexivity|].
    split; [destruct (truthy project_id); reflexivity|].
    unfold Project.add_phase.
    destruct (mem uuid (Project.phases project)); cbn [negb fst]; repeat split.
  - unfold Lifecycle.create_project, create_project. cbn [handle_errors fst snd].
    eexists. split; [reflexivity|].
    destruct (truthy manager) eqn:M; repeat split.
    destruct manager; [reflexivity | discriminate M].
Qed.

(** ** The orchestrator: deletion *)

Lemma only_less_refl {V : Type} (m : gmap string V) : only_less m m.
Proof. intros k H. exact H. Qed.

Lemma only_less_trans {V : Type} (m1 m2 m3 : gmap string V) :
  only_less m1 m2 -> only_less m2 m3 -> only_less m1 m3.
Proof. intros H1 H2 k H. apply H2, H1, H. Qed.

Lemma only_less_delete {V : Type} (m : gmap string V) (k : string) :
  only_less m (delete k m).
Proof. intros j H. apply lookup_delete_None. right. exact H. Qed.

Lemma same_keys_refl {V : Type} (m : gmap string V) : same_keys m m.
Proof. intros k. reflexivity. Qed.

Lemma same_keys_trans {V : Type} (m1 m2 m3 : gmap string V) :
  same_keys m1 m2 -> same_keys m2 m3 -> same_keys m1 m3.
Proof. intros H1 H2 k. rewrite (H1 k). apply H2. Qed.

Lemma written_back_same_keys {P : Type} (upd : P -> P) (m m' : gmap string P) :
  written_back upd m m' -> same_keys m m'.
Proof.
  intros [->|(k & p & Hk & ->)] j; [reflexivity|].
  destruct (decide (j = k)) as [->|Hne].
  - rewrite lookup_insert_eq, Hk. split; discriminate.
  - rewrite lookup_insert_ne by congruence. reflexivity.
Qed.

Lemma same_keys_only_less {V : Type} (m m' : gmap string V) :
  same_keys m m' -> only_less m m'.
Proof. intros H k. apply H. Qed.

Lemma kept_or_gone_refl {P C : Type} (f : P -> list string) (m : gmap string P)
    (c : gmap string C) :
  kept_or_gone f m m c.
Proof. intros k p x Hk Hx. right. exists p. split; assumption. Qed.

Lemma kept_or_gone_trans {P C : Type} (f : P -> list string) (m m1 m2 : gmap string P)
    (c1 c2 : gmap string C) :
  kept_or_gone f m m1 c1 -> kept_or_gone f m1 m2 c2 -> only_less c1 c2 ->
  kept_or_gone f m m2 c2.
Proof.
  intros H1 H2 L k p x Hk Hx.
  destruct (H1 k p x Hk Hx) as [G|(p1 & Hk1 & Hx1)].
  - left. apply L. exact G.
  - apply (H2 k p1 x Hk1 Hx1).
Qed.

Lemma kept_or_gone_children {P C : Type} (f : P -> list string) (m m1 : gmap string P)
    (c1 c2 : gmap string C) :
  kept_or_gone f m m1 c1 -> only_less c1 c2 -> kept_or_gone f m m1 c2.
Proof.
  intros H L k p x Hk Hx.
  destruct (H k p x Hk Hx) as [G|R]; [left; apply L; exact G | right; exact R].
Qed.

Lemma kept_or_gone_unlink {P C : Type} (f : P -> list string) (upd : P -> P)
    (target : string) (m m1 m1' : gmap string P) (c1 : gmap string C) :
  kept_or_gone f m m1 c1 ->
  written_back upd m1 m1' ->
  (forall p x, In x (f p) -> x <> target -> In x (f (upd p))) ->
  kept_or_gone f m m1' (delete target c1).
Proof.
  intros H W U k p x Hk Hx.
  destruct (decide (x = target)) as [->|Hne].
  { left. apply lookup_delete_eq. }
  destruct (H k p x Hk Hx) as [G|(p1 & Hk1 & Hx1)].
  { left. apply lookup_delete_None. right. exact G. }
  right. destruct W as [->|(k0 & p0 & Hk0 & ->)].
  - exists p1. split; assumption.
  - destruct (decide (k = k0)) as [->|Hk'].
    + exists (upd p0). rewrite lookup_insert_eq. split; [reflexivity|].
      apply U; [|exact Hne]. congruence.
    + exists p1. rewrite lookup_insert_ne by congruence. split; assumption.
Qed.

Lemma kept_or_gone_delete_parent {P C : Type} (f : P -> list string)
    (m m1 : gmap string P) (c1 : gmap string C) (k0 : string) :
  kept_or_gone f m m1 c1 ->
  (forall p x, m !! k0 = Some p -> In x (f p) -> c1 !! x = None) ->
  kept_or_gone f m (delete k0 m1) c1.
Proof.
  intros H D k p x Hk Hx.
  destruct (decide (k = k0)) as [->|Hne].
  - left. apply (D p x Hk Hx).
  - destruct (H k p x Hk Hx) as [G|(p1 & Hk1 & Hx1)]; [left; exact G|].
    right. exists p1. rewrite lookup_delete_ne by congruence. split; assumption.
Qed.

Lemma shrinks_refl (s : t) : shrinks s s.
Proof.
  repeat split; try apply only_less_refl; apply kept_or_gone_refl.
Qed.

Lemma shrinks_trans (s1 s2 s3 : t) : shrinks s1 s2 -> shrinks s2 s3 -> shrinks s1 s3.
Proof.
  intros (A1 & A2 & A3 & A4 & A5 & A6 & A7) (B1 & B2 & B3 & B4 & B5 & B6 & B7).
  repeat split; try (eapply only_less_trans; eassumption).
  - eapply kept_or_gone_trans; [exact A5 | exact B5 | exact B1].
  - eapply kept_or_gone_trans; [exact A6 | exact B6 | exact B2].
  - eapply kept_or_gone_trans; [exact A7 | exact B7 | exact B3].
Qed.

Lemma fold_preserves {S : Type} (R : S -> S -> Prop) (op : S -> string -> S) :
  (forall s, R s s) -> (forall s1 s2 s3, R s1 s2 -> R s2 s3 -> R s1 s3) ->
  (forall s k, R s (op s k)) ->
  forall l s, R s (fold_left op l s).
Proof.
  intros Hr Ht Ho l. induction l as [|k l IH]; intros s; cbn [fold_left]; [apply Hr|].
  eapply Ht; [apply Ho | apply IH].
Qed.

Lemma fold_all_gone {S : Type} (R : S -> S -> Prop) (gone : S -> string -> Prop)
    (op : S -> string -> S) :
  (forall s, R s s) -> (forall s1 s2 s3, R s1 s2 -> R s2 s3 -> R s1 s3) ->
  (forall s k, R s (op s k)) ->
  (forall s k, gone (op s k) k) ->
  (forall s s' k, R s s' -> gone s k -> gone s' k) ->
  forall l s k, In k l -> gone (fold_left op l s) k.
Proof.
  intros Hr Ht Ho Hg Hm l. induction l as [|k0 l IH]; intros s k Hk; [destruct Hk|].
  cbn [fold_left]. destruct Hk as [->|Hk]; [|apply IH; exact Hk].
  apply (Hm (op s k) _ k); [|apply Hg].
  apply fold_preserves; assumption.
Qed.

Lemma delete_entity_fst {V : Type} (m : gmap string V) (k : string) :
  fst (delete_entity m k) = delete k m
  /\ snd (delete_entity m k) = is_some (m !! k).
Proof.
  unfold delete_entity, contains. destruct (m !! k) eqn:E; cbn [fst snd is_some].
  - split; reflexivity.
  - split; [|reflexivity]. symmetry. apply delete_id. exact E.
Qed.

Lemma remove_task_keeps_others (now : datetime) (tid : string) (p : Process.t) (x : string) :
  In x (Process.tasks p) -> x <> tid ->
  In x (Process.tasks (fst (Process.remove_task now p tid))).
Proof.
  intros H Hne. unfold Process.remove_task.
  destruct (mem tid (Process.tasks p)); cbn [fst]; [|exact H].
  apply remove_first_other; assumption.
Qed.

Lemma remove_process_keeps_others (now : datetime) (pid : string) (p : Phase.t)
    (x : string) :
  In x (Phase.processes p) -> x <> pid ->
  In x (Phase.processes (fst (Phase.remove_process now p pid))).
Proof.
  intros H Hne. unfold Phase.remove_process.
  destruct (mem pid (Phase.processes p)); cbn [fst]; [|exact H].
  apply remove_first_other; assumption.
Qed.

Lemma remove_phase_keeps_others (now : datetime) (phid : string) (p : Project.t)
    (x : string) :
  In x (Project.phases p) -> x <> phid ->
  In x (Project.phases (fst (Project.remove_phase now p phid))).
Proof.
  intros H Hne. unfold Project.remove_phase.
  destruct (mem phid (Project.phases p)); cbn [fst]; [|exact H].
  apply remove_first_other; assumption.
Qed.

Lemma delete_task_effect (now : datetime) (tid : string) (s : t) :
  let r := Lifecycle.delete_task now tid s in
  task_manager (fst r) = delete tid (task_manager s)
  /\ written_back (fun p => fst (Process.remove_task now p tid))
       (process_manager s) (process_manager (fst r))
  /\ phase_manager (fst r) = phase_manager s
  /\ project_manager (fst r) = project_manager s
  /\ snd r = Some (is_some (task_manager s !! tid))
  /\ forall task pid,
       task_manager s !! tid = Some task ->
       Task.parent_process_id task = Some pid -> truthy pid = true ->
       process_manager (fst r) !! pid
       = match process_manager s !! pid with
         | Some p => Some (fst (Process.remove_task now p tid))
         | None => None
         end.
Proof.
  cbn zeta. unfold Lifecycle.delete_task, get_task, get_process.
  destruct (task_manager s !! tid) as [task|] eqn:G; cbn [handle_errors fst snd is_some].
  2:{ split; [symmetry; apply delete_id; exact G|]. split; [left; reflexivity|].
      repeat split. intros task pid H. discriminate H. }
  set (s1 := match Task.parent_process_id task with
             | Some process_id =>
                 if truthy process_id
                 then match process_manager s !! process_id with
                      | Some process =>
                          with_processes s
                            (<[process_id := fst (Process.remove_task now process tid)]>
                               (process_manager s))
                      | None => s
                      end
                 else s
             | None => s
             end).
  assert (T : task_manager s1 = task_manager s
              /\ phase_manager s1 = phase_manager s
              /\ project_manager s1 = project_manager s
              /\ written_back (fun p => fst (Process.remove_task now p tid))
                   (process_manager s) (process_manager s1)
              /\ forall pid,
                   Task.parent_process_id task = Some pid -> truthy pid = true ->
                   process_manager s1 !! pid
                   = match process_manager s !! pid with
                     | Some p => Some (fst (Process.remove_task now p tid))
                     | None => None
                     end).
  { unfold s1. destruct (Task.parent_process_id task) as [pid|].
    2:{ repeat split; [left; reflexivity | intros pid H; discriminate H]. }
    destruct (truthy pid) eqn:Tr.
    2:{ repeat split; [left; reflexivity | intros pid' [= <-] H; congruence]. }
    destruct (process_manager s !! pid) as [p|] eqn:Gp.
    2:{ repeat split; [left; reflexivity | intros pid' [= <-] _; rewrite Gp; reflexivity]. }
    repeat split.
    - right. exists pid, p. split; [exact Gp | reflexivity].
    - intros pid' [= <-] _. rewrite Gp. apply lookup_insert_eq. }
  destruct T as (T1 & T2 & T3 & T4 & T5).
  destruct (delete_entity_fst (task_manager s1) tid) as [D1 D2].
  rewrite D1, D2, T1, G. cbn [task_manager process_manager phase_manager project_manager
                             with_tasks is_some].
  repeat split; try assumption.
  intros task' pid [= <-]. apply T5.
Qed.

Lemma delete_task_shrinks (now : datetime) (tid : string) (s : t) :
  shrinks s (fst (Lifecycle.delete_task now tid s)).
Proof.
  destruct (delete_task_effect now tid s) as (E1 & E2 & E3 & E4 & _).
  cbn zeta in *. unfold shrinks. rewrite E1, E3, E4.
  split; [apply only_less_delete|].
  split; [apply same_keys_only_less, (written_back_same_keys _ _ _ E2)|].
  split; [apply only_less_refl|]. split; [apply only_less_refl|].
  split.
  - apply (kept_or_gone_unlink Process.tasks _ tid _ _ _ _
             (kept_or_gone_refl _ _ _) E2).
    intros p x. apply remove_task_keeps_others.
  - split.
    + apply kept_or_gone_refl.
    + apply kept_or_gone_refl.
Qed.

(** X25.  [delete_task] answers whether the task existed.  Afterwards
    the task manager is the old one without that id, phases and
    projects are untouched, and the only process written is the parent
    of the task, with the id taken off its task list: off entirely
    when the list held it once.  The progress of the parent is not
    recomputed. *)
Theorem delete_task_unlinks_and_removes (now : datetime) (tid : string) (s : t) :
  let r := Lifecycle.delete_task now tid s in
  snd r = Some (is_some (task_manager s !! tid))
  /\ task_manager (fst r) = delete tid (task_manager s)
  /\ phase_manager (fst r) = phase_manager s
  /\ project_manager (fst r) = project_manager s
  /\ (forall k, process_manager s !! k = None <-> process_manager (fst r) !! k = None)
  /\ (forall task pid p,
        task_manager s !! tid = Some task ->
        Task.parent_process_id task = Some pid -> truthy pid = true ->
        process_manager s !! pid = Some p ->
        exists p',
          process_manager (fst r) = <[pid := p']> (process_manager s)
          /\ Process.tasks p'
             = (if mem tid (Process.tasks p) then remove_first tid (Process.tasks p)
                else Process.tasks p)
          /\ Process.progress p' = Process.progress p
          /\ (List.NoDup (Process.tasks p) -> ~ In tid (Process.tasks p'))).
Proof.
  cbn zeta. destruct (delete_task_effect now tid s) as (E1 & E2 & E3 & E4 & E5 & E6).
  cbn zeta in *. split; [exact E5|]. split; [exact E1|]. split; [exact E3|].
  split; [exact E4|]. split; [apply (written_back_same_keys _ _ _ E2)|].
  intros task pid p G Hp Tr Gp.
  exists (fst (Process.remove_task now p tid)).
  split.
  - unfold Lifecycle.delete_task, get_task, get_process.
    rewrite G, Hp, Tr, Gp. cbn [handle_errors fst snd with_tasks process_manager
                                   with_processes task_manager].
    reflexivity.
  - unfold Process.remove_task. destruct (mem tid (Process.tasks p)) eqn:M; cbn [fst].
    + split; [reflexivity|]. split; [reflexivity|].
      intros N. apply (remove_first_NoDup tid _ N).
    + split; [reflexivity|]. split; [reflexivity|].
      intros _. apply mem_false. exact M.
Qed.

Lemma task_frame_refl (s : t) : task_frame s s.
Proof. repeat split; auto. Qed.

Lemma task_frame_trans (s1 s2 s3 : t) :
  task_frame s1 s2 -> task_frame s2 s3 -> task_frame s1 s3.
Proof.
  intros (A1 & A2 & A3) (B1 & B2 & B3). split; [congruence|]. split; [congruence|].
  eapply same_keys_trans; eassumption.
Qed.

Lemma process_frame_refl (s : t) : process_frame s s.
Proof. split; [reflexivity | apply same_keys_refl]. Qed.

Lemma process_frame_trans (s1 s2 s3 : t) :
  process_frame s1 s2 -> process_frame s2 s3 -> process_frame s1 s3.
Proof.
  intros (A1 & A2) (B1 & B2). split; [congruence|].
  eapply same_keys_trans; eassumption.
Qed.

Lemma phase_frame_refl (s : t) : phase_frame s s.
Proof. apply same_keys_refl. Qed.

Lemma phase_frame_trans (s1 s2 s3 : t) :
  phase_frame s1 s2 -> phase_frame s2 s3 -> phase_frame s1 s3.
Proof. apply same_keys_trans. Qed.

Lemma delete_task_frame (now : datetime) (tid : string) (s : t) :
  task_frame s (fst (Lifecycle.delete_task now tid s)).
Proof.
  destruct (delete_task_effect now tid s) as (_ & E2 & E3 & E4 & _).
  split; [exact E3|]. split; [exact E4|]. apply (written_back_same_keys _ _ _ E2).
Qed.

Lemma delete_tasks_fold (now : datetime) (l : list string) (s : t) :
  let s0 := fold_left (fun s tid => fst (Lifecycle.delete_task now tid s)) l s in
  shrinks s s0 /\ task_frame s s0
  /\ forall tid, In tid l -> task_manager s0 !! tid = None.
Proof.
  cbn zeta. split; [|split].
  - apply (fold_preserves shrinks); [apply shrinks_refl | apply shrinks_trans|].
    intros s1 k. apply delete_task_shrinks.
  - apply (fold_preserves task_frame); [apply task_frame_refl | apply task_frame_trans|].
    intros s1 k. apply delete_task_frame.
  - apply (fold_all_gone shrinks (fun s k => task_manager s !! k = None));
      [apply shrinks_refl | apply shrinks_trans | | |].
    + intros s1 k. apply delete_task_shrinks.
    + intros s1 k. destruct (delete_task_effect now k s1) as (E1 & _).
      cbn zeta in E1. rewrite E1. apply lookup_delete_eq.
    + intros s1 s2 k (L & _) H. apply L. exact H.
Qed.

Lemma delete_process_effect (now : datetime) (pid : string) (s : t) (p : Process.t) :
  process_manager s !! pid = Some p ->
  let s0 := fold_left (fun s tid => fst (Lifecycle.delete_task now tid s))
                      (Process.tasks p) s in
  let r := Lifecycle.delete_process now pid s in
  task_manager (fst r) = task_manager s0
  /\ process_manager (fst r) = delete pid (process_manager s0)
  /\ written_back (fun ph => fst (Phase.remove_process now ph pid))
       (phase_manager s0) (phase_manager (fst r))
  /\ project_manager (fst r) = project_manager s0
  /\ snd r = Some true.
Proof.
  intros G. cbn zeta. unfold Lifecycle.delete_process, get_process, get_phase. rewrite G.
  set (s0 := fold_left (fun s tid => fst (Lifecycle.delete_task now tid s))
                       (Process.tasks p) s).
  destruct (delete_tasks_fold now (Process.tasks p) s) as (_ & (_ & _ & K) & _).
  fold s0 in K.
  set (s1 := match Process.parent_phase_id p with
             | Some phase_id =>
                 if truthy phase_id
                 then match phase_manager s0 !! phase_id with
                      | Some phase =>
                          with_phases s0
                            (<[phase_id := fst (Phase.remove_process now phase pid)]>
                               (phase_manager s0))
                      | None => s0
                      end
                 else s0
             | None => s0
             end).
  assert (T : task_manager s1 = task_manager s0
              /\ process_manager s1 = process_manager s0
              /\ project_manager s1 = project_manager s0
              /\ written_back (fun ph => fst (Phase.remove_process now ph pid))
                   (phase_manager s0) (phase_manager s1)).
  { unfold s1. destruct (Process.parent_phase_id p) as [phid|];
      [|repeat split; left; reflexivity].
    destruct (truthy phid); [|repeat split; left; reflexivity].
    destruct (phase_manager s0 !! phid) as [ph|] eqn:Gp;
      [|repeat split; left; reflexivity].
    repeat split. right. exists phid, ph. split; [exact Gp | reflexivity]. }
  destruct T as (T1 & T2 & T3 & T4).
  destruct (delete_entity_fst (process_manager s1) pid) as [D1 D2].
  cbn [handle_errors fst snd]. rewrite D1, D2, T2.
  cbn [task_manager process_manager phase_manager project_manager with_processes].
  split; [exact T1|]. split; [reflexivity|]. split; [exact T4|]. split; [exact T3|].
  destruct (process_manager s0 !! pid) eqn:E; [reflexivity|].
  apply K in E. congruence.
Qed.

Lemma delete_process_absent (now : datetime) (pid : string) (s : t) :
  process_manager s !! pid = None -> Lifecycle.delete_process now pid s = (s, Some false).
Proof.
  intros G. unfold Lifecycle.delete_process, get_process. rewrite G. reflexivity.
Qed.

Lemma delete_process_shrinks (now : datetime) (pid : string) (s : t) :
  let s' := fst (Lifecycle.delete_process now pid s) in
  shrinks s s' /\ process_frame s s' /\ process_manager s' !! pid = None.
Proof.
  cbn zeta. destruct (process_manager s !! pid) as [p|] eqn:G.
  2:{ rewrite (delete_process_absent now pid s G). cbn [fst].
      split; [apply shrinks_refl|]. split; [apply process_frame_refl | exact G]. }
  destruct (delete_process_effect now pid s p G) as (E1 & E2 & E3 & E4 & _).
  destruct (delete_tasks_fold now (Process.tasks p) s)
    as ((A1 & A2 & A3 & A4 & A5 & A6 & A7) & (F1 & F2 & F3) & K).
  cbn zeta in *.
  set (s0 := fold_left (fun s tid => fst (Lifecycle.delete_task now tid s))
                       (Process.tasks p) s) in *.
  pose proof (written_back_same_keys _ _ _ E3) as W.
  split; [|split].
  - unfold shrinks. rewrite E1, E2, E4.
    split; [exact A1|].
    split; [eapply only_less_trans; [exact A2 | apply only_less_delete]|].
    split; [eapply only_less_trans; [exact A3 | apply same_keys_only_less, W]|].
    split; [exact A4|].
    split.
    { apply kept_or_gone_delete_parent; [exact A5|].
      intros p' x Hp Hx. apply K. congruence. }
    split.
    { apply (kept_or_gone_unlink Phase.processes _ pid _ _ _ _ A6 E3).
      intros ph x. apply remove_process_keeps_others. }
    apply (kept_or_gone_children _ _ _ _ _ A7). apply same_keys_only_less, W.
  - split; [congruence|]. rewrite <- F1. exact W.
  - rewrite E2. apply lookup_delete_eq.
Qed.

(** X26.  [delete_process] answers whether the process existed, and a
    missing process leaves the state as it was.  Otherwise the process
    is gone afterwards together with every task its task list named;
    its id is taken off the process list of its parent phase, whose
    progress is not recomputed; no project is written, and nothing is
    created. *)
Theorem delete_process_removes_its_tasks (now : datetime) (pid : string) (s : t) :
  let r := Lifecycle.delete_process now pid s in
  snd r = Some (is_some (process_manager s !! pid))
  /\ (process_manager s !! pid = None -> fst r = s)
  /\ process_manager (fst r) !! pid = None
  /\ (forall p tid, process_manager s !! pid = Some p -> In tid (Process.tasks p) ->
                    task_manager (fst r) !! tid = None)
  /\ (forall phid ph, phase_manager s !! phid = Some ph ->
        exists ph',
          phase_manager (fst r) !! phid = Some ph'
          /\ Phase.progress ph' = Phase.progress ph
          /\ forall x, In x (Phase.processes ph) -> x <> pid -> In x (Phase.processes ph'))
  /\ project_manager (fst r) = project_manager s
  /\ shrinks s (fst r).
Proof.
  cbn zeta. destruct (delete_process_shrinks now pid s) as (S & (F1 & F2) & Gone).
  cbn zeta in *.
  split.
  { destruct (process_manager s !! pid) as [p|] eqn:G; cbn [is_some].
    - apply (delete_process_effect now pid s p G).
    - rewrite (delete_process_absent now pid s G). reflexivity. }
  split; [intros G; rewrite (delete_process_absent now pid s G); reflexivity|].
  split; [exact Gone|]. split.
  { intros p tid G Hin. destruct S as (_ & _ & _ & _ & K & _).
    destruct (K pid p tid G Hin) as [H|(p' & Hp' & _)]; [exact H | congruence]. }
  split; [|split; [exact F1 | exact S]].
  intros phid ph Gph.
  destruct (process_manager s !! pid) as [p|] eqn:G.
  2:{ rewrite (delete_process_absent now pid s G). cbn [fst]. eauto. }
  destruct (delete_process_effect now pid s p G) as (_ & _ & E3 & _).
  destruct (delete_tasks_fold now (Process.tasks p) s) as (_ & (T1 & _) & _).
  cbn zeta in *. rewrite T1 in E3.
  destruct E3 as [->|(k & ph0 & Hk & ->)]; [eauto|].
  destruct (decide (phid = k)) as [->|Hne].
  - rewrite lookup_insert_eq. eexists. split; [reflexivity|].
    assert (ph0 = ph) by congruence. subst ph0. split.
    + unfold Phase.remove_process. destruct (mem pid (Phase.processes ph)); reflexivity.
    + intros x. apply remove_process_keeps_others.
  - rewrite lookup_insert_ne by congruence. eauto.
Qed.

Lemma delete_processes_fold (now : datetime) (l : list string) (s : t) :
  let s0 := fold_left (fun s pid => fst (Lifecycle.delete_process now pid s)) l s in
  shrinks s s0 /\ process_frame s s0
  /\ forall pid, In pid l -> process_manager s0 !! pid = None.
Proof.
  cbn zeta. split; [|split].
  - apply (fold_preserves shrinks); [apply shrinks_refl | apply shrinks_trans|].
    intros s1 k. apply delete_process_shrinks.
  - apply (fold_preserves process_frame);
      [apply process_frame_refl | apply process_frame_trans|].
    intros s1 k. apply delete_process_shrinks.
  - apply (fold_all_gone shrinks (fun s k => process_manager s !! k = None));
      [apply shrinks_refl | apply shrinks_trans | | |].
    + intros s1 k. apply delete_process_shrinks.
    + intros s1 k. apply delete_process_shrinks.
    + intros s1 s2 k (_ & L & _) H. apply L. exact H.
Qed.

Lemma delete_phase_effect (now : datetime) (phid : string) (s : t) (ph : Phase.t) :
  phase_manager s !! phid = Some ph ->
  let s0 := fold_left (fun s pid => fst (Lifecycle.delete_process now pid s))
                      (Phase.processes ph) s in
  let r := Lifecycle.delete_phase now phid s in
  task_manager (fst r) = task_manager s0
  /\ process_manager (fst r) = process_manager s0
  /\ phase_manager (fst r) = delete phid (phase_manager s0)
  /\ written_back (fun pj => fst (Project.remove_phase now pj phid))
       (project_manager s0) (project_manager (fst r))
  /\ snd r = Some true.
Proof.
  intros G. cbn zeta. unfold Lifecycle.delete_phase, get_phase, get_project. rewrite G.
  set (s0 := fold_left (fun s pid => fst (Lifecycle.delete_process now pid s))
                       (Phase.processes ph) s).
  destruct (delete_processes_fold now (Phase.processes ph) s) as (_ & (_ & K) & _).
  fold s0 in K.
  set (s1 := match Phase.parent_project_id ph with
             | Some project_id =>
                 if truthy project_id
                 then match project_manager s0 !! project_id with
                      | Some project =>
                          with_projects s0
                            (<[project_id := fst (Project.remove_phase now project phid)]>
                               (project_manager s0))
                      | None => s0
                      end
                 else s0
             | None => s0
             end).
  assert (T : task_manager s1 = task_manager s0
              /\ process_manager s1 = process_manager s0
              /\ phase_manager s1 = phase_manager s0
              /\ written_back (fun pj => fst (Project.remove_phase now pj phid))
                   (project_manager s0) (project_manager s1)).
  { unfold s1. destruct (Phase.parent_project_id ph) as [pj|];
      [|repeat split; left; reflexivity].
    destruct (truthy pj); [|repeat split; left; reflexivity].
    destruct (project_manager s0 !! pj) as [project|] eqn:Gp;
      [|repeat split; left; reflexivity].
    repeat split. right. exists pj, project. split; [exact Gp | reflexivity]. }
  destruct T as (T1 & T2 & T3 & T4).
  destruct (delete_entity_fst (phase_manager s1) phid) as [D1 D2].
  cbn [handle_errors fst snd]. rewrite D1, D2, T3.
  cbn [task_manager process_manager phase_manager project_manager with_phases].
  split; [exact T1|]. split; [exact T2|]. split; [reflexivity|]. split; [exact T4|].
  destruct (phase_manager s0 !! phid) eqn:E; [reflexivity|].
  apply K in E. congruence.
Qed.

Lemma delete_phase_absent (now : datetime) (phid : string) (s : t) :
  phase_manager s !! phid = None -> Lifecycle.delete_phase now phid s = (s, Some false).
Proof.
  intros G. unfold Lifecycle.delete_phase, get_phase. rewrite G. reflexivity.
Qed.

Lemma delete_phase_shrinks (now : datetime) (phid : string) (s : t) :
  let s' := fst (Lifecycle.delete_phase now phid s) in
  shrinks s s' /\ phase_frame s s' /\ phase_manager s' !! phid = None.
Proof.
  cbn zeta. destruct (phase_manager s !! phid) as [ph|] eqn:G.
  2:{ rewrite (delete_phase_absent now phid s G). cbn [fst].
      split; [apply shrinks_refl|]. split; [apply phase_frame_refl | exact G]. }
  destruct (delete_phase_effect now phid s ph G) as (E1 & E2 & E3 & E4 & _).
  destruct (delete_processes_fold now (Phase.processes ph) s)
    as ((A1 & A2 & A3 & A4 & A5 & A6 & A7) & (F1 & F2) & K).
  cbn zeta in *.
  set (s0 := fold_left (fun s pid => fst (Lifecycle.delete_process now pid s))
                       (Phase.processes ph) s) in *.
  pose proof (written_back_same_keys _ _ _ E4) as W.
  split; [|split].
  - unfold shrinks. rewrite E1, E2, E3.
    split; [exact A1|]. split; [exact A2|].
    split; [eapply only_less_trans; [exact A3 | apply only_less_delete]|].
    split; [eapply only_less_trans; [exact A4 | apply same_keys_only_less, W]|].
    split; [exact A5|].
    split.
    { apply kept_or_gone_delete_parent; [exact A6|].
      intros ph' x Hp Hx. apply K. congruence. }
    apply (kept_or_gone_unlink Project.phases _ phid _ _ _ _ A7 E4).
    intros pj x. apply remove_phase_keeps_others.
  - unfold phase_frame. rewrite <- F1. exact W.
  - rewrite E3. apply lookup_delete_eq.
Qed.

Lemma delete_phases_fold (now : datetime) (l : list string) (s : t) :
  let s0 := fold_left (fun s phid => fst (Lifecycle.delete_phase now phid s)) l s in
  shrinks s s0 /\ phase_frame s s0
  /\ forall phid, In phid l -> phase_manager s0 !! phid = None.
Proof.
  cbn zeta. split; [|split].
  - apply (fold_preserves shrinks); [apply shrinks_refl | apply shrinks_trans|].
    intros s1 k. apply delete_phase_shrinks.
  - apply (fold_preserves phase_frame);
      [apply phase_frame_refl | apply phase_frame_trans|].
    intros s1 k. apply delete_phase_shrinks.
  - apply (fold_all_gone shrinks (fun s k => phase_manager s !! k = None));
      [apply shrinks_refl | apply shrinks_trans | | |].
    + intros s1 k. apply delete_phase_shrinks.
    + intros s1 k. apply delete_phase_shrinks.
    + intros s1 s2 k (_ & _ & L & _) H. apply L. exact H.
Qed.

Lemma delete_project_effect (now : datetime) (pj : string) (s : t) (project : Project.t) :
  project_manager s !! pj = Some project ->
  let s0 := fold_left (fun s phid => fst (Lifecycle.delete_phase now phid s))
                      (Project.phases project) s in
  let r := Lifecycle.delete_project now pj s in
  task_manager (fst r) = task_manager s0
  /\ process_manager (fst r) = process_manager s0
  /\ phase_manager (fst r) = phase_manager s0
  /\ project_manager (fst r) = delete pj (project_manager s0)
  /\ snd r = Some true.
Proof.
  intros G. cbn zeta. unfold Lifecycle.delete_project, get_project. rewrite G.
  set (s0 := fold_left (fun s phid => fst (Lifecycle.delete_phase now phid s))
                       (Project.phases project) s).
  destruct (delete_phases_fold now (Project.phases project) s) as (_ & K & _).
  fold s0 in K.
  destruct (delete_entity_fst (project_manager s0) pj) as [D1 D2].
  cbn [handle_errors fst snd]. rewrite D1, D2.
  cbn [task_manager process_manager phase_manager project_manager with_projects].
  repeat split.
  destruct (project_manager s0 !! pj) eqn:E; [reflexivity|].
  apply K in E. congruence.
Qed.

Lemma delete_project_absent (now : datetime) (pj : string) (s : t) :
  project_manager s !! pj = None -> Lifecycle.delete_project now pj s = (s, Some false).
Proof.
  intros G. unfold Lifecycle.delete_project, get_project. rewrite G. reflexivity.
Qed.

Lemma delete_project_shrinks (now : datetime) (pj : string) (s : t) :
  let s' := fst (Lifecycle.delete_project now pj s) in
  shrinks s s' /\ project_manager s' !! pj = None.
Proof.
  cbn zeta. destruct (project_manager s !! pj) as [project|] eqn:G.
  2:{ rewrite (delete_project_absent now pj s G). cbn [fst].
      split; [apply shrinks_refl | exact G]. }
  destruct (delete_project_effect now pj s project G) as (E1 & E2 & E3 & E4 & _).
  destruct (delete_phases_fold now (Project.phases project) s)
    as ((A1 & A2 & A3 & A4 & A5 & A6 & A7) & _ & K).
  cbn zeta in *. split.
  - unfold shrinks. rewrite E1, E2, E3, E4.
    split; [exact A1|]. split; [exact A2|]. split; [exact A3|].
    split; [eapply only_less_trans; [exact A4 | apply only_less_delete]|].
    split; [exact A5|]. split; [exact A6|].
    apply kept_or_gone_delete_parent; [exact A7|].
    intros p' x Hp Hx. apply K. congruence.
  - rewrite E4. apply lookup_delete_eq.
Qed.

(** What [shrinks] gives below a parent that is gone. *)
Lemma gone_parent_gone_children {P C : Type} (f : P -> list string)
    (m m' : gmap string P) (c' : gmap string C) (k : string) (p : P) (x : string) :
  kept_or_gone f m m' c' -> m' !! k = None -> m !! k = Some p -> In x (f p) ->
  c' !! x = None.
Proof.
  intros K G Hk Hx. destruct (K k p x Hk Hx) as [H|(p' & Hp' & _)];
    [exact H | congruence].
Qed.

(** X27.  [delete_phase] answers whether the phase existed, and a
    missing phase leaves the state as it was.  Otherwise the phase is
    gone afterwards, and so is every process its list named and every
    task those processes named.  Its id is taken off the phase list of
    its parent project without recomputing the project, and nothing is
    created. *)
Theorem delete_phase_removes_what_is_below (now : datetime) (phid : string) (s : t) :
  let r := Lifecycle.delete_phase now phid s in
  snd r = Some (is_some (phase_manager s !! phid))
  /\ (phase_manager s !! phid = None -> fst r = s)
  /\ phase_manager (fst r) !! phid = None
  /\ (forall ph pid, phase_manager s !! phid = Some ph -> In pid (Phase.processes ph) ->
        process_manager (fst r) !! pid = None
        /\ forall p tid, process_manager s !! pid = Some p -> In tid (Process.tasks p) ->
                         task_manager (fst r) !! tid = None)
  /\ (forall k, project_manager s !! k = None <-> project_manager (fst r) !! k = None)
  /\ shrinks s (fst r).
Proof.
  cbn zeta. destruct (delete_phase_shrinks now phid s) as (S & F & Gone).
  cbn zeta in *.
  split.
  { destruct (phase_manager s !! phid) as [ph|] eqn:G; cbn [is_some].
    - apply (delete_phase_effect now phid s ph G).
    - rewrite (delete_phase_absent now phid s G). reflexivity. }
  split; [intros G; rewrite (delete_phase_absent now phid s G); reflexivity|].
  split; [exact Gone|]. split; [|split; [exact F | exact S]].
  intros ph pid G Hin. destruct S as (_ & _ & _ & _ & K1 & K2 & _).
  pose proof (gone_parent_gone_children _ _ _ _ _ _ _ K2 Gone G Hin) as Gp.
  split; [exact Gp|]. intros p tid Hp Ht.
  apply (gone_parent_gone_children _ _ _ _ _ _ _ K1 Gp Hp Ht).
Qed.

(** X28.  [delete_project] answers whether the project existed, and a
    missing project leaves the state as it was.  Otherwise the cascade
    is complete: the project is gone, every phase its list named is
    gone, every process those phases named is gone, and every task
    those processes named is gone.  Nothing is created on the way. *)
Theorem delete_project_removes_everything_below (now : datetime) (pj : string) (s : t) :
  let r := Lifecycle.delete_project now pj s in
  snd r = Some (is_some (project_manager s !! pj))
  /\ (project_manager s !! pj = None -> fst r = s)
  /\ project_manager (fst r) !! pj = None
  /\ (forall project phid,
        project_manager s !! pj = Some project -> In phid (Project.phases project) ->
        phase_manager (fst r) !! phid = None
        /\ forall ph pid,
             phase_manager s !! phid = Some ph -> In pid (Phase.processes ph) ->
             process_manager (fst r) !! pid = None
             /\ forall p tid,
                  process_manager s !! pid = Some p -> In tid (Process.tasks p) ->
                  task_manager (fst r) !! tid = None)
  /\ shrinks s (fst r).
Proof.
  cbn zeta. destruct (delete_project_shrinks now pj s) as (S & Gone).
  cbn zeta in *.
  split.
  { destruct (project_manager s !! pj) as [project|] eqn:G; cbn [is_some].
    - apply (delete_project_effect now pj s project G).
    - rewrite (delete_project_absent now pj s G). reflexivity. }
  split; [intros G; rewrite (delete_project_absent now pj s G); reflexivity|].
  split; [exact Gone|]. split; [|exact S].
  intros project phid G Hin. destruct S as (_ & _ & _ & _ & K1 & K2 & K3).
  pose proof (gone_parent_gone_children _ _ _ _ _ _ _ K3 Gone G Hin) as Gph.
  split; [exact Gph|]. intros ph pid Hph Hp.
  pose proof (gone_parent_gone_children _ _ _ _ _ _ _ K2 Gph Hph Hp) as Gp.
  split; [exact Gp|]. intros p tid Hpr Ht.
  apply (gone_parent_gone_children _ _ _ _ _ _ _ K1 Gp Hpr Ht).
Qed.

(** ** Copies and totals *)

(** X29.  [clone] gives a copy that differs from the original in its
    id and its two time stamps only: a cloned task keeps the status,
    the whole status history, the tags and the parent process id, and
    a cloned process keeps its task list and its parent phase id,
    although no manager and no parent knows the copy.  (For entities
    whose time stamps and dates the [datetime] library can
    construct.) *)
Theorem clone_changes_id_and_time_stamps_only (uuid : string) (now1 now2 : datetime) :
  datetime_ok now1 = true -> datetime_ok now2 = true ->
  (forall x : Task.t,
      task_ok x = true ->
      TaskSetters.clone uuid now1 now2 x
      = Some (Task.mk
                (BaseEntity.mk uuid (BaseEntity.name (Task.base x))
                               (BaseEntity.description (Task.base x)) now1 now2)
                (Task.status x) (Task.status_history x) (Task.parent_process_id x)
                (Task.priority x) (Task.estimated_hours x) (Task.actual_hours x)
                (Task.notes x) (Task.tags x)))
  /\ (forall x : Process.t,
        process_ok x = true ->
        Process.clone uuid now1 now2 x
        = Some (Process.mk
                  (BaseEntity.mk uuid (BaseEntity.name (Process.base x))
                                 (BaseEntity.description (Process.base x)) now1 now2)
                  (Process.assignee x) (Process.parent_phase_id x)
                  (Process.start_date x) (Process.end_date x)
                  (Process.estimated_hours x) (Process.actual_hours x)
                  (Process.progress x) (Process.is_progress_manual x)
                  (Process.tasks x) (Process.notes x) (Process.priority x))).
Proof.
  intros H1 H2. split.
  - intros x Hx. unfold TaskSetters.clone. cbn zeta.
    destruct x as [[i n d c u] st h pp pr eh ah nt tg].
    cbn [Task.base Task.status Task.status_history Task.parent_process_id Task.priority
         Task.estimated_hours Task.actual_hours Task.notes Task.tags
         BaseEntity.name BaseEntity.description].
    rewrite <- (task_round_trip
                  (Task.mk (BaseEntity.mk uuid n d now1 now2) st h pp pr eh ah nt tg)).
    + reflexivity.
    + unfold task_ok, base_ok in *. cbn in *. rewrite H1, H2.
      apply andb_true_iff in Hx. destruct Hx as [_ Hx]. exact Hx.
  - intros x Hx. unfold Process.clone. cbn zeta.
    destruct x as [[i n d c u] a pp sd ed eh ah pg im ts nt pr].
    cbn [Process.base Process.assignee Process.parent_phase_id Process.start_date
         Process.end_date Process.estimated_hours Process.actual_hours Process.progress
         Process.is_progress_manual Process.tasks Process.notes Process.priority
         BaseEntity.name BaseEntity.description].
    rewrite <- (process_round_trip
                  (Process.mk (BaseEntity.mk uuid n d now1 now2) a pp sd ed eh ah pg im ts
                              nt pr)).
    + reflexivity.
    + unfold process_ok, base_ok in *. cbn in *. rewrite H1, H2.
      apply andb_true_iff in Hx. destruct Hx as [Hx He].
      apply andb_true_iff in Hx. destruct Hx as [_ Hs].
      rewrite Hs, He. reflexivity.
Qed.

Lemma clone_changes_id_and_time_stamps_only_witness :
  exists y,
    TaskSetters.clone "T2" t1 t1 full_task = Some y
    /\ Task.status_history y = Task.status_history full_task
    /\ Task.parent_process_id y = Task.parent_process_id full_task.
Proof.
  destruct (clone_changes_id_and_time_stamps_only "T2" t1 t1 eq_refl eq_refl) as [H _].
  eexists. split; [apply H; reflexivity|]. split; reflexivity.
Defined.

Lemma add_hours_fold (field : Process.t -> option Q) (pm : gmap string Process.t)
    (l : list string) (acc : Q * bool) :
  let r := fold_left (Phase.add_hours field pm) l acc in
  fst r == fst acc + Qsum (omap field (Phase.resolved pm l))
  /\ snd r = snd acc || match omap field (Phase.resolved pm l) with
                        | [] => false
                        | _ :: _ => true
                        end.
Proof.
  revert acc. induction l as [|i l IH]; intros [q b]; cbn zeta.
  - cbn. split; [ring | rewrite orb_false_r; reflexivity].
  - cbn [fold_left]. unfold Phase.add_hours at 2 4. unfold Phase.resolved in *.
    cbn [omap list_omap]. fold (omap (get_process pm) l).
    destruct (get_process pm i) as [p|]; [|apply IH].
    cbn [omap list_omap]. fold (omap field (omap (get_process pm) l)).
    destruct (field p) as [h|]; [|apply IH].
    destruct (IH ((fst (q, b) + h)%Q, true)) as [I1 I2]. cbn zeta in I1, I2.
    cbn [fst snd] in *. split.
    + rewrite I1. cbn [Qsum fold_right].
      change (fold_right Qplus 0%Q (omap field (omap (get_process pm) l)))
        with (Qsum (omap field (omap (get_process pm) l))). ring.
    + rewrite I2. rewrite orb_true_r. reflexivity.
Qed.

(** X30.  [calculate_total_estimated_hours] and
    [calculate_total_actual_hours] return [None] exactly when no
    resolvable process of the phase has the value set, and otherwise
    the sum of the values that are set; a process whose value is 0.0
    counts as set, unlike in the progress weights. *)
Theorem total_hours_sum_what_is_set (x : Phase.t) (pm : gmap string Process.t) :
  let children := Phase.resolved pm (Phase.processes x) in
  match Phase.calculate_total_estimated_hours x pm with
  | None => omap Process.estimated_hours children = []
  | Some v => omap Process.estimated_hours children <> []
              /\ v == Qsum (omap Process.estimated_hours children)
  end
  /\ match Phase.calculate_total_actual_hours x pm with
     | None => omap Process.actual_hours children = []
     | Some v => omap Process.actual_hours children <> []
                 /\ v == Qsum (omap Process.actual_hours children)
     end.
Proof.
  cbn zeta.
  assert (K : forall field,
             match Phase.total_hours field x pm with
             | None => omap field (Phase.resolved pm (Phase.processes x)) = []
             | Some v => omap field (Phase.resolved pm (Phase.processes x)) <> []
                         /\ v == Qsum (omap field (Phase.resolved pm (Phase.processes x)))
             end).
  { intros field. unfold Phase.total_hours.
    destruct (add_hours_fold field pm (Phase.processes x) (0%Q, false)) as [I1 I2].
    cbn zeta in I1, I2. cbn [fst snd orb] in I1, I2. rewrite I2.
    destruct (omap field (Phase.resolved pm (Phase.processes x))) as [|h r];
      [reflexivity|].
    split; [discriminate|]. rewrite I1. ring. }
  split; [apply (K Process.estimated_hours) | apply (K Process.actual_hours)].
Qed.
